(** * Cashbook+ client (static/app.js): view state, filters, renderer,
      insights and export adapters

    A shallow embedding of [static/app.js].  The page script keeps one
    process-wide [state] object, reads two filter inputs from the document,
    paints a table and an insights list, and writes PDF / spreadsheet files.

    Modelling decisions, all local to this file:
    - JavaScript strings are [string]s of ASCII characters.
    - Amounts are JavaScript numbers holding decimal amounts of money; the
      model keeps them exactly, as an integer number of hundredths.
    - Arrays live in a store and are handled through references, because the
      script passes [state.allEntries] itself to the renderer and
      [Array.prototype.sort] sorts in place.
    - The document is a record with one optional field per element the script
      looks up with [getElementById]; [None] is "no such element". *)

From Stdlib Require Import ZArith QArith Qabs String Ascii List Lia Permutation Sorted Bool.
From stdpp Require Import gmap strings pretty.

Open Scope string_scope.
Open Scope list_scope.
Open Scope Z_scope.

(** ** JavaScript strings *)

Module JSString.

(** The code points [String.prototype.trim] strips, within ASCII: TAB, LF,
    VT, FF, CR and SPACE. *)
Definition isWhiteSpace (c : ascii) : bool :=
  let n := N_of_ascii c in
  ((9 <=? n) && (n <=? 13) || (n =? 32))%N.

Fixpoint trimStart (s : string) : string :=
  match s with
  | EmptyString => EmptyString
  | String c s' => if isWhiteSpace c then trimStart s' else s
  end.

Fixpoint trimEnd (s : string) : string :=
  match s with
  | EmptyString => EmptyString
  | String c s' =>
      match trimEnd s' with
      | EmptyString => if isWhiteSpace c then EmptyString else String c EmptyString
      | t => String c t
      end
  end.

(** [s.trim()] *)
Definition trim (s : string) : string := trimEnd (trimStart s).

Definition lowerChar (c : ascii) : ascii :=
  let n := N_of_ascii c in
  if ((65 <=? n) && (n <=? 90))%N then ascii_of_N (n + 32) else c.

(** [s.toLowerCase()] *)
Fixpoint toLowerCase (s : string) : string :=
  match s with
  | EmptyString => EmptyString
  | String c s' => String (lowerChar c) (toLowerCase s')
  end.

(** [s.includes(k)]: [k] occurs in [s] as a contiguous substring. *)
Fixpoint includes (s k : string) : bool :=
  String.prefix k s ||
  match s with
  | EmptyString => false
  | String _ s' => includes s' k
  end.

(** The value of a decimal digit. *)
Definition digit (c : ascii) : option Z :=
  let n := Z.of_N (N_of_ascii c) in
  if (48 <=? n) && (n <=? 57) then Some (n - 48) else None.

(** A string that does not begin with white space. *)
Definition startsClean (s : string) : bool :=
  match s with
  | EmptyString => true
  | String c _ => negb (isWhiteSpace c)
  end.

(** Truthiness of a string value: every string but the empty one. *)
Definition truthy (s : string) : bool := negb (String.eqb s "").

(** [a || b] on strings. *)
Definition or (a b : string) : string := if truthy a then a else b.

End JSString.

(** ** JavaScript numbers holding money *)

Module JSNumber.

(** An amount in hundredths: [1250] is the number [12.5]. *)
Definition money := Z.

Definition twoDigits (n : Z) : string :=
  if n <? 10 then "0" +:+ pretty n else pretty n.

Definition sign (a : money) : string := if a <? 0 then "-" else "".

(** [String(a)]: the shortest decimal numeral, without trailing zeros in
    the fraction and without a fraction when the amount is whole. *)
Definition toString (a : money) : string :=
  let m := Z.abs a in
  let f := m mod 100 in
  sign a +:+ pretty (m / 100) +:+
  (if f =? 0 then ""
   else if f mod 10 =? 0 then "." +:+ pretty (f / 10)
   else "." +:+ twoDigits f).

(** [a.toFixed(2)] *)
Definition toFixed2 (a : money) : string :=
  let m := Z.abs a in
  sign a +:+ pretty (m / 100) +:+ "." +:+ twoDigits (m mod 100).

(** A property value that went through [+]: still a number, or the text
    left by a string concatenation (whose [Number(...)] is NaN). *)
Inductive value :=
| Num (n : money)
| Text.

(** [Number(v)], [None] standing for NaN. *)
Definition toNumber (v : value) : option Z :=
  match v with Num n => Some n | Text => None end.

(** [b - a] *)
Definition sub (b a : option Z) : option Z :=
  match b, a with
  | Some x, Some y => Some (x - y)
  | _, _ => None
  end.

End JSNumber.

(** ** Dates *)

Module JSDate.

Import JSString.

Definition msPerDay : Z := 86400000.

Definition isLeap (y : Z) : bool :=
  (y mod 4 =? 0) && (negb (y mod 100 =? 0) || (y mod 400 =? 0)).

Definition daysInMonth (y m : Z) : Z :=
  if m =? 2 then (if isLeap y then 29 else 28)
  else if (m =? 4) || (m =? 6) || (m =? 9) || (m =? 11) then 30
  else 31.

(** Day number of a civil date, day 0 being 1970-01-01. *)
Definition dayNumber (y m d : Z) : Z :=
  let y' := if m <=? 2 then y - 1 else y in
  let era := y' / 400 in
  let yoe := y' - era * 400 in
  let doy := (153 * (if 2 <? m then m - 3 else m + 9) + 2) / 5 + d - 1 in
  let doe := yoe * 365 + yoe / 4 - yoe / 100 + doy in
  era * 146097 + doe - 719468.

Definition isDash (c : ascii) : bool := Ascii.eqb c "-".

(** [new Date(s)] as a time value in milliseconds for the date-only form
    [YYYY-MM-DD], which is what the date input and the entry form produce;
    it denotes midnight UTC of that day.  Every other string, and a month
    or day out of range, is an Invalid Date ([None], the time value NaN). *)
Definition parse (s : string) : option Z :=
  match s with
  | String y1 (String y2 (String y3 (String y4 (String s1
    (String m1 (String m2 (String s2 (String d1 (String d2 EmptyString))))))))) =>
      a ← digit y1; b ← digit y2; c ← digit y3; d ← digit y4;
      e ← digit m1; f ← digit m2; g ← digit d1; h ← digit d2;
      let y := 1000 * a + 100 * b + 10 * c + d in
      let m := 10 * e + f in
      let dd := 10 * g + h in
      if isDash s1 && isDash s2 && (1 <=? m) && (m <=? 12)
         && (1 <=? dd) && (dd <=? daysInMonth y m)
      then Some (dayNumber y m dd * msPerDay)
      else None
  | _ => None
  end.

End JSDate.

(** ** Arrays: [Array.prototype.sort] *)

Module JSArray.

Section Sort.
Context {A : Type}.
(** The comparator's result, [None] standing for NaN. *)
Variable compareFn : A -> A -> option Z.

(** [x] goes after [y] when the comparator is positive; NaN counts as 0. *)
Definition after (x y : A) : bool :=
  match compareFn x y with
  | Some v => 0 <? v
  | None => false
  end.

Fixpoint insert (x : A) (l : list A) : list A :=
  match l with
  | [] => [x]
  | y :: l' => if after x y then y :: insert x l' else x :: l
  end.

(** The sort is stable, so for a consistent comparator its result is the
    one stable insertion produces. *)
Definition sort (l : list A) : list A := foldr insert [] l.
End Sort.

(** The comparator [(a, b) => key(b) - key(a)], and the order it sorts
    into. *)
Definition descending {A : Type} (key : A -> Z) (a b : A) : option Z :=
  Some (key b - key a).

Definition geKey {A : Type} (key : A -> Z) (a b : A) : Prop :=
  key b <= key a.

End JSArray.

Import JSNumber.

(** ** Data model *)

Module Entry.

(** An entry as the backend returns it.  [note] is optional: [None] is a
    missing or [null] note. *)
Record t := {
  id : Z;
  date : string;
  type : string;
  amount : money;
  note : option string;
}.

(** [e.note || d] *)
Definition noteOr (e : t) (d : string) : string :=
  match note e with
  | Some s => JSString.or s d
  | None => d
  end.

(** Truthiness of [e.note]. *)
Definition hasNote (e : t) : bool := JSString.truthy (noteOr e "").

End Entry.

Record Summary := {
  total_in : money;
  total_out : money;
  balance : money;
}.

(** A reference to an array in the store. *)
Definition ref := nat.

(** The script's [state] object. *)
Record State := {
  username : string;
  activeCashbook : string;
  allEntries : ref;
  summary : Summary;
}.

(** The text [Intl.NumberFormat("en-IN", {style: "currency", currency: "INR",
    maximumFractionDigits: 2}).format(n)] produces, kept as the number it
    formats ([None] is NaN). *)
Inductive CurrencyText :=
| INR (n : option Z).

(** [formatCurrency(amount)] is [format(Number(amount || 0))]: a zero amount
    is replaced by [0], a non-empty text converts to NaN. *)
Definition formatCurrency (amount : value) : CurrencyText :=
  match amount with
  | Num n => INR (Some (if n =? 0 then 0 else n))
  | Text => INR None
  end.

(** ** The document *)

(** A table row of [#transaction-body]. *)
Inductive Row :=
| PlaceholderRow (colSpan : Z) (className textContent : string)
| EntryRow (dataType dateCell typeCell : string) (amountCell : CurrencyText)
    (noteCell : string) (dataDelete : Z).

(** An item of [#insights-list], one constructor per message template. *)
Inductive Insight :=
| KeepLogging
    (* "Keep logging entries to unlock smart insights!", and an emoji *)
| SpendingTotals (totalOut : CurrencyText)
    (* "Spending totals <totalOut> so far." *)
| LoggedInflows (totalIn : CurrencyText)
    (* "You have logged <totalIn> in cash inflows." *)
| WeekOverWeek (absPercentage : Q) (direction : string)
    (* "You spent <absPercentage.toFixed(1)>% <direction> this week compared to last." *)
| NewSpending
    (* "New spending appeared this week. Track recurring expenses for better planning." *)
| TopSpendingNote (note : string) (amount : CurrencyText)
    (* "Top spending note: "<note>" (<amount>)." *)
| NegativeBalance
    (* "Balance is negative. Consider reducing expenses or increasing income." *)
| SteadyCashFlow.
    (* "Your cash flow is steady. Keep logging data for deeper insights!" *)

Record Toast := {
  toastText : string;
  toastType : string;
}.

(** One optional field per element looked up by id; the field holds the part
    of the element the script reads or writes. *)
Record Page := {
  toast_container : option (list Toast);
  loading_overlay : option bool;
  cashbook_indicator : option string;
  active_cashbook_name : option string;
  welcome_user : option string;
  total_in_el : option CurrencyText;
  total_out_el : option CurrencyText;
  balance_el : option CurrencyText;
  search_input : option string;
  date_filter : option string;
  transaction_body : option (list Row);
  entry_count : option string;
  insights_list : option (list Insight);
}.

(** ** Files written by the export adapters *)

(** Vertical positions in the PDF: absolute, or relative to the end of the
    table ([doc.lastAutoTable.finalY] plus an offset). *)
Inductive YPos :=
| AtY (y : Z)
| BelowTable (offset : Z).

(** The calls made on the jsPDF document, in order. *)
Inductive PdfOp :=
| SetFont (family style : string)
| SetFontSize (size : Z)
| TextAt (text : string) (x : Z) (y : YPos)
| AutoTable (head : list string) (body : list (list string)) (startY : Z).

Record PdfDocument := {
  pdfOps : list PdfOp;
  pdfFileName : string;
}.

Record Workbook := {
  sheetName : string;
  sheetData : list (list string);
  xlsxFileName : string;
}.

Inductive File :=
| PdfFile (d : PdfDocument)
| XlsxFile (w : Workbook).

(** ** The backend, as the answers [fetch] gets *)

Inductive Response (A : Type) :=
| Unauthorized
| Failed (message : string)
| Ok (body : A).
Arguments Unauthorized {A}.
Arguments Failed {A} message.
Arguments Ok {A} body.

Record CashbooksBody := {
  body_username : option string;
  body_cashbooks : option (list string);
}.

Record Backend := {
  get_cashbooks : Response CashbooksBody;
  get_entries : string -> Response (option (list Entry.t));
  get_summary : string -> Response Summary;
}.

(** ** The world the script runs in *)

Record World := {
  state : State;
  arrays : gmap ref (list Entry.t);
  document : Page;
  downloads : list File;
  localStorage : gmap string (list Entry.t);
  location_href : option string;
  url_cashbook : option string;
  clock : Z;
  localeDate : string;
  backend : Backend;
}.

(** Field updates. *)
Definition with_state (f : State -> State) (w : World) : World :=
  {| state := f (state w); arrays := arrays w; document := document w;
     downloads := downloads w; localStorage := localStorage w;
     location_href := location_href w; url_cashbook := url_cashbook w;
     clock := clock w; localeDate := localeDate w; backend := backend w |}.

Definition with_arrays (f : gmap ref (list Entry.t) -> gmap ref (list Entry.t))
    (w : World) : World :=
  {| state := state w; arrays := f (arrays w); document := document w;
     downloads := downloads w; localStorage := localStorage w;
     location_href := location_href w; url_cashbook := url_cashbook w;
     clock := clock w; localeDate := localeDate w; backend := backend w |}.

Definition with_document (f : Page -> Page) (w : World) : World :=
  {| state := state w; arrays := arrays w; document := f (document w);
     downloads := downloads w; localStorage := localStorage w;
     location_href := location_href w; url_cashbook := url_cashbook w;
     clock := clock w; localeDate := localeDate w; backend := backend w |}.

Definition with_downloads (f : list File -> list File) (w : World) : World :=
  {| state := state w; arrays := arrays w; document := document w;
     downloads := f (downloads w); localStorage := localStorage w;
     location_href := location_href w; url_cashbook := url_cashbook w;
     clock := clock w; localeDate := localeDate w; backend := backend w |}.

Definition with_localStorage
    (f : gmap string (list Entry.t) -> gmap string (list Entry.t))
    (w : World) : World :=
  {| state := state w; arrays := arrays w; document := document w;
     downloads := downloads w; localStorage := f (localStorage w);
     location_href := location_href w; url_cashbook := url_cashbook w;
     clock := clock w; localeDate := localeDate w; backend := backend w |}.

Definition with_location_href (h : option string) (w : World) : World :=
  {| state := state w; arrays := arrays w; document := document w;
     downloads := downloads w; localStorage := localStorage w;
     location_href := h; url_cashbook := url_cashbook w;
     clock := clock w; localeDate := localeDate w; backend := backend w |}.

Definition set_username (u : string) (s : State) : State :=
  {| username := u; activeCashbook := activeCashbook s;
     allEntries := allEntries s; summary := summary s |}.

Definition set_activeCashbook (c : string) (s : State) : State :=
  {| username := username s; activeCashbook := c;
     allEntries := allEntries s; summary := summary s |}.

Definition set_allEntries (r : ref) (s : State) : State :=
  {| username := username s; activeCashbook := activeCashbook s;
     allEntries := r; summary := summary s |}.

Definition set_summary (m : Summary) (s : State) : State :=
  {| username := username s; activeCashbook := activeCashbook s;
     allEntries := allEntries s; summary := m |}.

Definition set_toast_container (v : option (list Toast)) (p : Page) : Page :=
  {| toast_container := v; loading_overlay := loading_overlay p;
     cashbook_indicator := cashbook_indicator p;
     active_cashbook_name := active_cashbook_name p;
     welcome_user := welcome_user p; total_in_el := total_in_el p;
     total_out_el := total_out_el p; balance_el := balance_el p;
     search_input := search_input p; date_filter := date_filter p;
     transaction_body := transaction_body p; entry_count := entry_count p;
     insights_list := insights_list p |}.

Definition set_loading_overlay (v : option bool) (p : Page) : Page :=
  {| toast_container := toast_container p; loading_overlay := v;
     cashbook_indicator := cashbook_indicator p;
     active_cashbook_name := active_cashbook_name p;
     welcome_user := welcome_user p; total_in_el := total_in_el p;
     total_out_el := total_out_el p; balance_el := balance_el p;
     search_input := search_input p; date_filter := date_filter p;
     transaction_body := transaction_body p; entry_count := entry_count p;
     insights_list := insights_list p |}.

Definition set_cashbook_indicator (v : option string) (p : Page) : Page :=
  {| toast_container := toast_container p; loading_overlay := loading_overlay p;
     cashbook_indicator := v;
     active_cashbook_name := active_cashbook_name p;
     welcome_user := welcome_user p; total_in_el := total_in_el p;
     total_out_el := total_out_el p; balance_el := balance_el p;
     search_input := search_input p; date_filter := date_filter p;
     transaction_body := transaction_body p; entry_count := entry_count p;
     insights_list := insights_list p |}.

Definition set_active_cashbook_name (v : option string) (p : Page) : Page :=
  {| toast_container := toast_container p; loading_overlay := loading_overlay p;
     cashbook_indicator := cashbook_indicator p;
     active_cashbook_name := v;
     welcome_user := welcome_user p; total_in_el := total_in_el p;
     total_out_el := total_out_el p; balance_el := balance_el p;
     search_input := search_input p; date_filter := date_filter p;
     transaction_body := transaction_body p; entry_count := entry_count p;
     insights_list := insights_list p |}.

Definition set_welcome_user (v : option string) (p : Page) : Page :=
  {| toast_container := toast_container p; loading_overlay := loading_overlay p;
     cashbook_indicator := cashbook_indicator p;
     active_cashbook_name := active_cashbook_name p;
     welcome_user := v; total_in_el := total_in_el p;
     total_out_el := total_out_el p; balance_el := balance_el p;
     search_input := search_input p; date_filter := date_filter p;
     transaction_body := transaction_body p; entry_count := entry_count p;
     insights_list := insights_list p |}.

Definition set_summary_cards (i o b : option CurrencyText) (p : Page) : Page :=
  {| toast_container := toast_container p; loading_overlay := loading_overlay p;
     cashbook_indicator := cashbook_indicator p;
     active_cashbook_name := active_cashbook_name p;
     welcome_user := welcome_user p; total_in_el := i;
     total_out_el := o; balance_el := b;
     search_input := search_input p; date_filter := date_filter p;
     transaction_body := transaction_body p; entry_count := entry_count p;
     insights_list := insights_list p |}.

Definition set_search_input (v : option string) (p : Page) : Page :=
  {| toast_container := toast_container p; loading_overlay := loading_overlay p;
     cashbook_indicator := cashbook_indicator p;
     active_cashbook_name := active_cashbook_name p;
     welcome_user := welcome_user p; total_in_el := total_in_el p;
     total_out_el := total_out_el p; balance_el := balance_el p;
     search_input := v; date_filter := date_filter p;
     transaction_body := transaction_body p; entry_count := entry_count p;
     insights_list := insights_list p |}.

Definition set_transaction_body (v : option (list Row)) (p : Page) : Page :=
  {| toast_container := toast_container p; loading_overlay := loading_overlay p;
     cashbook_indicator := cashbook_indicator p;
     active_cashbook_name := active_cashbook_name p;
     welcome_user := welcome_user p; total_in_el := total_in_el p;
     total_out_el := total_out_el p; balance_el := balance_el p;
     search_input := search_input p; date_filter := date_filter p;
     transaction_body := v; entry_count := entry_count p;
     insights_list := insights_list p |}.

Definition set_entry_count (v : option string) (p : Page) : Page :=
  {| toast_container := toast_container p; loading_overlay := loading_overlay p;
     cashbook_indicator := cashbook_indicator p;
     active_cashbook_name := active_cashbook_name p;
     welcome_user := welcome_user p; total_in_el := total_in_el p;
     total_out_el := total_out_el p; balance_el := balance_el p;
     search_input := search_input p; date_filter := date_filter p;
     transaction_body := transaction_body p; entry_count := v;
     insights_list := insights_list p |}.

Definition set_insights_list (v : option (list Insight)) (p : Page) : Page :=
  {| toast_container := toast_container p; loading_overlay := loading_overlay p;
     cashbook_indicator := cashbook_indicator p;
     active_cashbook_name := active_cashbook_name p;
     welcome_user := welcome_user p; total_in_el := total_in_el p;
     total_out_el := total_out_el p; balance_el := balance_el p;
     search_input := search_input p; date_filter := date_filter p;
     transaction_body := transaction_body p; entry_count := entry_count p;
     insights_list := v |}.

(** ** A state monad over the world *)

Definition M (A : Type) : Type := World -> A * World.

Definition ret {A : Type} (a : A) : M A := fun w => (a, w).

Definition bind {A B : Type} (m : M A) (k : A -> M B) : M B :=
  fun w => let (a, w') := m w in k a w'.

Notation "x <- m ;; k" := (bind m (fun x => k))
  (at level 100, m at level 99, k at level 200, right associativity).
Notation "m ;; k" := (bind m (fun _ => k))
  (at level 100, k at level 200, right associativity).

Definition get : M World := fun w => (w, w).

Definition modify (f : World -> World) : M unit := fun w => (tt, f w).

(** The world an action leaves behind. *)
Definition exec {A : Type} (m : M A) (w : World) : World := snd (m w).

(** [l.forEach(f)] *)
Fixpoint forEach {A : Type} (f : A -> M unit) (l : list A) : M unit :=
  match l with
  | [] => ret tt
  | x :: l' => f x ;; forEach f l'
  end.

(** ** The array store *)

(** The contents of an array; a reference that was never allocated reads as
    the empty array. *)
Definition contents (w : World) (r : ref) : list Entry.t :=
  default [] (arrays w !! r).

(** A new array: [[]], [[...a]], the result of [slice] or [filter], a parsed
    response. *)
Definition alloc (l : list Entry.t) : M ref :=
  fun w => let r := fresh (dom (arrays w)) in (r, with_arrays (insert r l) w).

Definition read (r : ref) : M (list Entry.t) :=
  fun w => (contents w r, w).

Definition write (r : ref) (l : list Entry.t) : M unit :=
  modify (with_arrays (insert r l)).

(** [a.slice()] and [[...a]] *)
Definition Array_slice (a : ref) : M ref :=
  l <- read a ;; alloc l.

(** [a.filter(p)] *)
Definition Array_filter (p : Entry.t -> bool) (a : ref) : M ref :=
  l <- read a ;; alloc (List.filter p l).

(** [a.sort(compareFn)]: sorts [a] itself and returns it. *)
Definition Array_sort (compareFn : Entry.t -> Entry.t -> option Z) (a : ref) : M ref :=
  l <- read a ;; write a (JSArray.sort compareFn l) ;; ret a.

(** ** Plain objects used as dictionaries *)

Module JSObject.

(** The own properties of an object created by [{}], in creation order. *)
Definition t := list (string * value).

Fixpoint getOwn (key : string) (o : t) : option value :=
  match o with
  | [] => None
  | (k, v) :: o' => if String.eqb k key then Some v else getOwn key o'
  end.

Fixpoint setOwn (key : string) (v : value) (o : t) : t :=
  match o with
  | [] => [(key, v)]
  | (k, x) :: o' =>
      if String.eqb k key then (k, v) :: o' else (k, x) :: setOwn key v o'
  end.

(** The lower-case property names every object inherits from
    [Object.prototype]: reading them on [{}] yields a function or an object,
    never [undefined]. *)
Definition inheritedName (key : string) : bool :=
  String.eqb key "constructor" || String.eqb key "__proto__".

(** [(o[key] || 0) + n]: an own number is added to; an own text, or an
    inherited function or object, is concatenated with, giving a text. *)
Definition readOrZeroPlus (o : t) (key : string) (n : money) : value :=
  match getOwn key o with
  | Some (Num m) => Num ((if m =? 0 then 0 else m) + n)
  | Some Text => Text
  | None => if inheritedName key then Text else Num (0 + n)
  end.

(** [o[key] = v] for a primitive [v]: the [__proto__] setter ignores it. *)
Definition assign (key : string) (v : value) (o : t) : t :=
  if String.eqb key "__proto__" then o else setOwn key v o.

Fixpoint digitsValue (acc : Z) (s : string) : option Z :=
  match s with
  | EmptyString => Some acc
  | String c s' => d ← JSString.digit c; digitsValue (10 * acc + d) s'
  end.

(** A key that is an array index: the canonical numeral of an integer below
    [2^32 - 1]. *)
Definition arrayIndex (key : string) : option Z :=
  match key with
  | EmptyString => None
  | _ =>
      n ← digitsValue 0 key;
      if String.eqb (pretty n) key && (n <? 2 ^ 32 - 1) then Some n else None
  end.

Definition indexed (o : t) : list (Z * (string * value)) :=
  omap (fun kv => n ← arrayIndex kv.1; Some (n, kv)) o.

(** [Object.entries(o)]: array-index keys in ascending numeric order, then
    the other keys in creation order. *)
Definition entries (o : t) : list (string * value) :=
  map snd (JSArray.sort (fun a b => Some (a.1 - b.1)) (indexed o))
  ++ List.filter
       (fun kv => match arrayIndex kv.1 with Some _ => false | None => true end) o.

End JSObject.

(** ** The script *)

(** The toast is appended to the container; the timers that later fade it
    out and remove it are left out. *)
Definition showToast (message type : string) : M unit :=
  w <- get ;;
  match toast_container (document w) with
  | None => ret tt
  | Some toasts =>
      let toast := {| toastText := message; toastType := type |} in
      modify (with_document (set_toast_container (Some (toasts ++ [toast]))))
  end.

Definition showLoading (active : bool) : M unit :=
  w <- get ;;
  match loading_overlay (document w) with
  | None => ret tt
  | Some _ => modify (with_document (set_loading_overlay (Some active)))
  end.

(** [fetchJSON]: the parsed body, or the message of the error it rejects
    with.  A 401 answer also sends the browser to the login page; for any
    other failure the message is [payload.detail || payload.message], kept
    here as the one string [message], or else "Request failed". *)
Definition fetchJSON {A : Type} (answer : Response A) : M (string + A) :=
  match answer with
  | Unauthorized =>
      modify (with_location_href (Some "/login")) ;;
      ret (inl "Unauthorized")
  | Failed message => ret (inl (JSString.or message "Request failed"))
  | Ok body => ret (inr body)
  end.

Definition getCashbookFromURL : M string :=
  w <- get ;;
  ret (JSString.or (default "" (url_cashbook w)) "").

Definition updateCashbookIndicator : M unit :=
  w <- get ;;
  match cashbook_indicator (document w), active_cashbook_name (document w) with
  | Some _, Some _ =>
      if JSString.truthy (activeCashbook (state w)) then
        modify (with_document (set_cashbook_indicator (Some "flex"))) ;;
        modify (with_document
                  (set_active_cashbook_name (Some (activeCashbook (state w)))))
      else
        modify (with_document (set_cashbook_indicator (Some "none")))
  | _, _ => ret tt
  end.

(** [animateValue(element, start, end)]: the text the element ends up with. *)
Definition animateValue (start end_ : money) : CurrencyText :=
  formatCurrency (Num end_).

Definition updateSummaryCards (s : Summary) : M unit :=
  w <- get ;;
  match total_in_el (document w), total_out_el (document w),
        balance_el (document w) with
  | Some _, Some _, Some _ =>
      let old := summary (state w) in
      modify (with_document (set_summary_cards
        (Some (animateValue (total_in old) (total_in s)))
        (Some (animateValue (total_out old) (total_out s)))
        (Some (animateValue (balance old) (balance s))))) ;;
      modify (with_state (set_summary s))
  | _, _, _ => ret tt
  end.

(** *** Insights *)

Definition isType (t : string) (e : Entry.t) : bool :=
  String.eqb (Entry.type e) t.

(** [l.reduce((sum, e) => sum + Number(e.amount), 0)] *)
Definition sumAmounts (l : list Entry.t) : Z :=
  fold_left (fun sum e => sum + Entry.amount e) l 0.

(** [new Date(d) >= t] and [new Date(d) < t]; false on an Invalid Date. *)
Definition dateGe (d : string) (t : Z) : bool :=
  match JSDate.parse d with Some x => t <=? x | None => false end.

Definition dateLt (d : string) (t : Z) : bool :=
  match JSDate.parse d with Some x => x <? t | None => false end.

(** The reducer that builds [topNotes]. *)
Definition addNote (acc : JSObject.t) (entry : Entry.t) : JSObject.t :=
  let key := JSString.toLowerCase (JSString.trim (Entry.noteOr entry "")) in
  JSObject.assign key (JSObject.readOrZeroPlus acc key (Entry.amount entry)) acc.

(** The comparator [(a, b) => b[1] - a[1]]. *)
Definition byAmountDesc (a b : string * value) : option Z :=
  JSNumber.sub (toNumber b.2) (toNumber a.2).

(** The [insights] array [updateInsights] builds for a non-empty entry list,
    [now] being the clock and [bal] being [state.summary.balance].  Seven
    days ago is taken as seven times 24 hours before [now]; the percentage
    is computed in exact rationals. *)
Definition insightsOf (now : Z) (bal : money) (entries : list Entry.t)
    : list Insight :=
  let totalIn := sumAmounts (List.filter (isType "cash_in") entries) in
  let totalOut := sumAmounts (List.filter (isType "cash_out") entries) in
  let sevenDaysAgo := now - 7 * JSDate.msPerDay in
  let fourteenDaysAgo := now - 14 * JSDate.msPerDay in
  let spendLastWeek :=
    sumAmounts (List.filter
      (fun e => isType "cash_out" e && dateGe (Entry.date e) sevenDaysAgo)
      entries) in
  let spendPrevWeek :=
    sumAmounts (List.filter
      (fun e => isType "cash_out" e && dateLt (Entry.date e) sevenDaysAgo
                && dateGe (Entry.date e) fourteenDaysAgo)
      entries) in
  let insights := [] in
  let insights :=
    if 0 <? totalOut
    then insights ++ [SpendingTotals (formatCurrency (Num totalOut))]
    else insights in
  let insights :=
    if 0 <? totalIn
    then insights ++ [LoggedInflows (formatCurrency (Num totalIn))]
    else insights in
  let insights :=
    if 0 <? spendPrevWeek then
      let diff := spendLastWeek - spendPrevWeek in
      let percentage := (inject_Z diff / inject_Z spendPrevWeek * inject_Z 100)%Q in
      if Qle_bool (inject_Z 10) (Qabs percentage) then
        let direction := if Qle_bool percentage 0 then "less" else "more" in
        insights ++ [WeekOverWeek (Qred (Qabs percentage)) direction]
      else insights
    else if 0 <? spendLastWeek then insights ++ [NewSpending]
    else insights in
  let topNotes :=
    fold_left addNote
      (List.filter (fun e => isType "cash_out" e && Entry.hasNote e) entries)
      [] in
  let sortedNotes := JSArray.sort byAmountDesc (JSObject.entries topNotes) in
  let insights :=
    match sortedNotes with
    | (note, amount) :: _ =>
        insights ++ [TopSpendingNote note (formatCurrency amount)]
    | [] => insights
    end in
  let insights :=
    if bal <? 0 then insights ++ [NegativeBalance] else insights in
  let insights :=
    if (length insights =? 0)%nat then insights ++ [SteadyCashFlow]
    else insights in
  insights.

(** [new Date()] as a time value. *)
Definition Date_now : M Z :=
  w <- get ;; ret (clock w).

Definition appendInsight (item : Insight) : M unit :=
  modify (with_document (fun p =>
    set_insights_list (Some (default [] (insights_list p) ++ [item])) p)).

Definition updateInsights (entries : ref) : M unit :=
  w <- get ;;
  match insights_list (document w) with
  | None => ret tt
  | Some _ =>
      modify (with_document (set_insights_list (Some []))) ;;
      l <- read entries ;;
      if (length l =? 0)%nat then appendInsight KeepLogging
      else
        now <- Date_now ;;
        w' <- get ;;
        forEach appendInsight (insightsOf now (balance (summary (state w'))) l)
  end.

(** *** Renderer *)

(** The comparator [(a, b) => new Date(b.date) - new Date(a.date)]. *)
Definition byDateDesc (a b : Entry.t) : option Z :=
  JSNumber.sub (JSDate.parse (Entry.date b)) (JSDate.parse (Entry.date a)).

(** The text shown for an empty note; these are the characters the source
    file holds. *)
Definition notePlaceholder : string := "â€”".

Definition typeLabel (e : Entry.t) : string :=
  if String.eqb (Entry.type e) "cash_in" then "Cash In" else "Cash Out".

Definition entryRow (entry : Entry.t) : Row :=
  EntryRow (Entry.type entry) (Entry.date entry) (typeLabel entry)
    (formatCurrency (Num (Entry.amount entry)))
    (Entry.noteOr entry notePlaceholder) (Entry.id entry).

Definition appendRow (row : Row) : M unit :=
  modify (with_document (fun p =>
    set_transaction_body (Some (default [] (transaction_body p) ++ [row])) p)).

(** [countEl && (countEl.textContent = text)] *)
Definition setEntryCount (text : string) : M unit :=
  w <- get ;;
  match entry_count (document w) with
  | None => ret tt
  | Some _ => modify (with_document (set_entry_count (Some text)))
  end.

Definition emptyStateRow : Row :=
  PlaceholderRow 5 "empty-state" "No transactions found. Add your first entry!".

Definition renderEntries (entries : ref) : M unit :=
  w <- get ;;
  match transaction_body (document w) with
  | None => ret tt
  | Some _ =>
      modify (with_document (set_transaction_body (Some []))) ;;
      l <- read entries ;;
      if (length l =? 0)%nat then
        appendRow emptyStateRow ;;
        setEntryCount "0 entries" ;;
        empty <- alloc [] ;;
        updateInsights empty
      else
        copy <- Array_slice entries ;;
        sorted <- Array_sort byDateDesc copy ;;
        rows <- read sorted ;;
        forEach (fun entry => appendRow (entryRow entry)) rows ;;
        setEntryCount
          (pretty (length l) +:+ " " +:+
           (if (length l =? 1)%nat then "entry" else "entries")) ;;
        updateInsights entries
  end.

(** *** Filter engine *)

(** The keyword predicate of [applyFilters]. *)
Definition matchesKeyword (keyword : string) (entry : Entry.t) : bool :=
  JSString.includes (JSString.toLowerCase (Entry.noteOr entry "")) keyword
  || JSString.includes (JSNumber.toString (Entry.amount entry)) keyword.

(** The date predicate of [applyFilters]. *)
Definition matchesDate (dateFilter : string) (entry : Entry.t) : bool :=
  String.eqb (Entry.date entry) dateFilter.

(** [applyFilters] up to its last statement: the array it hands to the
    renderer. *)
Definition filteredEntries : M ref :=
  w <- get ;;
  let keyword :=
    JSString.toLowerCase
      (JSString.trim (JSString.or (default "" (search_input (document w))) "")) in
  let dateFilter := JSString.or (default "" (date_filter (document w))) "" in
  filtered <- Array_slice (allEntries (state w)) ;;
  filtered <-
    (if JSString.truthy keyword
     then Array_filter (matchesKeyword keyword) filtered
     else ret filtered) ;;
  filtered <-
    (if JSString.truthy dateFilter
     then Array_filter (matchesDate dateFilter) filtered
     else ret filtered) ;;
  ret filtered.

Definition applyFilters : M unit :=
  filtered <- filteredEntries ;;
  renderEntries filtered.

(** *** Loading *)

Definition noSummary : Summary :=
  {| total_in := 0; total_out := 0; balance := 0 |}.

Definition loadEntries : M unit :=
  w <- get ;;
  if negb (JSString.truthy (activeCashbook (state w))) then
    empty <- alloc [] ;;
    renderEntries empty ;;
    updateSummaryCards noSummary
  else
    showLoading true ;;
    entriesResponse <-
      fetchJSON (get_entries (backend w) (activeCashbook (state w))) ;;
    match entriesResponse with
    | inl message => showToast message "error"
    | inr body =>
        entries <- alloc (default [] body) ;;
        modify (with_state (set_allEntries entries)) ;;
        modify (with_localStorage
          (insert ("transactions_" +:+ activeCashbook (state w)) (default [] body))) ;;
        summaryResponse <-
          fetchJSON (get_summary (backend w) (activeCashbook (state w))) ;;
        match summaryResponse with
        | inl message => showToast message "error"
        | inr s =>
            updateSummaryCards s ;;
            w' <- get ;;
            renderEntries (allEntries (state w'))
        end
    end ;;
    showLoading false.

(** [cashbooks.includes(name)] *)
Definition includesName (cashbooks : list string) (name : string) : bool :=
  existsb (String.eqb name) cashbooks.

Definition loadCashbooks : M unit :=
  showLoading true ;;
  w <- get ;;
  response <- fetchJSON (get_cashbooks (backend w)) ;;
  match response with
  | inl message => showToast message "error"
  | inr data =>
      (if JSString.truthy (default "" (body_username data)) then
         modify (with_state (set_username (default "" (body_username data)))) ;;
         w' <- get ;;
         match welcome_user (document w') with
         | None => ret tt
         | Some _ =>
             modify (with_document (set_welcome_user
               (Some ("Hi, " +:+ username (state w') +:+ "!"))))
         end
       else ret tt) ;;
      let cashbooks := default [] (body_cashbooks data) in
      urlCashbook <- getCashbookFromURL ;;
      w' <- get ;;
      (if JSString.truthy urlCashbook && includesName cashbooks urlCashbook then
         modify (with_state (set_activeCashbook urlCashbook))
       else if (0 <? length cashbooks)%nat
               && negb (JSString.truthy (activeCashbook (state w'))) then
         modify (with_state (set_activeCashbook (default "" (head cashbooks))))
       else if (length cashbooks =? 0)%nat then
         modify (with_state (set_activeCashbook ""))
       else ret tt) ;;
      updateCashbookIndicator ;;
      loadEntries
  end ;;
  showLoading false.

(** *** Export adapters *)

(** Row [i] (from 0) of the exported table. *)
Definition exportRow (i : nat) (t : Entry.t) : list string :=
  [pretty (i + 1)%nat; Entry.date t; typeLabel t;
   JSNumber.toFixed2 (Entry.amount t); Entry.noteOr t "-"].

(** [l.reduce((sum, t) => sum + t.amount, 0)] *)
Definition sumRaw (l : list Entry.t) : Z :=
  fold_left (fun sum t => sum + Entry.amount t) l 0.

(** [entries.slice().sort(...).map((t, i) => [...])]; the jsPDF and SheetJS
    libraries are taken to be loaded. *)
Definition exportRows (entries : ref) : M (list (list string)) :=
  copy <- Array_slice entries ;;
  sorted <- Array_sort byDateDesc copy ;;
  l <- read sorted ;;
  ret (imap exportRow l).

Definition tableHead : list string := ["#"; "Date"; "Type"; "Amount"; "Note"].

Definition exportPDFOnly (cashbook : string) : M unit :=
  w <- get ;;
  let entries := allEntries (state w) in
  l <- read entries ;;
  if (length l =? 0)%nat then showToast "No data to export." "info"
  else
    rows <- exportRows entries ;;
    l <- read entries ;;
    let totalIn := sumRaw (List.filter (isType "cash_in") l) in
    let totalOut := sumRaw (List.filter (isType "cash_out") l) in
    let balance := totalIn - totalOut in
    let doc :=
      [SetFont "helvetica" "normal";
       SetFontSize 14;
       TextAt "CashBook+ Transactions" 14 (AtY 20);
       SetFontSize 11;
       TextAt ("Cashbook: " +:+ cashbook) 14 (AtY 28);
       TextAt ("Exported on: " +:+ localeDate w) 140 (AtY 28);
       AutoTable tableHead rows 36;
       SetFontSize 11;
       SetFont "helvetica" "bold";
       TextAt ("Total Cash In: " +:+ JSNumber.toFixed2 totalIn) 14 (BelowTable 8);
       TextAt ("Total Cash Out: " +:+ JSNumber.toFixed2 totalOut) 14
         (BelowTable (8 + 6));
       TextAt ("Balance: " +:+ JSNumber.toFixed2 balance) 14
         (BelowTable (8 + 12))] in
    modify (with_downloads (fun files => files ++
      [PdfFile {| pdfOps := doc;
                  pdfFileName := cashbook +:+ "-transactions.pdf" |}])) ;;
    showToast "PDF exported successfully!" "success".

Definition exportExcelOnly (cashbook : string) : M unit :=
  w <- get ;;
  let entries := allEntries (state w) in
  l <- read entries ;;
  if (length l =? 0)%nat then showToast "No data to export." "info"
  else
    rows <- exportRows entries ;;
    l <- read entries ;;
    let totalIn := sumRaw (List.filter (isType "cash_in") l) in
    let totalOut := sumRaw (List.filter (isType "cash_out") l) in
    let balance := totalIn - totalOut in
    let worksheetData :=
      [tableHead] ++ rows ++
      [[];
       [""; ""; "Total Cash In"; JSNumber.toFixed2 totalIn];
       [""; ""; "Total Cash Out"; JSNumber.toFixed2 totalOut];
       [""; ""; "Balance"; JSNumber.toFixed2 balance]] in
    modify (with_downloads (fun files => files ++
      [XlsxFile {| sheetName := "Transactions";
                   sheetData := worksheetData;
                   xlsxFileName := cashbook +:+ "-transactions.xlsx" |}])) ;;
    showToast "Excel exported successfully!" "success".


(** *** Event handlers

    The listeners [bindEvents] registers, one definition per listener.  The
    answer of the backend to the request a listener sends is an argument. *)

Definition set_date_filter (v : option string) (p : Page) : Page :=
  {| toast_container := toast_container p; loading_overlay := loading_overlay p;
     cashbook_indicator := cashbook_indicator p;
     active_cashbook_name := active_cashbook_name p;
     welcome_user := welcome_user p; total_in_el := total_in_el p;
     total_out_el := total_out_el p; balance_el := balance_el p;
     search_input := search_input p; date_filter := v;
     transaction_body := transaction_body p; entry_count := entry_count p;
     insights_list := insights_list p |}.

(** The [submit] listener of [#entry-form]; [answer] is the answer to
    [POST /api/add_entry].  The form fields themselves are not part of the
    page model, so [entryForm.reset()] leaves no trace here. *)
Definition onEntrySubmit (answer : Response unit) : M unit :=
  w <- get ;;
  if negb (JSString.truthy (activeCashbook (state w))) then
    showToast "Please select a cashbook from the Cashbooks page first" "info" ;;
    modify (with_location_href (Some "/cashbooks"))
  else
    response <- fetchJSON answer ;;
    match response with
    | inl message => showToast message "error"
    | inr _ =>
        showToast "Entry added" "success" ;;
        loadEntries
    end.

(** The [click] listener of [#transaction-body]; [target] is the
    [data-delete] attribute of the clicked element, if it has one, and
    [answer] the answer to [DELETE /api/delete_entry/<id>]. *)
Definition onTableClick (target : option Z) (answer : Response unit) : M unit :=
  match target with
  | None => ret tt
  | Some entryId =>
      w <- get ;;
      if negb (JSString.truthy (activeCashbook (state w))) then
        showToast "No cashbook selected" "info"
      else
        response <- fetchJSON answer ;;
        match response with
        | inl message => showToast message "error"
        | inr _ =>
            showToast "Entry deleted" "success" ;;
            loadEntries
        end
  end.

(** The [click] listener of [#clear-filters]. *)
Definition onClearFilters : M unit :=
  w <- get ;;
  match search_input (document w) with
  | Some _ => modify (with_document (set_search_input (Some "")))
  | None => ret tt
  end ;;
  match date_filter (document w) with
  | Some _ => modify (with_document (set_date_filter (Some "")))
  | None => ret tt
  end ;;
  applyFilters.

(** The [click] listeners of [#export-pdf] and [#export-excel]. *)
Definition onExportPDF : M unit :=
  w <- get ;;
  if negb (JSString.truthy (activeCashbook (state w))) then
    showToast "Select a cashbook to export." "info"
  else exportPDFOnly (activeCashbook (state w)).

Definition onExportExcel : M unit :=
  w <- get ;;
  if negb (JSString.truthy (activeCashbook (state w))) then
    showToast "Select a cashbook to export." "info"
  else exportExcelOnly (activeCashbook (state w)).

(** The [click] listener of [#logout-btn]: [try { await fetchJSON(...) }
    finally { window.location.href = "/login" }]. *)
Definition onLogout (answer : Response unit) : M unit :=
  fetchJSON answer ;;
  modify (with_location_href (Some "/login")).

(** *** Theme *)

Module Theme.

(** What the theme code touches: the class list of [document.body], the text
    of [#theme-toggle] when the button exists, the [cb_theme] item of
    [localStorage], and the [prefers-color-scheme: dark] media query. *)
Record Env := {
  bodyClasses : list string;
  theme_toggle : option string;
  cb_theme : option string;
  prefersDark : bool;
}.

Definition contains (c : string) (classes : list string) : bool :=
  existsb (String.eqb c) classes.

(** [classList.remove(a, b)] *)
Definition remove2 (a b : string) (classes : list string) : list string :=
  List.filter (fun c => negb (String.eqb c a) && negb (String.eqb c b)) classes.

(** [classList.add(c)] *)
Definition add (c : string) (classes : list string) : list string :=
  if contains c classes then classes else classes ++ [c].

(** The two button texts, with the characters the source file holds. *)
Definition sunIcon : string := "â˜€ï¸".
Definition moonIcon : string := "ðŸŒ™".

Definition isDark (theme : string) : bool := String.eqb theme "dark".

Definition setTheme (theme : string) (e : Env) : Env :=
  {| bodyClasses :=
       add (if isDark theme then "theme-dark" else "theme-light")
         (remove2 "theme-light" "theme-dark" (bodyClasses e));
     theme_toggle :=
       match theme_toggle e with
       | Some _ => Some (if isDark theme then sunIcon else moonIcon)
       | None => None
       end;
     cb_theme := Some theme;
     prefersDark := prefersDark e |}.

(** [saved || (prefersDark ? "dark" : "light")] *)
Definition initialTheme (e : Env) : string :=
  JSString.or (default "" (cb_theme e)) (if prefersDark e then "dark" else "light").

(** [handleThemeInitialization], up to the registration of the listener. *)
Definition handleThemeInitialization (e : Env) : Env :=
  setTheme (initialTheme e) e.

(** The [click] listener of [#theme-toggle]. *)
Definition onToggle (e : Env) : Env :=
  setTheme (if contains "theme-dark" (bodyClasses e) then "light" else "dark") e.

(** The class [setTheme] adds for a theme. *)
Definition classOf (theme : string) : string :=
  if isDark theme then "theme-dark" else "theme-light".

(** A class that is not one of the two theme classes. *)
Definition plain (c : string) : bool :=
  negb (String.eqb c "theme-light") && negb (String.eqb c "theme-dark").

End Theme.

(** ** What the script computes, as pure functions

    The definitions below restate the effect of the stateful functions above
    as functions on lists and pages; the theorems of the next part relate the
    two. *)

(** The keyword and date the filter engine reads from the page. *)
Definition keywordOf (raw : string) : string :=
  JSString.toLowerCase (JSString.trim (JSString.or raw "")).

Definition pageKeyword (p : Page) : string :=
  keywordOf (default "" (search_input p)).

Definition pageDate (p : Page) : string :=
  JSString.or (default "" (date_filter p)) "".

(** The entries that pass both predicates, in their original order. *)
Definition filterList (keyword dateFilter : string) (l : list Entry.t)
    : list Entry.t :=
  let l := if JSString.truthy keyword
           then List.filter (matchesKeyword keyword) l else l in
  if JSString.truthy dateFilter
  then List.filter (matchesDate dateFilter) l else l.

(** The rows of the table for an entry list. *)
Definition tableRows (l : list Entry.t) : list Row :=
  if (length l =? 0)%nat then [emptyStateRow]
  else map entryRow (JSArray.sort byDateDesc l).

Definition countText (l : list Entry.t) : string :=
  if (length l =? 0)%nat then "0 entries"
  else pretty (length l) +:+ " " +:+
       (if (length l =? 1)%nat then "entry" else "entries").

(** The items of the insights list for an entry list. *)
Definition shownInsights (now : Z) (bal : money) (l : list Entry.t)
    : list Insight :=
  if (length l =? 0)%nat then [KeepLogging] else insightsOf now bal l.

Definition paintInsights (items : list Insight) (p : Page) : Page :=
  match insights_list p with
  | None => p
  | Some _ => set_insights_list (Some items) p
  end.

Definition paintCount (text : string) (p : Page) : Page :=
  match entry_count p with
  | None => p
  | Some _ => set_entry_count (Some text) p
  end.

Definition paintToast (message type : string) (p : Page) : Page :=
  match toast_container p with
  | None => p
  | Some toasts =>
      set_toast_container
        (Some (toasts ++ [{| toastText := message; toastType := type |}])) p
  end.

(** The page after [renderEntries] ran on the entry list [l]. *)
Definition paintEntries (now : Z) (bal : money) (l : list Entry.t) (p : Page)
    : Page :=
  paintInsights (shownInsights now bal l)
    (paintCount (countText l) (set_transaction_body (Some (tableRows l)) p)).

(** A world whose [state.allEntries] designates an array of the store. *)
Definition wellFormed (w : World) : Prop :=
  is_Some (arrays w !! allEntries (state w)).

(** The cashbook [loadCashbooks] makes active. *)
Definition resolveCashbook (cashbooks : list string) (urlCashbook active : string)
    : string :=
  if JSString.truthy urlCashbook && includesName cashbooks urlCashbook
  then urlCashbook
  else if (0 <? length cashbooks)%nat && negb (JSString.truthy active)
  then default "" (head cashbooks)
  else if (length cashbooks =? 0)%nat then ""
  else active.

(** The priority order as the specification words it: the URL cashbook if
    listed, else the current one if still listed, else the first, else none. *)
Definition resolveByPriority (cashbooks : list string)
    (urlCashbook active : string) : string :=
  if JSString.truthy urlCashbook && includesName cashbooks urlCashbook
  then urlCashbook
  else if JSString.truthy active && includesName cashbooks active
  then active
  else default "" (head cashbooks).

(** ** Relations between worlds *)

(** [w'] differs from [w] by newly allocated arrays only. *)
Definition grows (w w' : World) : Prop :=
  w' = with_arrays (fun _ => arrays w') w /\ arrays w ⊆ arrays w'.

(** [w'] has the state object of [w] and every array of [w], unchanged. *)
Definition frames (w w' : World) : Prop :=
  state w' = state w /\ arrays w ⊆ arrays w'.

(** [state.allEntries] is the same array with the same elements in [w']. *)
Definition entriesUnchanged (w w' : World) : Prop :=
  allEntries (state w') = allEntries (state w) /\
  contents w' (allEntries (state w')) = contents w (allEntries (state w)).

(** [w'] has the active cashbook, the URL and the backend of [w]. *)
Definition sameSession (w w' : World) : Prop :=
  activeCashbook (state w') = activeCashbook (state w) /\
  url_cashbook w' = url_cashbook w /\
  backend w' = backend w.

(** An action that leaves the session as it found it. *)
Definition keepsSession {A : Type} (m : M A) : Prop :=
  forall w, sameSession w (exec m w).

(** ** More on what the script computes *)

(** The list [applyFilters] hands to the renderer. *)
Definition filteredList (w : World) : list Entry.t :=
  let (r, w') := filteredEntries w in contents w' r.

(** The user types [raw] into the search box. *)
Definition typeKeyword (raw : string) (w : World) : World :=
  with_document (set_search_input (Some raw)) w.

(** The time value of an entry's date, for entries whose date parses. *)
Definition timeOf (e : Entry.t) : Z := default 0 (JSDate.parse (Entry.date e)).

Definition validDate (e : Entry.t) : Prop := is_Some (JSDate.parse (Entry.date e)).

(** The cash-out entries that carry a note: the ones [topNotes] groups. *)
Definition notedSpending (entries : list Entry.t) : list Entry.t :=
  List.filter (fun e => isType "cash_out" e && Entry.hasNote e) entries.

(** Every cash-out entry with a non-empty note has the note [n]. *)
Definition sharesNote (entries : list Entry.t) (n : string) : Prop :=
  forall e, In e (notedSpending entries) -> Entry.note e = Some n.

(** The insights list names [n] as top spending note, with amount [total]. *)
Definition namesTopNote (w : World) (n : string) (total : Z) : Prop :=
  exists items,
    insights_list (document w) = Some items /\
    In (TopSpendingNote n (formatCurrency (Num total))) items.

Definition noDataNotice : Toast :=
  {| toastText := "No data to export."; toastType := "info" |}.

(** Unfolds the monad, one layer of binds at a time. *)
Ltac run :=
  repeat progress
    (unfold bind, get, modify, read, write, alloc, ret, Date_now;
     cbv beta iota zeta).


(** ** The quantities behind the insights *)

Definition totalIn (entries : list Entry.t) : Z :=
  sumAmounts (List.filter (isType "cash_in") entries).

Definition totalOut (entries : list Entry.t) : Z :=
  sumAmounts (List.filter (isType "cash_out") entries).

(** Cash-out of the last seven days, and of the seven days before them. *)
Definition spendLastWeek (now : Z) (entries : list Entry.t) : Z :=
  sumAmounts (List.filter
    (fun e => isType "cash_out" e
              && dateGe (Entry.date e) (now - 7 * JSDate.msPerDay))
    entries).

Definition spendPrevWeek (now : Z) (entries : list Entry.t) : Z :=
  sumAmounts (List.filter
    (fun e => isType "cash_out" e
              && dateLt (Entry.date e) (now - 7 * JSDate.msPerDay)
              && dateGe (Entry.date e) (now - 14 * JSDate.msPerDay))
    entries).

(** The rule of [updateInsights] an item comes from, 6 being the fallback. *)
Definition rule (i : Insight) : nat :=
  match i with
  | KeepLogging => 0
  | SpendingTotals _ => 1
  | LoggedInflows _ => 2
  | WeekOverWeek _ _ => 3
  | NewSpending => 3
  | TopSpendingNote _ _ => 4
  | NegativeBalance => 5
  | SteadyCashFlow => 6
  end.

(** The key under which [topNotes] groups an entry. *)
Definition noteKey (e : Entry.t) : string :=
  JSString.toLowerCase (JSString.trim (Entry.noteOr e "")).

(** The sum of the amounts of the entries grouped under [key]. *)
Definition groupTotal (key : string) (entries : list Entry.t) : Z :=
  sumAmounts (List.filter (fun e => String.eqb (noteKey e) key) entries).

(** The object [updateInsights] accumulates in [topNotes]. *)
Definition topNotesOf (entries : list Entry.t) : JSObject.t :=
  fold_left addNote (notedSpending entries) [].

(** The number a property of [topNotes] holds, for properties that hold
    one. *)
Definition numberOf (kv : string * value) : Z :=
  match kv.2 with Num n => n | Text => 0 end.

(** An object whose keys are distinct note keys of [entries] and whose
    values are all numbers. *)
Definition keptFrom (entries : list Entry.t) (o : JSObject.t) : Prop :=
  List.NoDup (map fst o) /\
  forall k v, In (k, v) o ->
    (exists n, v = Num n) /\ exists e, In e entries /\ noteKey e = k.


(** ** The files the export adapters build *)

(** The rows both adapters put in their table. *)
Definition exportTable (l : list Entry.t) : list (list string) :=
  imap exportRow (JSArray.sort byDateDesc l).

(** The PDF [exportPDFOnly] saves for the entry list [l]. *)
Definition pdfFor (cashbook date : string) (l : list Entry.t) : PdfDocument :=
  {| pdfOps :=
       [SetFont "helvetica" "normal";
        SetFontSize 14;
        TextAt "CashBook+ Transactions" 14 (AtY 20);
        SetFontSize 11;
        TextAt ("Cashbook: " +:+ cashbook) 14 (AtY 28);
        TextAt ("Exported on: " +:+ date) 140 (AtY 28);
        AutoTable tableHead (exportTable l) 36;
        SetFontSize 11;
        SetFont "helvetica" "bold";
        TextAt ("Total Cash In: " +:+ JSNumber.toFixed2 (totalIn l)) 14
          (BelowTable 8);
        TextAt ("Total Cash Out: " +:+ JSNumber.toFixed2 (totalOut l)) 14
          (BelowTable 14);
        TextAt ("Balance: " +:+ JSNumber.toFixed2 (totalIn l - totalOut l)) 14
          (BelowTable 20)];
     pdfFileName := cashbook +:+ "-transactions.pdf" |}.

(** The workbook [exportExcelOnly] writes for the entry list [l]. *)
Definition workbookFor (cashbook : string) (l : list Entry.t) : Workbook :=
  {| sheetName := "Transactions";
     sheetData :=
       [tableHead] ++ exportTable l ++
       [[];
        [""; ""; "Total Cash In"; JSNumber.toFixed2 (totalIn l)];
        [""; ""; "Total Cash Out"; JSNumber.toFixed2 (totalOut l)];
        [""; ""; "Balance"; JSNumber.toFixed2 (totalIn l - totalOut l)]];
     xlsxFileName := cashbook +:+ "-transactions.xlsx" |}.


(** ** Loading, as page updates *)

Definition paintLoading (active : bool) (p : Page) : Page :=
  match loading_overlay p with
  | None => p
  | Some _ => set_loading_overlay (Some active) p
  end.

(** The three summary cards are all in the page. *)
Definition cardsPresent (p : Page) : bool :=
  match total_in_el p, total_out_el p, balance_el p with
  | Some _, Some _, Some _ => true
  | _, _, _ => false
  end.

Definition paintCards (s : Summary) (p : Page) : Page :=
  set_summary_cards
    (Some (formatCurrency (Num (total_in s))))
    (Some (formatCurrency (Num (total_out s))))
    (Some (formatCurrency (Num (balance s)))) p.

Definition with_backend (b : Backend) (w : World) : World :=
  {| state := state w; arrays := arrays w; document := document w;
     downloads := downloads w; localStorage := localStorage w;
     location_href := location_href w; url_cashbook := url_cashbook w;
     clock := clock w; localeDate := localeDate w; backend := b |}.

(** Which of the elements the script looks up are in the page. *)
Definition elements (p : Page) : list bool :=
  [bool_decide (is_Some (toast_container p));
   bool_decide (is_Some (loading_overlay p));
   bool_decide (is_Some (cashbook_indicator p));
   bool_decide (is_Some (active_cashbook_name p));
   bool_decide (is_Some (welcome_user p));
   bool_decide (is_Some (total_in_el p));
   bool_decide (is_Some (total_out_el p));
   bool_decide (is_Some (balance_el p));
   bool_decide (is_Some (search_input p));
   bool_decide (is_Some (date_filter p));
   bool_decide (is_Some (transaction_body p));
   bool_decide (is_Some (entry_count p));
   bool_decide (is_Some (insights_list p))].

(** [w'] has the elements of [w], no more and no fewer. *)
Definition sameElements (w w' : World) : Prop :=
  elements (document w') = elements (document w).

(** An action that keeps a relation between the world it starts in and the
    world it leaves. *)
Definition preserves (R : World -> World -> Prop) {A : Type} (m : M A) : Prop :=
  forall w, R w (exec m w).

(** The message [fetchJSON] rejects with, for an answer that is not a
    success. *)
Definition rejection {A : Type} (answer : Response A) : option string :=
  match answer with
  | Unauthorized => Some "Unauthorized"
  | Failed message => Some (JSString.or message "Request failed")
  | Ok _ => None
  end.

(** Where the browser is after [fetchJSON] got [answer]. *)
Definition redirected {A : Type} (answer : Response A) (w : World) : World :=
  match answer with
  | Unauthorized => with_location_href (Some "/login") w
  | _ => w
  end.

(** An action that ends with the loading overlay switched off, when the
    page has one. *)
Definition released {A : Type} (m : M A) : Prop :=
  forall w, is_Some (loading_overlay (document w)) ->
    loading_overlay (document (exec m w)) = Some false.

(** ** Resolving the cashbook, as world updates *)

(** The page after [updateCashbookIndicator] ran with [active] as the
    active cashbook. *)
Definition paintIndicator (active : string) (p : Page) : Page :=
  match cashbook_indicator p, active_cashbook_name p with
  | Some _, Some _ =>
      if JSString.truthy active
      then set_active_cashbook_name (Some active)
             (set_cashbook_indicator (Some "flex") p)
      else set_cashbook_indicator (Some "none") p
  | _, _ => p
  end.

(** The world after [loadCashbooks] took the user name from [data]. *)
Definition greet (data : CashbooksBody) (w : World) : World :=
  if JSString.truthy (default "" (body_username data)) then
    let w' := with_state (set_username (default "" (body_username data))) w in
    match welcome_user (document w') with
    | None => w'
    | Some _ =>
        with_document
          (set_welcome_user (Some ("Hi, " +:+ username (state w') +:+ "!"))) w'
    end
  else w.

(** The world after [loadCashbooks] chose the active cashbook among
    [cashbooks]. *)
Definition choose (cashbooks : list string) (w : World) : World :=
  with_state
    (set_activeCashbook
       (resolveCashbook cashbooks (default "" (url_cashbook w))
          (activeCashbook (state w)))) w.

(** The page after the clear-filters button emptied the inputs it has. *)
Definition clearInputs (p : Page) : Page :=
  let p' := match search_input p with
            | Some _ => set_search_input (Some "") p
            | None => p
            end in
  match date_filter p with
  | Some _ => set_date_filter (Some "") p'
  | None => p'
  end.

(** [w'] names the user and the cashbook as [w] does, in the state and in
    the header of the page. *)
Definition sameHeader (w w' : World) : Prop :=
  username (state w') = username (state w) /\
  activeCashbook (state w') = activeCashbook (state w) /\
  welcome_user (document w') = welcome_user (document w) /\
  cashbook_indicator (document w') = cashbook_indicator (document w) /\
  active_cashbook_name (document w') = active_cashbook_name (document w).

(** ** Sample data *)

Module Sample.

Definition lunch : Entry.t :=
  {| Entry.id := 1; Entry.date := "2024-01-01"; Entry.type := "cash_out";
     Entry.amount := 10000; Entry.note := Some "Food" |}.

Definition salary : Entry.t :=
  {| Entry.id := 2; Entry.date := "2024-03-01"; Entry.type := "cash_in";
     Entry.amount := 50000; Entry.note := Some "salary" |}.

Definition dinner : Entry.t :=
  {| Entry.id := 3; Entry.date := "2024-02-01"; Entry.type := "cash_out";
     Entry.amount := 2550; Entry.note := Some "Food" |}.

Definition fee : Entry.t :=
  {| Entry.id := 4; Entry.date := "2024-02-10"; Entry.type := "cash_out";
     Entry.amount := 500; Entry.note := Some "constructor" |}.

(** A page with every element present and the two filter inputs filled in. *)
Definition page (keyword dateFilter : string) : Page :=
  {| toast_container := Some []; loading_overlay := Some false;
     cashbook_indicator := Some "none"; active_cashbook_name := Some "";
     welcome_user := Some ""; total_in_el := Some (INR (Some 0));
     total_out_el := Some (INR (Some 0)); balance_el := Some (INR (Some 0));
     search_input := Some keyword; date_filter := Some dateFilter;
     transaction_body := Some []; entry_count := Some "";
     insights_list := Some [] |}.

Definition server (cashbooks : list string) (entries : list Entry.t) : Backend :=
  {| get_cashbooks :=
       Ok {| body_username := Some "ann"; body_cashbooks := Some cashbooks |};
     get_entries := fun _ => Ok (Some entries);
     get_summary := fun _ => Ok noSummary |}.

(** A world whose state holds [entries] for the cashbook [active]. *)
Definition world (active : string) (entries : list Entry.t)
    (keyword dateFilter : string) (url : option string)
    (cashbooks : list string) : World :=
  {| state := {| username := "ann"; activeCashbook := active;
                 allEntries := 0%nat; summary := noSummary |};
     arrays := {[ 0%nat := entries ]};
     document := page keyword dateFilter;
     downloads := []; localStorage := ∅; location_href := None;
     url_cashbook := url; clock := 1709337600000; localeDate := "3/2/2024";
     backend := server cashbooks entries |}.

Definition book (entries : list Entry.t) (keyword dateFilter : string) : World :=
  world "Personal" entries keyword dateFilter None ["Personal"].

Definition threeEntries : World := book [lunch; salary; dinner] "" "".
Definition twoEntries : World := book [lunch; salary] "" "".
Definition searchSalary : World := book [lunch; salary] "sal" "".
Definition hiddenLunch : World := book [lunch] "rent" "".
Definition twoFood : World := book [lunch; dinner] "" "".
Definition oneFee : World := book [fee] "" "".
Definition onlySalary : World := book [salary] "" "".
Definition unmatchedDate : World := book [lunch; salary] "food" "2024-05-05".
Definition emptyBook : World := book [] "" "".
Definition urlWork : World :=
  world "" [lunch] "" "" (Some "Work") ["Personal"; "Work"].
Definition staleActive : World :=
  world "Old" [lunch] "" "" None ["Personal"].

End Sample.


(** ** More sample data *)

Module Scenario.

(** The state holds one entry; the backend now has two others. *)
Definition reloaded : World :=
  with_backend (Sample.server ["Personal"] [Sample.salary; Sample.dinner])
    (Sample.book [Sample.lunch] "" "").

(** The backend refuses the entry request. *)
Definition failing (answer : Response (option (list Entry.t))) : World :=
  with_backend
    {| get_cashbooks := Failed "down";
       get_entries := fun _ => answer;
       get_summary := fun _ => Failed "no summary" |}
    (Sample.book [Sample.lunch] "" "").

(** The backend answers the entry request and refuses the summary. *)
Definition halfLoaded : World :=
  with_backend
    {| get_cashbooks := Failed "down";
       get_entries := fun _ => Ok (Some [Sample.salary]);
       get_summary := fun _ => Failed "" |}
    (Sample.book [Sample.lunch] "" "").

(** No cashbook is active. *)
Definition noCashbook : World :=
  Sample.world "" [Sample.lunch] "lunch" "" None [].


(** A light page whose toggle is about to be clicked. *)
Definition lightStored : Theme.Env :=
  {| Theme.bodyClasses := ["app"; "theme-light"];
     Theme.theme_toggle := Some Theme.moonIcon;
     Theme.cb_theme := Some "light";
     Theme.prefersDark := false |}.

(** The page that comes up after the click, on a system that prefers
    light. *)
Definition lightSystem : Theme.Env :=
  {| Theme.bodyClasses := ["app"];
     Theme.theme_toggle := Some Theme.moonIcon;
     Theme.cb_theme := Some "dark";
     Theme.prefersDark := false |}.

End Scenario.

(** * Properties *)

(** ** Strings *)

Module JSStringFacts.
Import JSString.

Lemma lowerChar_idem (c : ascii) : lowerChar (lowerChar c) = lowerChar c.
Proof. destruct c as [[] [] [] [] [] [] [] []]; reflexivity. Qed.

Lemma isWhiteSpace_lowerChar (c : ascii) :
  isWhiteSpace (lowerChar c) = isWhiteSpace c.
Proof. destruct c as [[] [] [] [] [] [] [] []]; reflexivity. Qed.

Lemma toLowerCase_idem (s : string) : toLowerCase (toLowerCase s) = toLowerCase s.
Proof. induction s as [|c s IH]; simpl; [done|]. by rewrite lowerChar_idem, IH. Qed.

Lemma trimStart_toLowerCase (s : string) :
  trimStart (toLowerCase s) = toLowerCase (trimStart s).
Proof.
  induction s as [|c s IH]; simpl; [done|].
  rewrite isWhiteSpace_lowerChar. by destruct (isWhiteSpace c).
Qed.

Lemma trimEnd_toLowerCase (s : string) :
  trimEnd (toLowerCase s) = toLowerCase (trimEnd s).
Proof.
  induction s as [|c s IH]; simpl; [done|].
  rewrite IH, isWhiteSpace_lowerChar.
  destruct (trimEnd s); simpl; [by destruct (isWhiteSpace c)|done].
Qed.

Lemma trim_toLowerCase (s : string) : trim (toLowerCase s) = toLowerCase (trim s).
Proof. unfold trim. by rewrite trimStart_toLowerCase, trimEnd_toLowerCase. Qed.

Lemma trimEnd_idem (s : string) : trimEnd (trimEnd s) = trimEnd s.
Proof.
  induction s as [|c s IH]; simpl; [done|].
  destruct (trimEnd s) as [|d t] eqn:E.
  - destruct (isWhiteSpace c) eqn:Ec; simpl; [done|by rewrite Ec].
  - change (trimEnd (String c (String d t)))
      with (match trimEnd (String d t) with
            | EmptyString => if isWhiteSpace c then EmptyString else String c EmptyString
            | u => String c u
            end).
    by rewrite IH.
Qed.

Lemma trimStart_clean (s : string) : startsClean (trimStart s) = true.
Proof.
  induction s as [|c s IH]; simpl; [done|].
  destruct (isWhiteSpace c) eqn:Ec; [done|]. simpl. by rewrite Ec.
Qed.

Lemma trimStart_of_clean (s : string) : startsClean s = true -> trimStart s = s.
Proof.
  destruct s as [|c s]; simpl; [done|].
  destruct (isWhiteSpace c); simpl; [discriminate|done].
Qed.

Lemma trimEnd_clean (s : string) :
  startsClean s = true -> startsClean (trimEnd s) = true.
Proof.
  destruct s as [|c s]; simpl; [done|]. intros Hc.
  destruct (trimEnd s); simpl; [|done].
  destruct (isWhiteSpace c) eqn:Ec; simpl in *; [done|]. by rewrite Ec.
Qed.

Lemma trim_idem (s : string) : trim (trim s) = trim s.
Proof.
  unfold trim.
  rewrite (trimStart_of_clean (trimEnd (trimStart s))).
  - apply trimEnd_idem.
  - apply trimEnd_clean, trimStart_clean.
Qed.

Lemma trimStart_whitespace (s : string) :
  Forall (fun c => isWhiteSpace c = true) (list_ascii_of_string s) ->
  trimStart s = "".
Proof.
  induction s as [|c s IH]; simpl; [done|].
  intros H. inversion H as [|? ? Hc Hs]; subst. rewrite Hc. by apply IH.
Qed.

Lemma trim_whitespace (s : string) :
  Forall (fun c => isWhiteSpace c = true) (list_ascii_of_string s) ->
  trim s = "".
Proof. intros H. unfold trim. by rewrite trimStart_whitespace. Qed.

Lemma truthy_false (s : string) : truthy s = false <-> s = "".
Proof.
  unfold truthy. rewrite negb_false_iff. apply String.eqb_eq.
Qed.

Lemma or_empty (s : string) : JSString.or s "" = s.
Proof.
  unfold JSString.or. destruct (truthy s) eqn:E; [done|].
  symmetry. by apply truthy_false.
Qed.

End JSStringFacts.

(** The keyword the filter engine uses is already trimmed and in lower
    case: reading it again changes nothing. *)
Lemma keywordOf_idem (raw : string) : keywordOf (keywordOf raw) = keywordOf raw.
Proof.
  unfold keywordOf. rewrite !JSStringFacts.or_empty.
  rewrite JSStringFacts.trim_toLowerCase, JSStringFacts.trim_idem.
  apply JSStringFacts.toLowerCase_idem.
Qed.

Lemma keywordOf_whitespace (raw : string) :
  Forall (fun c => JSString.isWhiteSpace c = true) (list_ascii_of_string raw) ->
  keywordOf raw = "".
Proof.
  intros H. unfold keywordOf.
  by rewrite JSStringFacts.or_empty, JSStringFacts.trim_whitespace.
Qed.

(** ** Sorting *)

Module JSArrayFacts.
Import JSArray.

Section Sort.
Context {A : Type} (compareFn : A -> A -> option Z).

Lemma insert_perm (x : A) (l : list A) :
  Permutation (insert compareFn x l) (x :: l).
Proof.
  induction l as [|y l IH]; simpl; [done|].
  destruct (after compareFn x y); [|done].
  rewrite IH. apply perm_swap.
Qed.

Lemma sort_perm (l : list A) : Permutation (sort compareFn l) l.
Proof.
  induction l as [|x l IH]; simpl; [done|].
  unfold sort in *. simpl. rewrite insert_perm. by constructor.
Qed.

Lemma sort_length (l : list A) : length (sort compareFn l) = length l.
Proof. apply Permutation_length, sort_perm. Qed.
End Sort.

Section ByKey.
Context {A : Type} (key : A -> Z).

Lemma insert_sorted (x : A) (l : list A) :
  StronglySorted (geKey key) l -> StronglySorted (geKey key) (insert (descending key) x l).
Proof.
  induction l as [|y l IH]; intros Hs; simpl.
  - repeat constructor.
  - unfold after, descending. destruct (0 <? key y - key x) eqn:E.
    + inversion Hs as [|? ? Hl Hy]; subst. constructor; [by apply IH|].
      assert (Hperm := insert_perm (descending key) x l).
      apply List.Forall_forall. intros z Hz.
      apply (Permutation_in _ Hperm) in Hz. destruct Hz as [<-|Hz].
      * unfold geKey. lia.
      * by apply (proj1 (List.Forall_forall _ _) Hy).
    + constructor; [done|]. constructor.
      * unfold geKey. lia.
      * inversion Hs as [|? ? Hl Hy]; subst.
        eapply List.Forall_impl; [|exact Hy]. unfold geKey. intros z Hz. lia.
Qed.

Lemma sort_sorted (l : list A) : StronglySorted (geKey key) (sort (descending key) l).
Proof.
  induction l as [|x l IH]; simpl; [constructor|].
  by apply insert_sorted.
Qed.
End ByKey.

(** Sorting only looks at the comparator on the elements of the list. *)
Lemma sort_ext {A : Type} (f g : A -> A -> option Z) (l : list A) :
  (forall a b, In a l -> In b l -> f a b = g a b) ->
  sort f l = sort g l.
Proof.
  induction l as [|x l IH]; intros H; simpl; [done|].
  unfold sort in *. simpl. rewrite IH by (intros; apply H; by right).
  assert (Hin : forall b, In b (foldr (insert g) [] l) -> In b l).
  { intros b. apply Permutation_in. apply (sort_perm g). }
  revert Hin. generalize (foldr (insert g) [] l) as m.
  induction m as [|y m IHm]; intros Hin; simpl; [done|].
  unfold after. rewrite H; [|by left|right; apply Hin; by left].
  destruct (g x y) as [v|]; [|done].
  destruct (0 <? v); [|done]. f_equal. apply IHm. intros b Hb. apply Hin. by right.
Qed.

End JSArrayFacts.

(** ** The store *)

Lemma fresh_unallocated (w : World) :
  arrays w !! fresh (dom (arrays w)) = None.
Proof. apply not_elem_of_dom, is_fresh. Qed.

Lemma contents_insert_eq (w : World) (r : ref) (l : list Entry.t) :
  contents (with_arrays (insert r l) w) r = l.
Proof. unfold contents; simpl. by rewrite lookup_insert_eq. Qed.

Lemma contents_insert_ne (w : World) (r r' : ref) (l : list Entry.t) :
  r <> r' -> contents (with_arrays (insert r l) w) r' = contents w r'.
Proof. intros Hne. unfold contents; simpl. by rewrite lookup_insert_ne. Qed.

Lemma contents_allocated (w : World) (r : ref) :
  contents w r <> [] -> is_Some (arrays w !! r).
Proof.
  unfold contents. destruct (arrays w !! r) eqn:E; [eauto | simpl; congruence].
Qed.

Lemma allocated_not_fresh (w : World) (r : ref) :
  is_Some (arrays w !! r) -> fresh (dom (arrays w)) <> r.
Proof.
  intros [l Hl] Heq. subst r. rewrite fresh_unallocated in Hl. discriminate.
Qed.

Lemma contents_fresh (w : World) (r : ref) (l : list Entry.t) :
  is_Some (arrays w !! r) ->
  contents (with_arrays (insert (fresh (dom (arrays w))) l) w) r = contents w r.
Proof. intros H. apply contents_insert_ne, allocated_not_fresh, H. Qed.

(** Sorting a copy amounts to allocating the sorted list. *)
Lemma sort_copy {B : Type} cmp (a : ref) (k : ref -> M B) (w : World) :
  (copy <- Array_slice a ;; sorted <- Array_sort cmp copy ;; k sorted) w
  = (sorted <- alloc (JSArray.sort cmp (contents w a)) ;; k sorted) w.
Proof.
  unfold bind, Array_slice, Array_sort, read, write, alloc, modify, ret, bind.
  simpl. rewrite contents_insert_eq.
  destruct w; unfold with_arrays; simpl. by rewrite insert_insert_eq.
Qed.

Lemma contents_with_document (f : Page -> Page) (w : World) (r : ref) :
  contents (with_document f w) r = contents w r.
Proof. reflexivity. Qed.

(** ** Running the painters *)

Lemma forEach_appendRow (f : Entry.t -> Row) (l : list Entry.t) (w : World)
    (rows : list Row) :
  transaction_body (document w) = Some rows ->
  forEach (fun e => appendRow (f e)) l w
  = (tt, with_document (set_transaction_body (Some (rows ++ map f l))) w).
Proof.
  revert w rows. induction l as [|x l IH]; intros w rows Hrows.
  - destruct w as [s a d]; destruct d; simpl in *; subst.
    by rewrite app_nil_r.
  - simpl. unfold bind at 1. unfold appendRow at 1, modify.
    rewrite (IH _ (rows ++ [f x])).
    + destruct w as [s a d]; destruct d; simpl in *; subst.
      by rewrite <- app_assoc.
    + simpl. by rewrite Hrows.
Qed.

Lemma forEach_appendInsight (l : list Insight) (w : World) (items : list Insight) :
  insights_list (document w) = Some items ->
  forEach appendInsight l w
  = (tt, with_document (set_insights_list (Some (items ++ l))) w).
Proof.
  revert w items. induction l as [|x l IH]; intros w items Hitems.
  - destruct w as [s a d]; destruct d; simpl in *; subst.
    by rewrite app_nil_r.
  - simpl. unfold bind at 1. unfold appendInsight at 1, modify.
    rewrite (IH _ (items ++ [x])).
    + destruct w as [s a d]; destruct d; simpl in *; subst.
      by rewrite <- app_assoc.
    + simpl. by rewrite Hitems.
Qed.

Lemma updateInsights_run (entries : ref) (w : World) :
  updateInsights entries w
  = (tt, with_document
           (paintInsights (shownInsights (clock w) (balance (summary (state w)))
                             (contents w entries))) w).
Proof.
  unfold updateInsights, paintInsights, shownInsights.
  run.
  destruct (insights_list (document w)) as [old|] eqn:Hold.
  - change (contents (with_document _ w) entries) with (contents w entries).
    destruct (length (contents w entries) =? 0)%nat.
    + unfold appendInsight, modify.
      destruct w as [s a d]; destruct d; simpl in *. by rewrite Hold.
    + rewrite (forEach_appendInsight _ _ []).
      * destruct w as [s a d]; destruct d; simpl in *. by rewrite Hold.
      * by destruct w as [s a d]; destruct d.
  - destruct w as [s a d]; destruct d; simpl in *. by rewrite Hold.
Qed.

Lemma setEntryCount_run (text : string) (w : World) :
  setEntryCount text w = (tt, with_document (paintCount text) w).
Proof.
  unfold setEntryCount, paintCount, bind, get, modify, ret.
  destruct w as [s a d]; destruct d as [? ? ? ? ? ? ? ? ? ? ? c ?]; simpl.
  by destruct c.
Qed.

Lemma showToast_run (message type : string) (w : World) :
  showToast message type w = (tt, with_document (paintToast message type) w).
Proof.
  unfold showToast, paintToast, bind, get, modify, ret.
  destruct w as [s a d]; destruct d as [t ? ? ? ? ? ? ? ? ? ? ? ?]; simpl.
  by destruct t.
Qed.

(** [renderEntries] allocates one array, the sorted copy (or the empty array
    handed to the insights), and repaints the table, the count and the
    insights. *)
Lemma renderEntries_run (entries : ref) (w : World) :
  renderEntries entries w
  = (tt, match transaction_body (document w) with
         | None => w
         | Some _ =>
             with_document
               (paintEntries (clock w) (balance (summary (state w)))
                  (contents w entries))
               (with_arrays
                  (insert (fresh (dom (arrays w)))
                     (JSArray.sort byDateDesc (contents w entries))) w)
         end).
Proof.
  unfold renderEntries. unfold bind at 1, get; cbv beta iota.
  destruct (transaction_body (document w)) as [old|] eqn:Hold; [|done].
  unfold bind at 1, modify; cbv beta iota. unfold bind at 1, read; cbv beta iota.
  change (contents (with_document _ w) entries) with (contents w entries).
  unfold paintEntries, tableRows, countText, shownInsights.
  destruct (length (contents w entries) =? 0)%nat eqn:Hlen.
  - apply Nat.eqb_eq, length_zero_iff_nil in Hlen. rewrite Hlen.
    unfold bind at 1, appendRow, modify; cbv beta iota.
    unfold bind at 1; cbv beta iota.
    rewrite setEntryCount_run. unfold bind at 1, alloc; cbv beta iota zeta.
    rewrite updateInsights_run. rewrite contents_insert_eq.
    destruct w as [s a d]; destruct d; simpl in *. done.
  - rewrite sort_copy. unfold bind at 1, alloc; cbv beta iota zeta.
    unfold bind at 1, read; cbv beta iota.
    rewrite contents_insert_eq.
    unfold bind at 1. rewrite (forEach_appendRow _ _ _ []).
    2: { by destruct w as [s a d]; destruct d. }
    unfold bind at 1. rewrite setEntryCount_run, updateInsights_run.
    assert (Hne : contents w entries <> []).
    { intros E. rewrite E in Hlen. discriminate. }
    rewrite !contents_with_document.
    rewrite contents_fresh by (by apply contents_allocated).
    rewrite !contents_with_document.
    unfold shownInsights. rewrite Hlen.
    destruct w as [s a d]; destruct d; simpl in *. done.
Qed.

(** ** The filter engine *)

Lemma grows_refl (w : World) : grows w w.
Proof. split; [by destruct w | done]. Qed.

Lemma grows_trans (w1 w2 w3 : World) : grows w1 w2 -> grows w2 w3 -> grows w1 w3.
Proof.
  intros [E12 S12] [E23 S23]. split; [|by etrans].
  rewrite E23 at 1. rewrite E12 at 1. by destruct w1.
Qed.

Lemma grows_alloc (l : list Entry.t) (w : World) :
  grows w (alloc l w).2 /\ arrays (alloc l w).2 !! (alloc l w).1 = Some l.
Proof.
  unfold alloc; simpl. split; [split|].
  - by destruct w.
  - apply insert_subseteq, fresh_unallocated.
  - apply lookup_insert_eq.
Qed.

Lemma grows_contents (w w' : World) (r : ref) :
  grows w w' -> is_Some (arrays w !! r) -> contents w' r = contents w r.
Proof.
  intros [_ Hsub] [l Hl]. unfold contents.
  by rewrite (lookup_weaken _ _ _ _ Hl Hsub), Hl.
Qed.

Lemma Array_filter_run (p : Entry.t -> bool) (a : ref) (w : World) :
  Array_filter p a w = alloc (List.filter p (contents w a)) w.
Proof. reflexivity. Qed.

Lemma Array_slice_run (a : ref) (w : World) :
  Array_slice a w = alloc (contents w a) w.
Proof. reflexivity. Qed.

Lemma contents_alloc (l : list Entry.t) (w : World) :
  contents (alloc l w).2 (alloc l w).1 = l.
Proof. unfold contents. by rewrite (proj2 (grows_alloc l w)). Qed.

(** The filter engine allocates its result and leaves everything else as it
    was; the result holds the entries of [state.allEntries] that pass both
    predicates. *)
Lemma filteredEntries_run (w : World) :
  exists (r : ref) (w' : World),
    filteredEntries w = (r, w') /\
    grows w w' /\
    arrays w' !! r
    = Some (filterList (pageKeyword (document w)) (pageDate (document w))
              (contents w (allEntries (state w)))).
Proof.
  unfold filteredEntries, filterList, pageKeyword, pageDate, keywordOf.
  unfold bind at 1, get; cbv beta iota zeta.
  set (keyword := JSString.toLowerCase _).
  set (dateFilter := JSString.or _ _).
  set (l := contents w (allEntries (state w))).
  unfold bind at 1. rewrite Array_slice_run. fold l.
  pose proof (grows_alloc l w) as [G1 L1].
  pose proof (contents_alloc l w) as C1.
  destruct (alloc l w) as [r1 w1]; simpl in G1, L1, C1.
  unfold bind at 1.
  destruct (JSString.truthy keyword).
  - rewrite Array_filter_run, C1.
    pose proof (grows_alloc (List.filter (matchesKeyword keyword) l) w1) as [G2 L2].
    pose proof (contents_alloc (List.filter (matchesKeyword keyword) l) w1) as C2.
    destruct (alloc _ w1) as [r2 w2]; simpl in G2, L2, C2.
    unfold bind at 1.
    destruct (JSString.truthy dateFilter).
    + rewrite Array_filter_run, C2.
      pose proof (grows_alloc
        (List.filter (matchesDate dateFilter) (List.filter (matchesKeyword keyword) l))
        w2) as [G3 L3].
      destruct (alloc _ w2) as [r3 w3]; simpl in *.
      exists r3, w3. eauto using grows_trans.
    + exists r2, w2. eauto using grows_trans.
  - unfold ret at 1. unfold bind at 1.
    destruct (JSString.truthy dateFilter).
    + rewrite Array_filter_run, C1.
      pose proof (grows_alloc (List.filter (matchesDate dateFilter) l) w1) as [G3 L3].
      destruct (alloc _ w1) as [r3 w3]; simpl in *.
      exists r3, w3. eauto using grows_trans.
    + exists r1, w1. eauto.
Qed.

Lemma filteredList_spec (w : World) :
  filteredList w
  = filterList (pageKeyword (document w)) (pageDate (document w))
      (contents w (allEntries (state w))).
Proof.
  unfold filteredList.
  destruct (filteredEntries_run w) as (r & w' & -> & _ & Hr).
  unfold contents. by rewrite Hr.
Qed.

Lemma applyFilters_run (w : World) :
  exists (r : ref) (w1 : World),
    grows w w1 /\
    applyFilters w = renderEntries r w1 /\
    contents w1 r = filteredList w.
Proof.
  unfold applyFilters, bind.
  pose proof (filteredList_spec w) as Hl. unfold filteredList in Hl.
  destruct (filteredEntries_run w) as (r & w' & E & G & Hr).
  rewrite E in *. exists r, w'. split; [done|]. split; [done|].
  unfold filteredList. by rewrite E.
Qed.

(** The page after [applyFilters]: the table, the count and the insights are
    painted from the filtered list. *)
Lemma applyFilters_document (w : World) :
  document (exec applyFilters w)
  = match transaction_body (document w) with
    | None => document w
    | Some _ =>
        paintEntries (clock w) (balance (summary (state w))) (filteredList w)
          (document w)
    end.
Proof.
  destruct (applyFilters_run w) as (r & w1 & [E _] & Hrun & Hl).
  unfold exec. rewrite Hrun, renderEntries_run. simpl.
  rewrite E. simpl. destruct (transaction_body (document w)); [|done].
  simpl. by rewrite <- E, Hl.
Qed.

Lemma filterList_empty_date (keyword dateFilter : string) (l : list Entry.t) :
  JSString.truthy dateFilter = true ->
  (forall e, In e l -> Entry.date e <> dateFilter) ->
  filterList keyword dateFilter l = [].
Proof.
  intros Ht Hno. unfold filterList. rewrite Ht.
  set (l' := if JSString.truthy keyword then _ else _).
  assert (Hl' : forall e, In e l' -> In e l).
  { subst l'. destruct (JSString.truthy keyword); [|done].
    intros e He. by apply filter_In in He as [He _]. }
  induction l' as [|e l' IH]; simpl; [done|].
  unfold matchesDate at 1.
  destruct (String.eqb_spec (Entry.date e) dateFilter) as [Heq|_].
  - exfalso. apply (Hno e); [apply Hl'; by left | done].
  - apply IH. intros x Hx. apply Hl'. by right.
Qed.

(** ** Frames *)

Lemma frames_entriesUnchanged (w w' : World) :
  wellFormed w -> frames w w' -> entriesUnchanged w w'.
Proof.
  intros [l Hl] [Hs Ha]. split; [by rewrite Hs|].
  rewrite Hs. unfold contents.
  by rewrite (lookup_weaken _ _ _ _ Hl Ha), Hl.
Qed.

Lemma frames_alloc_document (f : Page -> Page) (l : list Entry.t) (w : World) :
  frames w (with_document f (with_arrays (insert (fresh (dom (arrays w))) l) w)).
Proof. split; [done|]. simpl. apply insert_subseteq, fresh_unallocated. Qed.

Lemma renderEntries_frames (entries : ref) (w : World) :
  frames w (exec (renderEntries entries) w).
Proof.
  unfold exec. rewrite renderEntries_run. simpl.
  destruct (transaction_body (document w)); [apply frames_alloc_document|done].
Qed.

Lemma frames_trans (w1 w2 w3 : World) : frames w1 w2 -> frames w2 w3 -> frames w1 w3.
Proof. intros [S1 A1] [S2 A2]. split; [congruence | by etrans]. Qed.

Lemma grows_frames (w w' : World) : grows w w' -> frames w w'.
Proof. intros [E A]. split; [|done]. rewrite E. by destruct w. Qed.

Lemma applyFilters_frames (w : World) : frames w (exec applyFilters w).
Proof.
  destruct (applyFilters_run w) as (r & w1 & G & Hrun & _).
  unfold exec. rewrite Hrun.
  eapply frames_trans; [by apply grows_frames|apply renderEntries_frames].
Qed.

(** ** Export adapters *)

Lemma exportRows_run (entries : ref) (w : World) :
  exportRows entries w
  = (imap exportRow (JSArray.sort byDateDesc (contents w entries)),
     with_arrays
       (insert (fresh (dom (arrays w)))
          (JSArray.sort byDateDesc (contents w entries))) w).
Proof.
  unfold exportRows. rewrite sort_copy. run. by rewrite contents_insert_eq.
Qed.

Lemma exportPDFOnly_empty (cashbook : string) (w : World) :
  contents w (allEntries (state w)) = [] ->
  exportPDFOnly cashbook w = showToast "No data to export." "info" w.
Proof. intros H. unfold exportPDFOnly. run. by rewrite H. Qed.

Lemma exportExcelOnly_empty (cashbook : string) (w : World) :
  contents w (allEntries (state w)) = [] ->
  exportExcelOnly cashbook w = showToast "No data to export." "info" w.
Proof. intros H. unfold exportExcelOnly. run. by rewrite H. Qed.

Lemma exportPDFOnly_frames (cashbook : string) (w : World) :
  frames w (exec (exportPDFOnly cashbook) w).
Proof.
  unfold exec, exportPDFOnly. unfold bind at 1, get; cbv beta iota zeta.
  unfold bind at 1, read; cbv beta iota.
  destruct (length _ =? 0)%nat.
  - rewrite showToast_run. done.
  - unfold bind at 1. rewrite exportRows_run.
    unfold bind at 1, read; cbv beta iota. unfold bind at 1, modify.
    rewrite showToast_run. split; [done|]. simpl.
    apply insert_subseteq, fresh_unallocated.
Qed.

Lemma exportExcelOnly_frames (cashbook : string) (w : World) :
  frames w (exec (exportExcelOnly cashbook) w).
Proof.
  unfold exec, exportExcelOnly. unfold bind at 1, get; cbv beta iota zeta.
  unfold bind at 1, read; cbv beta iota.
  destruct (length _ =? 0)%nat.
  - rewrite showToast_run. done.
  - unfold bind at 1. rewrite exportRows_run.
    unfold bind at 1, read; cbv beta iota. unfold bind at 1, modify.
    rewrite showToast_run. split; [done|]. simpl.
    apply insert_subseteq, fresh_unallocated.
Qed.

(** ** Insights *)

Lemma sumAmounts_from (l : list Entry.t) (a : Z) :
  fold_left (fun sum e => sum + Entry.amount e) l a = a + sumAmounts l.
Proof.
  unfold sumAmounts. revert a. induction l as [|e l IH]; intros a; simpl; [lia|].
  rewrite (IH (a + Entry.amount e)), (IH (0 + Entry.amount e)). lia.
Qed.

Lemma sumAmounts_cons (e : Entry.t) (l : list Entry.t) :
  sumAmounts (e :: l) = Entry.amount e + sumAmounts l.
Proof. unfold sumAmounts at 1. simpl. by rewrite sumAmounts_from. Qed.

Section OneNote.
Variable key : string.
Hypothesis key_own : JSObject.inheritedName key = false.

Lemma key_not_proto : String.eqb key "__proto__" = false.
Proof.
  unfold JSObject.inheritedName in key_own.
  by apply orb_false_iff in key_own as [_ H].
Qed.

Lemma addNote_first (e : Entry.t) :
  JSString.toLowerCase (JSString.trim (Entry.noteOr e "")) = key ->
  addNote [] e = [(key, Num (Entry.amount e))].
Proof.
  intros Hk. unfold addNote. rewrite Hk.
  unfold JSObject.assign, JSObject.readOrZeroPlus. rewrite key_not_proto.
  simpl. by rewrite key_own.
Qed.

Lemma addNote_next (s : Z) (e : Entry.t) :
  JSString.toLowerCase (JSString.trim (Entry.noteOr e "")) = key ->
  addNote [(key, Num s)] e = [(key, Num (s + Entry.amount e))].
Proof.
  intros Hk. unfold addNote. rewrite Hk.
  unfold JSObject.assign, JSObject.readOrZeroPlus. rewrite key_not_proto.
  simpl. rewrite String.eqb_refl.
  by destruct (Z.eqb_spec s 0) as [->|_].
Qed.

Lemma fold_addNote (l : list Entry.t) (s : Z) :
  (forall e, In e l ->
     JSString.toLowerCase (JSString.trim (Entry.noteOr e "")) = key) ->
  fold_left addNote l [(key, Num s)] = [(key, Num (s + sumAmounts l))].
Proof.
  revert s. induction l as [|e l IH]; intros s Hl.
  - simpl. do 3 f_equal. unfold sumAmounts. simpl. lia.
  - simpl. rewrite addNote_next by (apply Hl; by left).
    rewrite IH by (intros; apply Hl; by right).
    rewrite sumAmounts_cons. do 3 f_equal. lia.
Qed.

Lemma topNotes_one (l : list Entry.t) :
  l <> [] ->
  (forall e, In e l ->
     JSString.toLowerCase (JSString.trim (Entry.noteOr e "")) = key) ->
  fold_left addNote l [] = [(key, Num (sumAmounts l))].
Proof.
  destruct l as [|e l]; [done|]. intros _ Hl. simpl.
  rewrite addNote_first by (apply Hl; by left).
  rewrite fold_addNote by (intros; apply Hl; by right).
  by rewrite sumAmounts_cons.
Qed.
End OneNote.

Lemma entries_one (key : string) (v : value) :
  JSObject.entries [(key, v)] = [(key, v)].
Proof.
  unfold JSObject.entries, JSObject.indexed. simpl.
  by destruct (JSObject.arrayIndex key) as [i|].
Qed.

Lemma in_grown (x : Insight) (l : list Insight) (b : bool) (y : Insight) :
  In x l -> In x (if b then l ++ [y] else l).
Proof. destruct b; [|done]. intros H. apply in_or_app. by left. Qed.

(** When the noted cash-out entries all produce one key, the insights name
    that key with the sum of their amounts. *)
Lemma insightsOf_top (now : Z) (bal : money) (entries : list Entry.t)
    (key : string) :
  JSObject.inheritedName key = false ->
  notedSpending entries <> [] ->
  (forall e, In e (notedSpending entries) ->
     JSString.toLowerCase (JSString.trim (Entry.noteOr e "")) = key) ->
  In (TopSpendingNote key (formatCurrency (Num (sumAmounts (notedSpending entries)))))
     (insightsOf now bal entries).
Proof.
  intros Hown Hne Hkey. unfold insightsOf. cbv zeta.
  fold (notedSpending entries).
  rewrite (topNotes_one key Hown _ Hne Hkey), entries_one.
  change (JSArray.sort byAmountDesc [(key, Num (sumAmounts (notedSpending entries)))])
    with [(key, Num (sumAmounts (notedSpending entries)))].
  cbv beta iota.
  match goal with
  | |- In ?x (if (length ?l =? 0)%nat then _ else _) =>
      apply (in_grown x l (length l =? 0)%nat SteadyCashFlow)
  end.
  apply in_grown. apply in_or_app. right. by left.
Qed.

(** ** Loading *)

Lemma sameSession_refl (w : World) : sameSession w w.
Proof. by repeat split. Qed.

Lemma sameSession_trans (w1 w2 w3 : World) :
  sameSession w1 w2 -> sameSession w2 w3 -> sameSession w1 w3.
Proof. intros (A1 & U1 & B1) (A2 & U2 & B2). repeat split; congruence. Qed.

Lemma keeps_ret {A : Type} (a : A) : keepsSession (ret a).
Proof. intros w. apply sameSession_refl. Qed.

Lemma keeps_get : keepsSession get.
Proof. intros w. apply sameSession_refl. Qed.

Lemma keeps_bind {A B : Type} (m : M A) (k : A -> M B) :
  keepsSession m -> (forall a, keepsSession (k a)) -> keepsSession (bind m k).
Proof.
  intros Hm Hk w. unfold exec, bind. specialize (Hm w). unfold exec in Hm.
  destruct (m w) as [a w1]. eapply sameSession_trans; [exact Hm|apply Hk].
Qed.

Lemma keeps_modify (f : World -> World) :
  (forall w, sameSession w (f w)) -> keepsSession (modify f).
Proof. intros H w. apply H. Qed.

Lemma keeps_alloc (l : list Entry.t) : keepsSession (alloc l).
Proof. intros w. by repeat split. Qed.

Lemma keeps_showToast (message type : string) : keepsSession (showToast message type).
Proof. intros w. unfold exec. rewrite showToast_run. by repeat split. Qed.

Lemma keeps_renderEntries (entries : ref) : keepsSession (renderEntries entries).
Proof.
  intros w. unfold exec. rewrite renderEntries_run. simpl.
  destruct (transaction_body (document w)); by repeat split.
Qed.

Lemma keeps_fetchJSON {A : Type} (answer : Response A) : keepsSession (fetchJSON answer).
Proof. intros w. destruct answer; by repeat split. Qed.

Create HintDb keeps.
#[local] Hint Resolve keeps_ret keeps_get keeps_alloc keeps_showToast
  keeps_renderEntries keeps_fetchJSON : keeps.

(** Splits an action into its steps and closes the ones that keep the
    session for a known reason. *)
Ltac keeps :=
  repeat first
    [ solve [auto with keeps]
    | apply keeps_bind; [|intros ?]
    | apply keeps_modify; intros ?; by repeat split
    | match goal with
      | |- keepsSession (if ?c then _ else _) => destruct c
      | |- keepsSession (match ?x with _ => _ end) => destruct x
      end ].

Lemma keeps_showLoading (active : bool) : keepsSession (showLoading active).
Proof. unfold showLoading. keeps. Qed.

Lemma keeps_updateSummaryCards (s : Summary) : keepsSession (updateSummaryCards s).
Proof. unfold updateSummaryCards. keeps. Qed.

Lemma keeps_updateCashbookIndicator : keepsSession updateCashbookIndicator.
Proof. unfold updateCashbookIndicator. keeps. Qed.

#[local] Hint Resolve keeps_showLoading keeps_updateSummaryCards
  keeps_updateCashbookIndicator : keeps.

Lemma keeps_loadEntries : keepsSession loadEntries.
Proof. unfold loadEntries. keeps. Qed.

#[local] Hint Resolve keeps_loadEntries : keeps.

Lemma getCashbookFromURL_run (w : World) :
  getCashbookFromURL w = (default "" (url_cashbook w), w).
Proof.
  unfold getCashbookFromURL, bind, get, ret. by rewrite JSStringFacts.or_empty.
Qed.

Lemma bind_run {A B : Type} (m : M A) (k : A -> M B) (w : World) :
  bind m k w = k (m w).1 (m w).2.
Proof. unfold bind. by destruct (m w). Qed.

(** What runs after a step does not change the active cashbook when it keeps
    the session. *)
Lemma active_after {A B : Type} (m : M A) (k : A -> M B) (w : World) :
  (forall a, keepsSession (k a)) ->
  activeCashbook (state (bind m k w).2) = activeCashbook (state (m w).2).
Proof. intros Hk. rewrite bind_run. apply (Hk (m w).1 (m w).2). Qed.

(** The cashbook that is active once [loadCashbooks] is done, when the
    backend answers the list request. *)
Lemma loadCashbooks_active (w : World) (data : CashbooksBody) :
  get_cashbooks (backend w) = Ok data ->
  activeCashbook (state (exec loadCashbooks w))
  = resolveCashbook (default [] (body_cashbooks data))
      (default "" (url_cashbook w)) (activeCashbook (state w)).
Proof.
  intros Hdata. unfold loadCashbooks, exec.
  rewrite bind_run.
  destruct (keeps_showLoading true w) as (A1 & U1 & B1). unfold exec in *.
  set (w1 := (showLoading true w).2) in *.
  rewrite bind_run. change (get w1).1 with w1. change (get w1).2 with w1.
  rewrite bind_run, B1, Hdata.
  change (fetchJSON (Ok data) w1) with (@inr string _ data, w1). cbn [fst snd].
  rewrite active_after by (intros; keeps).
  rewrite bind_run.
  lazymatch goal with
  | |- context [(?m w1).2] =>
      assert (Hm : keepsSession m) by keeps;
      destruct (Hm w1) as (A2 & U2 & B2); unfold exec in *;
      set (w2 := (m w1).2) in *
  end.
  rewrite bind_run, getCashbookFromURL_run. cbn [fst snd].
  rewrite bind_run. change (get w2).1 with w2. change (get w2).2 with w2.
  rewrite active_after by (intros; keeps).
  unfold resolveCashbook. rewrite U2, U1, A2, A1.
  repeat match goal with
         | |- context [if ?c then _ else _] => destruct c
         end; simpl; congruence.
Qed.

(** * The claims *)

Lemma insights_paintEntries (now : Z) (bal : money) (l : list Entry.t) (p : Page) :
  is_Some (insights_list p) ->
  insights_list (paintEntries now bal l p) = Some (shownInsights now bal l).
Proof.
  intros [items Hi]. unfold paintEntries, paintInsights, paintCount.
  destruct p as [? ? ? ? ? ? ? ? ? ? ? c i]; simpl in *; subst.
  by destruct c.
Qed.

Lemma body_paintEntries (now : Z) (bal : money) (l : list Entry.t) (p : Page) :
  transaction_body (paintEntries now bal l p) = Some (tableRows l).
Proof.
  unfold paintEntries, paintInsights, paintCount.
  destruct p as [? ? ? ? ? ? ? ? ? ? ? c i]; simpl.
  by destruct c, i.
Qed.

(** C1 (as amended).  After [applyFilters] the insights list shows the
    insights of the filtered entries, the list handed to the renderer: the
    entries of [state.allEntries] that pass the keyword and date filters. *)
Theorem insights_from_filtered_entries (w : World) :
  is_Some (transaction_body (document w)) ->
  is_Some (insights_list (document w)) ->
  insights_list (document (exec applyFilters w))
  = Some (shownInsights (clock w) (balance (summary (state w)))
            (filterList (pageKeyword (document w)) (pageDate (document w))
               (contents w (allEntries (state w))))).
Proof.
  intros [rows Hb] Hi. rewrite applyFilters_document, Hb.
  rewrite insights_paintEntries by done. by rewrite filteredList_spec.
Qed.

Lemma insights_from_filtered_entries_witness :
  insights_list (document (exec applyFilters Sample.searchSalary))
  = Some [LoggedInflows (INR (Some 50000))].
Proof.
  rewrite (insights_from_filtered_entries Sample.searchSalary).
  - vm_compute. reflexivity.
  - vm_compute. eauto.
  - vm_compute. eauto.
Defined.

(** C1 as stated fails: with one spending entry hidden by the keyword, the
    insights are not those of all the entries of [state.allEntries]. *)
Lemma insights_from_all_entries_counterexample :
  insights_list (document (exec applyFilters Sample.hiddenLunch))
  <> Some (shownInsights (clock Sample.hiddenLunch)
             (balance (summary (state Sample.hiddenLunch)))
             (contents Sample.hiddenLunch (allEntries (state Sample.hiddenLunch)))).
Proof. vm_compute. discriminate. Qed.

Lemma insights_updateInsights (entries : ref) (w : World) :
  is_Some (insights_list (document w)) ->
  insights_list (document (exec (updateInsights entries) w))
  = Some (shownInsights (clock w) (balance (summary (state w)))
            (contents w entries)).
Proof.
  intros [items Hi]. unfold exec. rewrite updateInsights_run. simpl.
  unfold paintInsights. rewrite Hi.
  by destruct (document w).
Qed.

Lemma notedSpending_key (entries : list Entry.t) (n : string) :
  sharesNote entries n ->
  forall e, In e (notedSpending entries) ->
    JSString.toLowerCase (JSString.trim (Entry.noteOr e "")) = keywordOf n.
Proof.
  intros Hs e He. unfold keywordOf, Entry.noteOr. by rewrite (Hs e He).
Qed.

(** C2 (as amended).  When at least one cash-out entry carries a note and
    all such entries share the note [n], the insights name as top spending
    note the grouping key of [n], that is [n] trimmed and in lower case, with
    the sum of those entries' amounts; this for every key other than the two
    lower-case names an object inherits, [constructor] and [__proto__]. *)
Theorem top_note_names_grouping_key (w : World) (entries : ref) (n : string) :
  is_Some (insights_list (document w)) ->
  notedSpending (contents w entries) <> [] ->
  sharesNote (contents w entries) n ->
  JSObject.inheritedName (JSString.toLowerCase (JSString.trim n)) = false ->
  namesTopNote (exec (updateInsights entries) w)
    (JSString.toLowerCase (JSString.trim n))
    (sumAmounts (notedSpending (contents w entries))).
Proof.
  intros Hi Hne Hs Hown. eexists. split; [by apply insights_updateInsights|].
  unfold shownInsights.
  destruct (contents w entries) as [|e l] eqn:El; [done|].
  change (length (e :: l) =? 0)%nat with false. cbv iota.
  apply insightsOf_top; [done|done|].
  intros x Hx. rewrite (notedSpending_key _ n Hs x Hx).
  unfold keywordOf. by rewrite JSStringFacts.or_empty.
Qed.

Lemma top_note_names_grouping_key_witness :
  namesTopNote (exec (updateInsights 0%nat) Sample.threeEntries) "food" 12550.
Proof.
  apply (top_note_names_grouping_key Sample.threeEntries 0%nat "Food").
  - vm_compute. eauto.
  - vm_compute. discriminate.
  - intros e He. vm_compute in He. destruct He as [<-|[<-|[]]]; reflexivity.
  - vm_compute. reflexivity.
Defined.

(** C2 as stated fails in three ways: the note is shown in lower case, not
    in its original casing; for the note [constructor] the amount shown is
    not the sum; and a list without any noted cash-out entry gets no such
    message at all. *)
Lemma top_note_verbatim_counterexample :
  (contents Sample.twoFood 0%nat <> [] /\
   sharesNote (contents Sample.twoFood 0%nat) "Food" /\
   ~ namesTopNote (exec (updateInsights 0%nat) Sample.twoFood) "Food"
       (sumAmounts (notedSpending (contents Sample.twoFood 0%nat)))) /\
  (contents Sample.oneFee 0%nat <> [] /\
   sharesNote (contents Sample.oneFee 0%nat) "constructor" /\
   ~ namesTopNote (exec (updateInsights 0%nat) Sample.oneFee) "constructor"
       (sumAmounts (notedSpending (contents Sample.oneFee 0%nat)))) /\
  (contents Sample.onlySalary 0%nat <> [] /\
   sharesNote (contents Sample.onlySalary 0%nat) "Food" /\
   ~ namesTopNote (exec (updateInsights 0%nat) Sample.onlySalary) "Food"
       (sumAmounts (notedSpending (contents Sample.onlySalary 0%nat)))).
Proof.
  split; [|split].
  - split; [vm_compute; discriminate|]. split.
    + intros e He. vm_compute in He. destruct He as [<-|[<-|[]]]; reflexivity.
    + intros (items & Hitems & Hin). vm_compute in Hitems.
      injection Hitems as <-. vm_compute in Hin.
      destruct Hin as [H|[H|[]]]; discriminate.
  - split; [vm_compute; discriminate|]. split.
    + intros e He. vm_compute in He. destruct He as [<-|[]]; reflexivity.
    + intros (items & Hitems & Hin). vm_compute in Hitems.
      injection Hitems as <-. vm_compute in Hin.
      destruct Hin as [H|[H|[]]]; discriminate.
  - split; [vm_compute; discriminate|]. split.
    + intros e He. vm_compute in He. destruct He.
    + intros (items & Hitems & Hin). vm_compute in Hitems.
      injection Hitems as <-. vm_compute in Hin.
      destruct Hin as [H|[]]; discriminate.
Qed.

Lemma resolveCashbook_cases (cashbooks : list string) (url active : string) :
  resolveCashbook cashbooks url active
  = if JSString.truthy url && includesName cashbooks url then url
    else match cashbooks with
         | [] => ""
         | first :: _ => if JSString.truthy active then active else first
         end.
Proof.
  unfold resolveCashbook.
  destruct (JSString.truthy url && includesName cashbooks url); [done|].
  destruct cashbooks as [|c cs]; simpl; [done|].
  by destruct (JSString.truthy active).
Qed.

(** C3 (as amended).  When the backend answers the list request,
    [loadCashbooks] makes active: the URL cashbook if it is in the list;
    else, for a non-empty list, the cashbook that is already active if one
    is set (whether or not the list still has it) and the first of the list
    if none is set; else, for the empty list, none.  With the list
    [Personal, Work] and the URL parameter [Work], [Work] becomes active. *)
Theorem loadCashbooks_resolves_active (w : World) (data : CashbooksBody) :
  get_cashbooks (backend w) = Ok data ->
  let cashbooks := default [] (body_cashbooks data) in
  let url := default "" (url_cashbook w) in
  let active := activeCashbook (state w) in
  activeCashbook (state (exec loadCashbooks w))
  = (if JSString.truthy url && includesName cashbooks url then url
     else match cashbooks with
          | [] => ""
          | first :: _ => if JSString.truthy active then active else first
          end)
  /\ (cashbooks = ["Personal"; "Work"] -> url = "Work" ->
      activeCashbook (state (exec loadCashbooks w)) = "Work").
Proof.
  intros Hdata cashbooks url active.
  rewrite (loadCashbooks_active w data Hdata), resolveCashbook_cases.
  fold cashbooks url active. split; [done|].
  intros -> ->. reflexivity.
Qed.

Lemma loadCashbooks_resolves_active_witness :
  activeCashbook (state (exec loadCashbooks Sample.urlWork)) = "Work".
Proof.
  refine (proj2 (loadCashbooks_resolves_active Sample.urlWork _ _) _ _);
    reflexivity.
Defined.

(** C3 as stated fails: a cashbook that is active but no longer in the list
    stays active, where the stated priority order gives the first of the
    list. *)
Lemma resolve_by_priority_counterexample :
  get_cashbooks (backend Sample.staleActive)
  = Ok {| body_username := Some "ann"; body_cashbooks := Some ["Personal"] |} /\
  url_cashbook Sample.staleActive = None /\
  activeCashbook (state Sample.staleActive) = "Old" /\
  activeCashbook (state (exec loadCashbooks Sample.staleActive))
  <> resolveByPriority ["Personal"] "" "Old".
Proof. repeat split. vm_compute. discriminate. Qed.

(** C4.  With an empty keyword and an empty date the filter engine hands the
    renderer the entries of [state.allEntries], all of them and in the same
    order. *)
Theorem cleared_filters_keep_all_entries (w : World) :
  default "" (search_input (document w)) = "" ->
  default "" (date_filter (document w)) = "" ->
  filteredList w = contents w (allEntries (state w)).
Proof.
  intros Hk Hd. rewrite filteredList_spec.
  unfold pageKeyword, pageDate, filterList. by rewrite Hk, Hd.
Qed.

Lemma cleared_filters_keep_all_entries_witness :
  filteredList Sample.threeEntries = [Sample.lunch; Sample.salary; Sample.dinner].
Proof.
  rewrite (cleared_filters_keep_all_entries Sample.threeEntries); reflexivity.
Defined.

(** C5.  A non-empty date that no entry has empties the filtered list,
    whatever the keyword, and the table then shows the single
    "No transactions found" row. *)
Theorem unmatched_date_filters_everything (w : World) (dateFilter : string) :
  date_filter (document w) = Some dateFilter ->
  dateFilter <> "" ->
  (forall e, In e (contents w (allEntries (state w))) -> Entry.date e <> dateFilter) ->
  filteredList w = [] /\
  (is_Some (transaction_body (document w)) ->
   transaction_body (document (exec applyFilters w)) = Some [emptyStateRow]).
Proof.
  intros Hd Hne Hno.
  assert (Hl : filteredList w = []).
  { rewrite filteredList_spec. apply filterList_empty_date; [|].
    - unfold pageDate. rewrite Hd. simpl. rewrite JSStringFacts.or_empty.
      destruct (JSString.truthy dateFilter) eqn:E; [done|].
      by apply JSStringFacts.truthy_false in E.
    - unfold pageDate. rewrite Hd. simpl. by rewrite JSStringFacts.or_empty. }
  split; [done|]. intros [rows Hb].
  by rewrite applyFilters_document, Hb, body_paintEntries, Hl.
Qed.

Lemma unmatched_date_filters_everything_witness :
  filteredList Sample.unmatchedDate = [] /\
  transaction_body (document (exec applyFilters Sample.unmatchedDate))
  = Some [emptyStateRow].
Proof.
  destruct (unmatched_date_filters_everything Sample.unmatchedDate "2024-05-05")
    as [Hl Hb].
  - reflexivity.
  - discriminate.
  - intros e He. vm_compute in He. destruct He as [<-|[<-|[]]]; discriminate.
  - split; [exact Hl|]. apply Hb. vm_compute. eauto.
Defined.

(** C6.  With no entries loaded, each export adapter does nothing but show
    the notice "No data to export.": no file is written and no array is
    built. *)
Theorem export_of_nothing_shows_notice (w : World) (cashbook : string) :
  contents w (allEntries (state w)) = [] ->
  (exportPDFOnly cashbook w = showToast "No data to export." "info" w /\
   exportExcelOnly cashbook w = showToast "No data to export." "info" w) /\
  (downloads (exec (exportPDFOnly cashbook) w) = downloads w /\
   downloads (exec (exportExcelOnly cashbook) w) = downloads w) /\
  (arrays (exec (exportPDFOnly cashbook) w) = arrays w /\
   arrays (exec (exportExcelOnly cashbook) w) = arrays w) /\
  (forall toasts, toast_container (document w) = Some toasts ->
   toast_container (document (exec (exportPDFOnly cashbook) w))
   = Some (toasts ++ [noDataNotice]) /\
   toast_container (document (exec (exportExcelOnly cashbook) w))
   = Some (toasts ++ [noDataNotice])).
Proof.
  intros H. unfold exec.
  rewrite (exportPDFOnly_empty cashbook w H), (exportExcelOnly_empty cashbook w H).
  rewrite showToast_run. simpl.
  repeat (split; [done|]).
  intros toasts Ht. unfold paintToast. rewrite Ht. by destruct (document w).
Qed.

Lemma export_of_nothing_shows_notice_witness :
  downloads (exec (exportPDFOnly "Personal") Sample.emptyBook) = [] /\
  downloads (exec (exportExcelOnly "Personal") Sample.emptyBook) = [].
Proof.
  destruct (export_of_nothing_shows_notice Sample.emptyBook "Personal")
    as (_ & [Hp Hx] & _).
  - reflexivity.
  - split; [exact Hp | exact Hx].
Defined.

(** ** The renderer *)

Lemma body_renderEntries (entries : ref) (w : World) :
  is_Some (transaction_body (document w)) ->
  transaction_body (document (exec (renderEntries entries) w))
  = Some (tableRows (contents w entries)).
Proof.
  intros [rows Hb]. unfold exec. rewrite renderEntries_run, Hb. simpl.
  apply body_paintEntries.
Qed.

Lemma byDateDesc_valid (l : list Entry.t) :
  Forall validDate l ->
  JSArray.sort byDateDesc l = JSArray.sort (JSArray.descending timeOf) l.
Proof.
  intros Hv. apply JSArrayFacts.sort_ext. intros a b Ha Hb.
  rewrite List.Forall_forall in Hv.
  destruct (Hv a Ha) as [ta Hta], (Hv b Hb) as [tb Htb].
  unfold byDateDesc, JSArray.descending, timeOf. by rewrite Hta, Htb.
Qed.

Lemma three_permutations {A : Type} (l : list A) (a b c : A) :
  Permutation l [a; b; c] ->
  l = [a; b; c] \/ l = [a; c; b] \/ l = [b; a; c] \/
  l = [b; c; a] \/ l = [c; a; b] \/ l = [c; b; a].
Proof.
  intros H. apply Permutation_sym in H.
  assert (Ha : In a l) by (apply (Permutation_in _ H); by left).
  destruct (in_split _ _ Ha) as (l1 & l2 & ->).
  apply Permutation_cons_app_inv, Permutation_length_2_inv in H.
  destruct l1 as [|x [|y [|z l1]]]; simpl in H;
    destruct H as [H|H]; inversion H; subst; simpl; auto 10.
Qed.

Lemma sort_three_dates (e1 e2 e3 : Entry.t) (l : list Entry.t) :
  Entry.date e1 = "2024-01-01" ->
  Entry.date e2 = "2024-03-01" ->
  Entry.date e3 = "2024-02-01" ->
  Permutation l [e1; e2; e3] ->
  JSArray.sort byDateDesc l = [e2; e3; e1].
Proof.
  intros H1 H2 H3 Hp.
  assert (A12 : JSArray.after byDateDesc e1 e2 = true)
    by (unfold JSArray.after, byDateDesc; rewrite H1, H2; reflexivity).
  assert (A13 : JSArray.after byDateDesc e1 e3 = true)
    by (unfold JSArray.after, byDateDesc; rewrite H1, H3; reflexivity).
  assert (A21 : JSArray.after byDateDesc e2 e1 = false)
    by (unfold JSArray.after, byDateDesc; rewrite H1, H2; reflexivity).
  assert (A23 : JSArray.after byDateDesc e2 e3 = false)
    by (unfold JSArray.after, byDateDesc; rewrite H2, H3; reflexivity).
  assert (A31 : JSArray.after byDateDesc e3 e1 = false)
    by (unfold JSArray.after, byDateDesc; rewrite H1, H3; reflexivity).
  assert (A32 : JSArray.after byDateDesc e3 e2 = true)
    by (unfold JSArray.after, byDateDesc; rewrite H2, H3; reflexivity).
  destruct (three_permutations _ _ _ _ Hp) as [-> | [-> | [-> | [-> | [-> | -> ] ] ] ] ];
    unfold JSArray.sort;
    repeat (cbn [foldr JSArray.insert];
            rewrite ?A12, ?A13, ?A21, ?A23, ?A31, ?A32);
    reflexivity.
Qed.

(** C7.  The renderer paints the rows in descending date order: the rows are
    those of a permutation of the entries sorted by descending time value
    (for entries whose dates parse), and the entries dated 2024-01-01,
    2024-03-01 and 2024-02-01, in any input order, come out as 03-01, 02-01,
    01-01. *)
Theorem renderer_sorts_by_date_descending (w : World) (entries : ref) :
  is_Some (transaction_body (document w)) ->
  (contents w entries <> [] ->
   Forall validDate (contents w entries) ->
   exists sorted,
     transaction_body (document (exec (renderEntries entries) w))
     = Some (map entryRow sorted) /\
     Permutation sorted (contents w entries) /\
     StronglySorted (JSArray.geKey timeOf) sorted) /\
  (forall e1 e2 e3,
     Entry.date e1 = "2024-01-01" ->
     Entry.date e2 = "2024-03-01" ->
     Entry.date e3 = "2024-02-01" ->
     Permutation (contents w entries) [e1; e2; e3] ->
     transaction_body (document (exec (renderEntries entries) w))
     = Some [entryRow e2; entryRow e3; entryRow e1]).
Proof.
  intros Hb. rewrite (body_renderEntries entries w Hb). unfold tableRows. split.
  - intros Hne Hv. exists (JSArray.sort byDateDesc (contents w entries)).
    split; [|split].
    + destruct (contents w entries); [done|reflexivity].
    + apply JSArrayFacts.sort_perm.
    + rewrite byDateDesc_valid by done. apply JSArrayFacts.sort_sorted.
  - intros e1 e2 e3 H1 H2 H3 Hp.
    rewrite (sort_three_dates e1 e2 e3 _ H1 H2 H3 Hp).
    apply Permutation_length in Hp. by rewrite Hp.
Qed.

Lemma renderer_sorts_by_date_descending_witness :
  transaction_body (document (exec (renderEntries 0%nat) Sample.threeEntries))
  = Some [entryRow Sample.salary; entryRow Sample.dinner; entryRow Sample.lunch].
Proof.
  refine (proj2 (renderer_sorts_by_date_descending Sample.threeEntries 0%nat _)
            Sample.lunch Sample.salary Sample.dinner _ _ _ _).
  - vm_compute. eauto.
  - reflexivity.
  - reflexivity.
  - reflexivity.
  - apply Permutation_refl.
Defined.

(** C8.  For the empty entry list the insights list holds exactly one item,
    the "Keep logging" message. *)
Theorem no_entries_keep_logging (w : World) (entries : ref) :
  is_Some (insights_list (document w)) ->
  contents w entries = [] ->
  insights_list (document (exec (updateInsights entries) w)) = Some [KeepLogging].
Proof.
  intros Hi He. rewrite insights_updateInsights by done. by rewrite He.
Qed.

Lemma no_entries_keep_logging_witness :
  insights_list (document (exec (updateInsights 0%nat) Sample.emptyBook))
  = Some [KeepLogging].
Proof.
  apply (no_entries_keep_logging Sample.emptyBook 0%nat).
  - vm_compute. eauto.
  - reflexivity.
Defined.

(** C9.  Filtering, rendering and both exports leave [state.allEntries]
    alone: it is the same array, with the same elements in the same order. *)
Theorem entries_never_mutated (w : World) (entries : ref) (cashbook : string) :
  wellFormed w ->
  entriesUnchanged w (exec applyFilters w) /\
  entriesUnchanged w (exec (renderEntries entries) w) /\
  entriesUnchanged w (exec (exportPDFOnly cashbook) w) /\
  entriesUnchanged w (exec (exportExcelOnly cashbook) w).
Proof.
  intros Hwf.
  split; [|split; [|split]]; apply frames_entriesUnchanged;
    auto using applyFilters_frames, renderEntries_frames,
      exportPDFOnly_frames, exportExcelOnly_frames.
Qed.

Lemma entries_never_mutated_witness :
  contents (exec (renderEntries 0%nat) Sample.threeEntries) 0%nat
  = [Sample.lunch; Sample.salary; Sample.dinner].
Proof.
  destruct (entries_never_mutated Sample.threeEntries 0%nat "Personal")
    as (_ & [_ H] & _).
  - vm_compute. eauto.
  - exact H.
Defined.

(** C10.  The filter engine trims the keyword and puts it in lower case
    before matching: a keyword of white space only filters like the empty
    keyword (the keyword predicate rejects nothing), and a keyword filters
    like its trimmed, lower-case form. *)
Theorem keyword_is_trimmed (w : World) (raw : string) :
  (Forall (fun c => JSString.isWhiteSpace c = true) (list_ascii_of_string raw) ->
   filteredList (typeKeyword raw w) = filteredList (typeKeyword "" w) /\
   filteredList (typeKeyword raw w)
   = filterList "" (pageDate (document w)) (contents w (allEntries (state w)))) /\
  filteredList (typeKeyword raw w)
  = filteredList (typeKeyword (JSString.toLowerCase (JSString.trim raw)) w).
Proof.
  rewrite !filteredList_spec. unfold pageKeyword, typeKeyword. simpl.
  change (contents (with_document _ w)) with (contents w).
  change (pageDate (set_search_input ?v (document w))) with (pageDate (document w)).
  split.
  - intros Hws. by rewrite (keywordOf_whitespace raw Hws).
  - f_equal. rewrite <- (JSStringFacts.or_empty raw) at 2.
    symmetry. apply keywordOf_idem.
Qed.

Lemma keyword_is_trimmed_witness :
  filteredList (typeKeyword "   " Sample.twoEntries)
  = filteredList (typeKeyword "" Sample.twoEntries).
Proof.
  apply (proj1 (keyword_is_trimmed Sample.twoEntries "   ")).
  repeat constructor.
Defined.

(** * Further properties *)

(** ** The filter engine *)

Lemma filter_sublist {A : Type} (p : A -> bool) (l : list A) :
  sublist (List.filter p l) l.
Proof.
  induction l as [|x l IH]; simpl; [constructor|].
  destruct (p x); by constructor.
Qed.

Lemma filterList_sublist (keyword dateFilter : string) (l : list Entry.t) :
  sublist (filterList keyword dateFilter l) l.
Proof.
  unfold filterList.
  destruct (JSString.truthy keyword), (JSString.truthy dateFilter);
    repeat (etrans; [apply filter_sublist|]); done.
Qed.

Lemma filterList_In (keyword dateFilter : string) (l : list Entry.t) (e : Entry.t) :
  In e (filterList keyword dateFilter l) <->
  In e l /\
  (keyword = "" \/ matchesKeyword keyword e = true) /\
  (dateFilter = "" \/ Entry.date e = dateFilter).
Proof.
  unfold filterList.
  destruct (JSString.truthy keyword) eqn:Ek, (JSString.truthy dateFilter) eqn:Ed;
    rewrite ?filter_In; unfold matchesDate; rewrite ?String.eqb_eq;
    try apply JSStringFacts.truthy_false in Ek;
    try apply JSStringFacts.truthy_false in Ed; subst;
    try (assert (keyword <> "") by (intros ->; discriminate));
    try (assert (dateFilter <> "") by (intros ->; discriminate));
    intuition congruence.
Qed.

(** X1.  The list the filter engine hands to the renderer is the sub-list of
    [state.allEntries], in the original order, of the entries that pass the
    keyword predicate (when a keyword is set) and have the filter date (when
    a date is set). *)
Theorem filtered_entries_characterized (w : World) :
  sublist (filteredList w) (contents w (allEntries (state w))) /\
  forall e,
    In e (filteredList w) <->
    In e (contents w (allEntries (state w))) /\
    (pageKeyword (document w) = "" \/
     matchesKeyword (pageKeyword (document w)) e = true) /\
    (pageDate (document w) = "" \/ Entry.date e = pageDate (document w)).
Proof.
  rewrite filteredList_spec. split.
  - apply filterList_sublist.
  - intros e. apply filterList_In.
Qed.

(** ** Missing elements *)

Lemma updateInsights_absent (entries : ref) (w : World) :
  insights_list (document w) = None -> updateInsights entries w = (tt, w).
Proof.
  intros H. rewrite updateInsights_run. unfold paintInsights.
  destruct w as [s a d]; destruct d; simpl in *. by rewrite H.
Qed.

(** X2.  Each painter first looks its element up and does nothing at all
    without it: no toast without the container, no insights without the
    list, and without the table body [renderEntries] changes neither the
    count nor the insights. *)
Theorem missing_elements_are_skipped (w : World) (entries : ref)
    (message type : string) :
  (toast_container (document w) = None -> showToast message type w = (tt, w)) /\
  (insights_list (document w) = None -> updateInsights entries w = (tt, w)) /\
  (transaction_body (document w) = None -> renderEntries entries w = (tt, w)) /\
  (transaction_body (document w) = None -> document (exec applyFilters w) = document w).
Proof.
  split; [|split; [|split]].
  - intros H. rewrite showToast_run. unfold paintToast.
    destruct w as [s a d]; destruct d; simpl in *. by rewrite H.
  - apply updateInsights_absent.
  - intros H. by rewrite renderEntries_run, H.
  - intros H. by rewrite applyFilters_document, H.
Qed.

Lemma missing_elements_are_skipped_witness :
  exec (renderEntries 0%nat)
    (with_document (set_transaction_body None) Sample.threeEntries)
  = with_document (set_transaction_body None) Sample.threeEntries.
Proof.
  unfold exec.
  rewrite (proj1 (proj2 (proj2 (missing_elements_are_skipped
    (with_document (set_transaction_body None) Sample.threeEntries)
    0%nat "" ""))));
    reflexivity.
Defined.

(** ** The renderer *)

Lemma count_paintEntries (now : Z) (bal : money) (l : list Entry.t) (p : Page) :
  is_Some (entry_count p) ->
  entry_count (paintEntries now bal l p) = Some (countText l).
Proof.
  intros [c Hc]. unfold paintEntries, paintInsights, paintCount.
  destruct p as [? ? ? ? ? ? ? ? ? ? ? c' i]; simpl in *; subst.
  by destruct i.
Qed.

(** X3.  For a non-empty list the renderer paints exactly one row per entry,
    none dropped and none twice, and the count label states their number,
    with "entry" for one and "entries" otherwise. *)
Theorem one_row_per_entry (w : World) (entries : ref) :
  is_Some (transaction_body (document w)) ->
  contents w entries <> [] ->
  exists rows,
    transaction_body (document (exec (renderEntries entries) w)) = Some rows /\
    Permutation rows (map entryRow (contents w entries)) /\
    length rows = length (contents w entries) /\
    (is_Some (entry_count (document w)) ->
     entry_count (document (exec (renderEntries entries) w))
     = Some (pretty (length rows) +:+ " " +:+
             (if (length rows =? 1)%nat then "entry" else "entries"))).
Proof.
  intros [old Hb] Hne.
  exists (map entryRow (JSArray.sort byDateDesc (contents w entries))).
  assert (Hrows : tableRows (contents w entries)
                  = map entryRow (JSArray.sort byDateDesc (contents w entries))).
  { unfold tableRows. by destruct (contents w entries). }
  split; [|split; [|split]].
  - rewrite body_renderEntries by eauto. by rewrite Hrows.
  - apply Permutation_map, JSArrayFacts.sort_perm.
  - by rewrite length_map, JSArrayFacts.sort_length.
  - intros Hc. unfold exec. rewrite renderEntries_run, Hb. simpl.
    rewrite count_paintEntries by done.
    rewrite length_map, JSArrayFacts.sort_length. unfold countText.
    by destruct (contents w entries).
Qed.

Lemma one_row_per_entry_witness :
  exists rows,
    transaction_body (document (exec (renderEntries 0%nat) Sample.threeEntries))
    = Some rows /\ length rows = 3%nat.
Proof.
  destruct (one_row_per_entry Sample.threeEntries 0%nat) as (rows & H1 & _ & H3 & _).
  - vm_compute. eauto.
  - vm_compute. discriminate.
  - exists rows. split; [exact H1|exact H3].
Defined.

(** ** Insights: which rule fires when *)

(** The insights for a non-empty list, rule by rule. *)
Lemma insightsOf_rules (now : Z) (bal : money) (entries : list Entry.t) :
  exists (weekly top : list Insight),
    insightsOf now bal entries
    = (fun body => if (length body =? 0)%nat then [SteadyCashFlow] else body)
        ((if 0 <? totalOut entries
          then [SpendingTotals (formatCurrency (Num (totalOut entries)))] else [])
         ++ (if 0 <? totalIn entries
             then [LoggedInflows (formatCurrency (Num (totalIn entries)))] else [])
         ++ weekly ++ top
         ++ (if bal <? 0 then [NegativeBalance] else [])) /\
    (weekly = [] \/ (exists q d, weekly = [WeekOverWeek q d] /\
                                 0 < spendPrevWeek now entries) \/
     (weekly = [NewSpending] /\ spendPrevWeek now entries <= 0 /\
      0 < spendLastWeek now entries)) /\
    (spendPrevWeek now entries <= 0 -> 0 < spendLastWeek now entries ->
     weekly = [NewSpending]) /\
    (top = [] \/ exists n a, top = [TopSpendingNote n a]).
Proof.
  unfold insightsOf. cbv zeta.
  fold (totalIn entries) (totalOut entries)
       (spendLastWeek now entries) (spendPrevWeek now entries).
  set (sortedNotes := JSArray.sort byAmountDesc _).
  set (pct := (_ * inject_Z 100)%Q).
  exists (if 0 <? spendPrevWeek now entries
          then if Qle_bool (inject_Z 10) (Qabs pct)
               then [WeekOverWeek (Qred (Qabs pct))
                       (if Qle_bool pct 0 then "less" else "more")]
               else []
          else if 0 <? spendLastWeek now entries then [NewSpending] else []),
         (match sortedNotes with
          | (note, amount) :: _ => [TopSpendingNote note (formatCurrency amount)]
          | [] => []
          end).
  split; [|split; [|split]].
  - destruct (0 <? totalOut entries), (0 <? totalIn entries),
      (0 <? spendPrevWeek now entries), (Qle_bool (inject_Z 10) (Qabs pct)),
      (0 <? spendLastWeek now entries), sortedNotes as [|[note amount] rest],
      (bal <? 0); reflexivity.
  - destruct (Z.ltb_spec 0 (spendPrevWeek now entries)).
    + destruct (Qle_bool _ _); eauto 10.
    + destruct (Z.ltb_spec 0 (spendLastWeek now entries)); eauto 10.
  - intros Hp Hl.
    destruct (Z.ltb_spec 0 (spendPrevWeek now entries)); [lia|].
    destruct (Z.ltb_spec 0 (spendLastWeek now entries)); [done|lia].
  - destruct sortedNotes as [|[note amount] rest]; eauto.
Qed.

Ltac insight_cases now bal entries :=
  let weekly := fresh "weekly" in
  let top := fresh "top" in
  let E := fresh "E" in
  let Hw := fresh "Hw" in
  let Hn := fresh "Hn" in
  let Ht := fresh "Ht" in
  destruct (insightsOf_rules now bal entries) as (weekly & top & E & Hw & Hn & Ht);
  rewrite E; clear E;
  destruct Hw as [-> | [(? & ? & -> & ?) | (-> & ? & ?)]];
  destruct Ht as [-> | (? & ? & ->)];
  destruct (Z.ltb_spec 0 (totalOut entries));
  destruct (Z.ltb_spec 0 (totalIn entries));
  destruct (Z.ltb_spec bal 0);
  cbn [app length Nat.eqb].


Lemma updateInsights_items (w : World) (entries : ref) (items : list Insight) :
  insights_list (document (exec (updateInsights entries) w)) = Some items ->
  items = shownInsights (clock w) (balance (summary (state w)))
            (contents w entries).
Proof.
  intros Hitems.
  destruct (insights_list (document w)) eqn:E.
  - rewrite insights_updateInsights in Hitems by eauto. congruence.
  - unfold exec in Hitems.
    rewrite updateInsights_absent in Hitems by done.
    simpl in Hitems. congruence.
Qed.




Lemma insightsOf_shape (now : Z) (bal : money) (l : list Entry.t) :
  let items := insightsOf now bal l in
  items <> [] /\
  (In SteadyCashFlow items <-> items = [SteadyCashFlow]) /\
  StronglySorted (fun a b => (rule a < rule b)%nat) items.
Proof.
  cbv zeta.
  insight_cases now bal l;
    (split;
     [ discriminate
     | split;
       [ cbn [In]; intuition (try discriminate; try congruence)
       | repeat constructor; cbn [rule]; lia ] ]).
Qed.

(** X5.  The insights list is never left empty; its items come in rule
    order with at most one item per rule; and the "steady cash flow"
    fallback is shown only alone, when no rule fired. *)
Theorem insights_in_rule_order (w : World) (entries : ref)
    (items : list Insight) :
  insights_list (document (exec (updateInsights entries) w)) = Some items ->
  items <> [] /\
  StronglySorted (fun a b => (rule a < rule b)%nat) items /\
  (In SteadyCashFlow items <-> items = [SteadyCashFlow]).
Proof.
  intros Hitems. apply updateInsights_items in Hitems. subst items.
  unfold shownInsights.
  destruct (length (contents w entries) =? 0)%nat.
  - split; [discriminate|]. split; [repeat constructor|].
    cbn [In]. intuition (try discriminate; try congruence).
  - destruct (insightsOf_shape (clock w) (balance (summary (state w)))
                (contents w entries)) as (H1 & H2 & H3).
    done.
Qed.

Lemma insights_in_rule_order_witness :
  [SpendingTotals (INR (Some 12550)); LoggedInflows (INR (Some 50000));
   TopSpendingNote "food" (INR (Some 12550))] <> [].
Proof.
  refine (proj1 (insights_in_rule_order Sample.threeEntries 0%nat _ _)).
  vm_compute. reflexivity.
Defined.

(** ** Insights: the note totals *)

Module JSObjectFacts.
Import JSObject.

Lemma getOwn_setOwn_eq (key : string) (v : value) (o : t) :
  getOwn key (setOwn key v o) = Some v.
Proof.
  induction o as [|[k x] o IH]; simpl.
  - by rewrite String.eqb_refl.
  - destruct (String.eqb k key) eqn:E; simpl; by rewrite E.
Qed.

Lemma getOwn_setOwn_ne (key key' : string) (v : value) (o : t) :
  key <> key' -> getOwn key' (setOwn key v o) = getOwn key' o.
Proof.
  intros Hne. induction o as [|[k x] o IH]; simpl.
  - by apply String.eqb_neq in Hne as ->.
  - destruct (String.eqb_spec k key) as [->|Hk]; simpl.
    + by apply String.eqb_neq in Hne as ->.
    + by rewrite IH.
Qed.

Lemma getOwn_In (key : string) (v : value) (o : t) :
  getOwn key o = Some v -> In (key, v) o.
Proof.
  induction o as [|[k x] o IH]; simpl; [done|].
  destruct (String.eqb_spec k key) as [->|Hk].
  - intros [= ->]. by left.
  - intros H. right. by apply IH.
Qed.

Lemma In_getOwn (key : string) (v : value) (o : t) :
  List.NoDup (map fst o) -> In (key, v) o -> getOwn key o = Some v.
Proof.
  induction o as [|[k x] o IH]; simpl; [done|].
  intros Hnd Hin. apply List.NoDup_cons_iff in Hnd as [Hk Hnd].
  destruct Hin as [[= -> ->]|Hin].
  - by rewrite String.eqb_refl.
  - destruct (String.eqb_spec k key) as [->|_]; [|by apply IH].
    exfalso. apply Hk. apply in_map_iff. by exists (key, v).
Qed.

Lemma setOwn_keys (key : string) (v : value) (o : t) :
  map fst (setOwn key v o)
  = if existsb (String.eqb key) (map fst o) then map fst o
    else map fst o ++ [key].
Proof.
  induction o as [|[k x] o IH]; simpl; [done|].
  rewrite (String.eqb_sym key k).
  destruct (String.eqb k key); simpl; [done|].
  rewrite IH. by destruct (existsb _ _).
Qed.

Lemma setOwn_NoDup (key : string) (v : value) (o : t) :
  List.NoDup (map fst o) -> List.NoDup (map fst (setOwn key v o)).
Proof.
  intros Hnd. rewrite setOwn_keys.
  destruct (existsb (String.eqb key) (map fst o)) eqn:E; [done|].
  apply List.NoDup_app; [done|repeat constructor; by intros []|].
  intros k Hk [<-|[]].
  assert (existsb (String.eqb key) (map fst o) = true); [|congruence].
  apply existsb_exists. exists key. split; [done|apply String.eqb_refl].
Qed.

Lemma In_setOwn (key : string) (v : value) (o : t) (kv : string * value) :
  In kv (setOwn key v o) -> kv = (key, v) \/ In kv o.
Proof.
  induction o as [|[k x] o IH]; simpl; [intuition|].
  destruct (String.eqb_spec k key) as [->|_]; simpl; intuition.
Qed.

Lemma split_by {A : Type} (p : A -> bool) (l : list A) :
  Permutation (List.filter p l ++ List.filter (fun x => negb (p x)) l) l.
Proof.
  induction l as [|x l IH]; simpl; [done|].
  destruct (p x); simpl.
  - by constructor.
  - rewrite <- Permutation_middle. by constructor.
Qed.

Lemma indexed_values (o : t) :
  map snd (indexed o)
  = List.filter
      (fun kv => match arrayIndex kv.1 with Some _ => true | None => false end) o.
Proof.
  unfold indexed. induction o as [|[k x] o IH]; [done|].
  cbn [omap list_omap List.filter fst]. rewrite <- IH.
  by destruct (arrayIndex k).
Qed.

(** [Object.entries] lists every own property once. *)
Lemma entries_perm (o : t) : Permutation (entries o) o.
Proof.
  unfold entries.
  rewrite (JSArrayFacts.sort_perm _ (indexed o)), indexed_values.
  etrans; [|apply (split_by
    (fun kv => match arrayIndex kv.1 with Some _ => true | None => false end))].
  apply Permutation_app_head.
  erewrite filter_ext; [done|]. intros [k x]. simpl. by destruct (arrayIndex k).
Qed.

End JSObjectFacts.

Lemma groupTotal_cons (key : string) (e : Entry.t) (l : list Entry.t) :
  groupTotal key (e :: l)
  = if String.eqb (noteKey e) key then Entry.amount e + groupTotal key l
    else groupTotal key l.
Proof.
  unfold groupTotal. simpl.
  destruct (String.eqb (noteKey e) key); [apply sumAmounts_cons|done].
Qed.

Lemma not_inherited (key : string) :
  JSObject.inheritedName key = false ->
  String.eqb key "__proto__" = false /\ String.eqb key "constructor" = false.
Proof.
  unfold JSObject.inheritedName. intros H.
  by apply orb_false_iff in H as [H1 H2].
Qed.

(** One step of the reducer, seen from a key that is not inherited. *)
Lemma getOwn_addNote (key : string) (acc : JSObject.t) (e : Entry.t) :
  JSObject.inheritedName key = false ->
  JSObject.getOwn key (addNote acc e)
  = if String.eqb (noteKey e) key then
      Some match JSObject.getOwn key acc with
           | Some (Num m) => Num (m + Entry.amount e)
           | Some Text => Text
           | None => Num (Entry.amount e)
           end
    else JSObject.getOwn key acc.
Proof.
  intros Hk. destruct (not_inherited key Hk) as [Hp Hc].
  unfold addNote. fold (noteKey e).
  destruct (String.eqb_spec (noteKey e) key) as [->|Hne].
  - unfold JSObject.assign. rewrite Hp.
    rewrite JSObjectFacts.getOwn_setOwn_eq. unfold JSObject.readOrZeroPlus.
    rewrite Hk. destruct (JSObject.getOwn key acc) as [[m|]|]; try done.
    by destruct (Z.eqb_spec m 0) as [->|_].
  - unfold JSObject.assign.
    destruct (String.eqb (noteKey e) "__proto__"); [done|].
    by apply JSObjectFacts.getOwn_setOwn_ne.
Qed.

Lemma getOwn_fold_addNote (key : string) (l : list Entry.t) (acc : JSObject.t) :
  JSObject.inheritedName key = false ->
  JSObject.getOwn key (fold_left addNote l acc)
  = match JSObject.getOwn key acc with
    | Some (Num s) => Some (Num (s + groupTotal key l))
    | Some Text => Some Text
    | None =>
        if existsb (fun e => String.eqb (noteKey e) key) l
        then Some (Num (groupTotal key l)) else None
    end.
Proof.
  intros Hk. revert acc. induction l as [|e l IH]; intros acc.
  - simpl. destruct (JSObject.getOwn key acc) as [[s|]|]; try done.
    do 2 f_equal. unfold groupTotal, sumAmounts. simpl. lia.
  - cbn [fold_left existsb]. rewrite IH, getOwn_addNote, groupTotal_cons by done.
    destruct (String.eqb (noteKey e) key); simpl; [|done].
    destruct (JSObject.getOwn key acc) as [[s|]|]; try done.
    do 2 f_equal. lia.
Qed.

(** X6.  The object [updateInsights] accumulates holds, under every key
    that is not an inherited property name, the sum of the amounts of the
    cash-out entries whose trimmed, lower-case note is that key; a key no
    such entry has is absent. *)
Theorem note_totals_are_group_sums (entries : list Entry.t) (key : string) :
  JSObject.inheritedName key = false ->
  JSObject.getOwn key (topNotesOf entries)
  = if existsb (fun e => String.eqb (noteKey e) key) (notedSpending entries)
    then Some (Num (groupTotal key (notedSpending entries)))
    else None.
Proof.
  intros Hk. unfold topNotesOf. by rewrite getOwn_fold_addNote.
Qed.

Lemma note_totals_are_group_sums_witness :
  JSObject.getOwn "food"
    (topNotesOf [Sample.lunch; Sample.salary; Sample.dinner])
  = Some (Num 12550).
Proof.
  rewrite (note_totals_are_group_sums
             [Sample.lunch; Sample.salary; Sample.dinner] "food");
    reflexivity.
Defined.

Lemma addNote_kept (entries : list Entry.t) (acc : JSObject.t) (e : Entry.t) :
  keptFrom entries acc -> In e entries ->
  JSObject.inheritedName (noteKey e) = false ->
  keptFrom entries (addNote acc e).
Proof.
  intros [Hnd Hkv] He Hk. destruct (not_inherited _ Hk) as [Hp Hc].
  unfold addNote. fold (noteKey e). unfold JSObject.assign. rewrite Hp.
  split; [by apply JSObjectFacts.setOwn_NoDup|].
  intros k v Hin. apply JSObjectFacts.In_setOwn in Hin as [[= -> ->]|Hin];
    [|by apply Hkv].
  split; [|by exists e].
  unfold JSObject.readOrZeroPlus. rewrite Hk.
  destruct (JSObject.getOwn (noteKey e) acc) as [[m|]|] eqn:E; eauto.
  apply JSObjectFacts.getOwn_In, Hkv in E as [[n Hn] _]. discriminate.
Qed.

Lemma fold_addNote_kept (entries l : list Entry.t) (acc : JSObject.t) :
  keptFrom entries acc ->
  (forall e, In e l ->
     In e entries /\ JSObject.inheritedName (noteKey e) = false) ->
  keptFrom entries (fold_left addNote l acc).
Proof.
  revert acc. induction l as [|e l IH]; intros acc Hacc Hl; [done|].
  simpl. apply IH.
  - destruct (Hl e) as [He Hk]; [by left|]. by apply addNote_kept.
  - intros x Hx. apply Hl. by right.
Qed.

Lemma byAmountDesc_numbers (o : list (string * value)) :
  (forall kv, In kv o -> exists n, kv.2 = Num n) ->
  JSArray.sort byAmountDesc o = JSArray.sort (JSArray.descending numberOf) o.
Proof.
  intros Hnum. apply JSArrayFacts.sort_ext. intros a b Ha Hb.
  destruct (Hnum a Ha) as [x Hx], (Hnum b Hb) as [y Hy].
  unfold byAmountDesc, JSArray.descending, numberOf. by rewrite Hx, Hy.
Qed.

(** X7.  When no noted cash-out entry has an inherited property name as its
    key, the note named as top spending note is the key of one of those
    entries, the amount shown is the sum for that key, and no key has a
    greater sum. *)
Theorem top_note_has_the_highest_total (now : Z) (bal : money)
    (entries : list Entry.t) :
  notedSpending entries <> [] ->
  (forall e, In e (notedSpending entries) ->
     JSObject.inheritedName (noteKey e) = false) ->
  exists n,
    In (TopSpendingNote n
          (formatCurrency (Num (groupTotal n (notedSpending entries)))))
       (insightsOf now bal entries) /\
    (exists e, In e (notedSpending entries) /\ noteKey e = n) /\
    forall e, In e (notedSpending entries) ->
      groupTotal (noteKey e) (notedSpending entries)
      <= groupTotal n (notedSpending entries).
Proof.
  intros Hne Hkeys.
  assert (Hsome : exists e1, In e1 (notedSpending entries)).
  { destruct (notedSpending entries) as [|e1 ?]; [done|]. exists e1. by left. }
  assert (Hkept : keptFrom (notedSpending entries) (topNotesOf entries)).
  { unfold topNotesOf. apply fold_addNote_kept.
    - split; [constructor|]. intros k v [].
    - intros e He. split; [done|by apply Hkeys]. }
  destruct Hkept as [Hnd Hkv].
  assert (Hlookup : forall e, In e (notedSpending entries) ->
            In (noteKey e, Num (groupTotal (noteKey e) (notedSpending entries)))
               (topNotesOf entries)).
  { intros e He. apply JSObjectFacts.getOwn_In. unfold topNotesOf.
    rewrite getOwn_fold_addNote by (by apply Hkeys).
    replace (existsb _ (notedSpending entries)) with true; [done|]. symmetry.
    apply existsb_exists. exists e. split; [done|apply String.eqb_refl]. }
  remember (topNotesOf entries) as o eqn:Eo.
  remember (JSArray.sort byAmountDesc (JSObject.entries o)) as S eqn:ES.
  assert (HS : Permutation S o).
  { subst S. rewrite JSArrayFacts.sort_perm. apply JSObjectFacts.entries_perm. }
  assert (Hsorted : StronglySorted (JSArray.geKey numberOf) S).
  { subst S. rewrite byAmountDesc_numbers; [apply JSArrayFacts.sort_sorted|].
    intros [k v] Hin.
    apply (Permutation_in _ (JSObjectFacts.entries_perm o)), Hkv in Hin
      as [[n ->] _]. by exists n. }
  destruct S as [|[n v] rest].
  { destruct Hsome as [e1 He1]. pose proof (Hlookup e1 He1) as Hin.
    apply (Permutation_in _ (Permutation_sym HS)) in Hin. destruct Hin. }
  assert (Hhead : In (n, v) o).
  { apply (Permutation_in _ HS). by left. }
  destruct (Hkv n v Hhead) as [[t ->] (e0 & He0 & Hn)].
  assert (Ht : t = groupTotal n (notedSpending entries)).
  { pose proof (Hlookup e0 He0) as Hin. rewrite Hn in Hin.
    apply (JSObjectFacts.In_getOwn _ _ _ Hnd) in Hin, Hhead. congruence. }
  subst t. exists n. split; [|split; [by exists e0|]].
  - unfold insightsOf. cbv zeta. fold (notedSpending entries).
    fold (topNotesOf entries). rewrite <- Eo, <- ES. cbv beta iota.
    match goal with
    | |- In ?x (if (length ?l =? 0)%nat then _ else _) =>
        apply (in_grown x l (length l =? 0)%nat SteadyCashFlow)
    end.
    apply in_grown. apply in_or_app. right. by left.
  - intros e He. pose proof (Hlookup e He) as Hin.
    apply (Permutation_in _ (Permutation_sym HS)) in Hin.
    destruct Hin as [Heq|Hin]; [injection Heq as Hk _; rewrite Hk; lia|].
    inversion Hsorted as [|? ? _ Hall]; subst.
    apply (proj1 (List.Forall_forall _ _) Hall _ Hin).
Qed.

Lemma top_note_has_the_highest_total_witness :
  exists n,
    In (TopSpendingNote n
          (formatCurrency (Num (groupTotal n
             (notedSpending [Sample.lunch; Sample.salary; Sample.dinner])))))
       (insightsOf 0 0 [Sample.lunch; Sample.salary; Sample.dinner]).
Proof.
  destruct (top_note_has_the_highest_total 0 0
              [Sample.lunch; Sample.salary; Sample.dinner]) as (n & Hn & _).
  - vm_compute. discriminate.
  - intros e He. vm_compute in He. destruct He as [<-|[<-|[]]]; reflexivity.
  - exists n. exact Hn.
Defined.

(** ** Export adapters: what is written *)

Lemma exportPDFOnly_run (cashbook : string) (w : World) :
  contents w (allEntries (state w)) <> [] ->
  exportPDFOnly cashbook w
  = (tt, with_document (paintToast "PDF exported successfully!" "success")
           (with_downloads
              (fun files => files ++
                 [PdfFile (pdfFor cashbook (localeDate w)
                             (contents w (allEntries (state w))))])
              (with_arrays
                 (insert (fresh (dom (arrays w)))
                    (JSArray.sort byDateDesc (contents w (allEntries (state w)))))
                 w))).
Proof.
  intros Hne. unfold exportPDFOnly.
  unfold bind at 1, get; cbv beta iota zeta.
  unfold bind at 1, read; cbv beta iota.
  destruct (length _ =? 0)%nat eqn:Hlen.
  { apply Nat.eqb_eq, length_zero_iff_nil in Hlen. done. }
  unfold bind at 1. rewrite exportRows_run.
  unfold bind at 1, read; cbv beta iota.
  rewrite contents_fresh by (by apply contents_allocated).
  unfold bind at 1, modify. rewrite showToast_run. reflexivity.
Qed.

Lemma exportExcelOnly_run (cashbook : string) (w : World) :
  contents w (allEntries (state w)) <> [] ->
  exportExcelOnly cashbook w
  = (tt, with_document (paintToast "Excel exported successfully!" "success")
           (with_downloads
              (fun files => files ++
                 [XlsxFile (workbookFor cashbook
                              (contents w (allEntries (state w))))])
              (with_arrays
                 (insert (fresh (dom (arrays w)))
                    (JSArray.sort byDateDesc (contents w (allEntries (state w)))))
                 w))).
Proof.
  intros Hne. unfold exportExcelOnly.
  unfold bind at 1, get; cbv beta iota zeta.
  unfold bind at 1, read; cbv beta iota.
  destruct (length _ =? 0)%nat eqn:Hlen.
  { apply Nat.eqb_eq, length_zero_iff_nil in Hlen. done. }
  unfold bind at 1. rewrite exportRows_run.
  unfold bind at 1, read; cbv beta iota.
  rewrite contents_fresh by (by apply contents_allocated).
  unfold bind at 1, modify. rewrite showToast_run. reflexivity.
Qed.



(** X9.  The exported table has one row per entry, the rows of a
    permutation of the entries that is sorted by descending date when the
    dates parse, and row [i] (from 0) starts with the number [i + 1]. *)
Theorem export_rows_are_numbered (w : World) (entries : ref) :
  exists sorted,
    (exportRows entries w).1 = imap exportRow sorted /\
    Permutation sorted (contents w entries) /\
    length (exportRows entries w).1 = length (contents w entries) /\
    (Forall validDate (contents w entries) ->
     StronglySorted (JSArray.geKey timeOf) sorted) /\
    (forall i row, (exportRows entries w).1 !! i = Some row ->
       head row = Some (pretty (i + 1)%nat)).
Proof.
  exists (JSArray.sort byDateDesc (contents w entries)).
  rewrite exportRows_run. cbn [fst].
  split; [done|]. split; [apply JSArrayFacts.sort_perm|].
  split; [by rewrite length_imap, JSArrayFacts.sort_length|].
  split.
  - intros Hv. rewrite byDateDesc_valid by done. apply JSArrayFacts.sort_sorted.
  - intros i row Hrow. rewrite list_lookup_imap in Hrow.
    destruct (JSArray.sort byDateDesc (contents w entries) !! i); [|done].
    simpl in Hrow. by injection Hrow as <-.
Qed.

(** X10.  The export adapters do not consult the document: whatever the
    page holds, in particular whatever the two filter inputs hold, the
    same files are written. *)
Theorem exports_ignore_the_page (w : World) (cashbook : string)
    (f : Page -> Page) :
  downloads (exec (exportPDFOnly cashbook) (with_document f w))
  = downloads (exec (exportPDFOnly cashbook) w) /\
  downloads (exec (exportExcelOnly cashbook) (with_document f w))
  = downloads (exec (exportExcelOnly cashbook) w).
Proof.
  destruct (contents w (allEntries (state w))) as [|e l] eqn:El.
  - unfold exec.
    rewrite !exportPDFOnly_empty, !exportExcelOnly_empty by done.
    by rewrite !showToast_run.
  - assert (Hne : contents w (allEntries (state w)) <> []) by congruence.
    unfold exec.
    rewrite !exportPDFOnly_run, !exportExcelOnly_run by done. done.
Qed.

(** ** Loading: running the steps *)

Lemma showLoading_run (active : bool) (w : World) :
  showLoading active w = (tt, with_document (paintLoading active) w).
Proof.
  unfold showLoading, paintLoading, bind, get, modify, ret.
  destruct w as [s a d]; destruct d as [? lo ? ? ? ? ? ? ? ? ? ? ?]; simpl.
  by destruct lo.
Qed.

Lemma updateSummaryCards_run (s : Summary) (w : World) :
  updateSummaryCards s w
  = (tt, if cardsPresent (document w)
         then with_state (set_summary s) (with_document (paintCards s) w)
         else w).
Proof.
  unfold updateSummaryCards, cardsPresent, paintCards, animateValue.
  unfold bind, get, modify, ret.
  destruct w as [st a d]; destruct d as [? ? ? ? ? i o b ? ? ? ? ?]; simpl.
  by destruct i, o, b.
Qed.

(** X11.  [updateSummaryCards] stores the new summary in the state only
    when it also paints it: if one of the three cards is missing, the cards
    and [state.summary] both keep their old values. *)
Theorem summary_stored_only_with_cards (w : World) (s : Summary) :
  (cardsPresent (document w) = true ->
   summary (state (exec (updateSummaryCards s) w)) = s /\
   total_in_el (document (exec (updateSummaryCards s) w))
   = Some (formatCurrency (Num (total_in s))) /\
   total_out_el (document (exec (updateSummaryCards s) w))
   = Some (formatCurrency (Num (total_out s))) /\
   balance_el (document (exec (updateSummaryCards s) w))
   = Some (formatCurrency (Num (balance s)))) /\
  (cardsPresent (document w) = false ->
   exec (updateSummaryCards s) w = w).
Proof.
  unfold exec. rewrite updateSummaryCards_run.
  split; intros ->; done.
Qed.

Lemma summary_stored_only_with_cards_witness :
  summary (state (exec (updateSummaryCards
     {| total_in := 500; total_out := 200; balance := 300 |}) Sample.emptyBook))
  = {| total_in := 500; total_out := 200; balance := 300 |}.
Proof.
  refine (proj1 (proj1 (summary_stored_only_with_cards Sample.emptyBook _) _)).
  reflexivity.
Defined.

Lemma fetchJSON_ok {A : Type} (body : A) (w : World) :
  fetchJSON (Ok body) w = (inr body, w).
Proof. reflexivity. Qed.

(** The world after a [loadEntries] whose two requests succeed. *)
Lemma loadEntries_ok (w : World) (body : option (list Entry.t)) (s : Summary) :
  JSString.truthy (activeCashbook (state w)) = true ->
  get_entries (backend w) (activeCashbook (state w)) = Ok body ->
  get_summary (backend w) (activeCashbook (state w)) = Ok s ->
  exec loadEntries w
  = with_document (paintLoading false)
      (exec (renderEntries (fresh (dom (arrays w))))
         (exec (updateSummaryCards s)
            (with_localStorage
               (insert ("transactions_" +:+ activeCashbook (state w))
                  (default [] body))
               (with_state (set_allEntries (fresh (dom (arrays w))))
                  (with_arrays (insert (fresh (dom (arrays w))) (default [] body))
                     (with_document (paintLoading true) w)))))).
Proof.
  intros Ha He Hs. unfold exec, loadEntries.
  rewrite bind_run. cbn [get fst snd]. rewrite Ha. cbn [negb].
  rewrite bind_run, showLoading_run. cbn [fst snd].
  rewrite bind_run.
  change (backend w) with (backend (with_document (paintLoading true) w)) at 1.
  cbn [backend with_document]. rewrite He, fetchJSON_ok. cbn [fst snd].
  rewrite bind_run. cbv beta iota.
  rewrite !bind_run. cbn [alloc modify fst snd].
  rewrite Hs, fetchJSON_ok. cbn [fst snd].
  rewrite !bind_run. cbn [get fst snd].
  rewrite showLoading_run. cbn [snd].
  change (arrays (with_document (paintLoading true) w)) with (arrays w).
  rewrite updateSummaryCards_run.
  destruct (cardsPresent _); reflexivity.
Qed.

Lemma cardsPresent_paintLoading (b : bool) (p : Page) :
  cardsPresent (paintLoading b p) = cardsPresent p.
Proof. unfold paintLoading. by destruct (loading_overlay p). Qed.

Lemma body_paintLoading (b : bool) (p : Page) :
  transaction_body (paintLoading b p) = transaction_body p.
Proof. unfold paintLoading. by destruct (loading_overlay p). Qed.

Lemma renderEntries_facts (entries : ref) (w : World) :
  is_Some (arrays w !! entries) ->
  let w' := exec (renderEntries entries) w in
  state w' = state w /\ arrays w ⊆ arrays w' /\
  localStorage w' = localStorage w /\
  contents w' entries = contents w entries /\
  (is_Some (transaction_body (document w)) ->
   transaction_body (document w') = Some (tableRows (contents w entries))).
Proof.
  intros Hr w'. subst w'.
  destruct (renderEntries_frames entries w) as [Hs Ha].
  split; [done|]. split; [done|]. split; [|split].
  - unfold exec. rewrite renderEntries_run.
    by destruct (transaction_body (document w)).
  - destruct Hr as [l Hl]. unfold contents.
    by rewrite (lookup_weaken _ _ _ _ Hl Ha), Hl.
  - apply body_renderEntries.
Qed.

(** What a [loadEntries] whose two requests succeed leaves behind. *)
Lemma loadEntries_loaded (w : World)
    (body : option (list Entry.t)) (s : Summary) :
  JSString.truthy (activeCashbook (state w)) = true ->
  get_entries (backend w) (activeCashbook (state w)) = Ok body ->
  get_summary (backend w) (activeCashbook (state w)) = Ok s ->
  let w' := exec loadEntries w in
  arrays w !! allEntries (state w') = None /\
  contents w' (allEntries (state w')) = default [] body /\
  arrays w ⊆ arrays w' /\
  localStorage w' !! ("transactions_" +:+ activeCashbook (state w))
  = Some (default [] body) /\
  (is_Some (transaction_body (document w)) ->
   transaction_body (document w') = Some (tableRows (default [] body))) /\
  (cardsPresent (document w) = true -> summary (state w') = s).
Proof.
  intros Ha He Hs w'. subst w'. rewrite (loadEntries_ok w body s) by done.
  set (r := fresh (dom (arrays w))).
  set (W := with_localStorage _ _).
  assert (HW : arrays W = <[r:=default [] body]> (arrays w)) by reflexivity.
  assert (Hcards : cardsPresent (document W) = cardsPresent (document w)).
  { apply cardsPresent_paintLoading. }
  assert (Hbody : transaction_body (document W) = transaction_body (document w)).
  { apply body_paintLoading. }
  set (W1 := exec (updateSummaryCards s) W).
  assert (H1 : arrays W1 = arrays W /\ allEntries (state W1) = r /\
               localStorage W1 = localStorage W /\
               transaction_body (document W1) = transaction_body (document W) /\
               (cardsPresent (document W) = true -> summary (state W1) = s)).
  { unfold W1, exec. rewrite updateSummaryCards_run.
    destruct (cardsPresent (document W)); repeat split; try done. }
  destruct H1 as (HA1 & HR1 & HL1 & HB1 & HS1).
  assert (Hr1 : is_Some (arrays W1 !! r)).
  { rewrite HA1, HW, lookup_insert_eq. eauto. }
  destruct (renderEntries_facts r W1 Hr1) as (HS2 & HA2 & HL2 & HC2 & HB2).
  cbn [state arrays localStorage document with_document contents].
  change (contents (with_document ?f ?x)) with (contents x).
  rewrite HS2, HR1, HL2, HL1, HC2.
  repeat split.
  - apply fresh_unallocated.
  - unfold contents. by rewrite HA1, HW, lookup_insert_eq.
  - etrans; [|exact HA2]. rewrite HA1, HW.
    apply insert_subseteq, fresh_unallocated.
  - subst W. simpl. apply lookup_insert_eq.
  - intros Hb. rewrite body_paintLoading, HB2.
    + unfold contents. by rewrite HA1, HW, lookup_insert_eq.
    + by rewrite HB1, Hbody.
  - intros Hc. apply HS1. by rewrite Hcards.
Qed.

(** X12.  When both requests succeed, [loadEntries] replaces the entry list
    wholesale: [state.allEntries] becomes a new array holding exactly the
    fetched entries, the arrays that existed before are left as they were,
    the entries are cached under [transactions_<cashbook>], and the table is
    painted from the fetched entries. *)
Theorem loadEntries_replaces_entries (w : World)
    (body : option (list Entry.t)) (s : Summary) :
  JSString.truthy (activeCashbook (state w)) = true ->
  get_entries (backend w) (activeCashbook (state w)) = Ok body ->
  get_summary (backend w) (activeCashbook (state w)) = Ok s ->
  let w' := exec loadEntries w in
  arrays w !! allEntries (state w') = None /\
  contents w' (allEntries (state w')) = default [] body /\
  arrays w ⊆ arrays w' /\
  localStorage w' !! ("transactions_" +:+ activeCashbook (state w))
  = Some (default [] body) /\
  (is_Some (transaction_body (document w)) ->
   transaction_body (document w') = Some (tableRows (default [] body))) /\
  (cardsPresent (document w) = true -> summary (state w') = s).
Proof. apply loadEntries_loaded. Qed.

Lemma loadEntries_replaces_entries_witness :
  contents (exec loadEntries Scenario.reloaded)
    (allEntries (state (exec loadEntries Scenario.reloaded)))
  = [Sample.salary; Sample.dinner].
Proof.
  refine (proj1 (proj2 (loadEntries_replaces_entries Scenario.reloaded
    (Some [Sample.salary; Sample.dinner]) noSummary _ _ _))); reflexivity.
Defined.

Lemma fetchJSON_rejected {A : Type} (answer : Response A) (message : string)
    (w : World) :
  rejection answer = Some message ->
  fetchJSON answer w = (inl message, redirected answer w).
Proof. destruct answer; simpl; intros [= <-]; reflexivity. Qed.

(** The world after a [loadEntries] whose entry request is rejected. *)
Lemma loadEntries_rejected (w : World)
    (answer : Response (option (list Entry.t))) (message : string) :
  JSString.truthy (activeCashbook (state w)) = true ->
  get_entries (backend w) (activeCashbook (state w)) = answer ->
  rejection answer = Some message ->
  exec loadEntries w
  = with_document (paintLoading false)
      (with_document (paintToast message "error")
         (redirected answer (with_document (paintLoading true) w))).
Proof.
  intros Ha He Hm. unfold exec, loadEntries.
  rewrite bind_run. cbn [get fst snd]. rewrite Ha. cbn [negb].
  rewrite bind_run, showLoading_run. cbn [fst snd].
  rewrite bind_run.
  change (backend w) with (backend (with_document (paintLoading true) w)) at 1.
  cbn [backend with_document]. rewrite He.
  rewrite (fetchJSON_rejected answer message) by done. cbn [fst snd].
  rewrite bind_run, showToast_run. cbn [fst snd].
  rewrite showLoading_run. reflexivity.
Qed.

(** X13.  When the entry request is rejected, [loadEntries] keeps what was
    loaded: the state, the stored arrays, the cache and the table are as
    before; the rejection message is shown as an error toast; and a 401
    answer sends the browser to the login page, any other leaves the
    location alone. *)
Theorem rejected_load_keeps_entries (w : World)
    (answer : Response (option (list Entry.t))) (message : string) :
  JSString.truthy (activeCashbook (state w)) = true ->
  get_entries (backend w) (activeCashbook (state w)) = answer ->
  rejection answer = Some message ->
  let w' := exec loadEntries w in
  state w' = state w /\ arrays w' = arrays w /\
  localStorage w' = localStorage w /\
  transaction_body (document w') = transaction_body (document w) /\
  insights_list (document w') = insights_list (document w) /\
  (forall toasts, toast_container (document w) = Some toasts ->
   toast_container (document w')
   = Some (toasts ++ [{| toastText := message; toastType := "error" |}])) /\
  location_href w'
  = match answer with Unauthorized => Some "/login" | _ => location_href w end.
Proof.
  intros Ha He Hm w'. subst w'.
  rewrite (loadEntries_rejected w answer message) by done.
  destruct w as [st a d dl ls h u c ld b].
  destruct d as [tc lo ? ? ? ? ? ? ? ? ? ? ?].
  destruct answer; try discriminate;
    destruct lo, tc; cbn; repeat split; try done;
    intros ? [= <-]; done.
Qed.

Lemma rejected_load_keeps_entries_witness :
  contents (exec loadEntries (Scenario.failing Unauthorized)) 0%nat
  = [Sample.lunch] /\
  location_href (exec loadEntries (Scenario.failing Unauthorized))
  = Some "/login".
Proof.
  destruct (rejected_load_keeps_entries (Scenario.failing Unauthorized)
              Unauthorized "Unauthorized") as (Hs & Ha & _ & _ & _ & _ & Hh);
    try reflexivity.
  split; [|exact Hh]. unfold contents. rewrite Ha. reflexivity.
Defined.

(** The world after a [loadEntries] whose summary request is rejected. *)
Lemma loadEntries_half (w : World) (body : option (list Entry.t))
    (answer : Response Summary) (message : string) :
  JSString.truthy (activeCashbook (state w)) = true ->
  get_entries (backend w) (activeCashbook (state w)) = Ok body ->
  get_summary (backend w) (activeCashbook (state w)) = answer ->
  rejection answer = Some message ->
  exec loadEntries w
  = with_document (paintLoading false)
      (with_document (paintToast message "error")
         (redirected answer
            (with_localStorage
               (insert ("transactions_" +:+ activeCashbook (state w))
                  (default [] body))
               (with_state (set_allEntries (fresh (dom (arrays w))))
                  (with_arrays (insert (fresh (dom (arrays w))) (default [] body))
                     (with_document (paintLoading true) w)))))).
Proof.
  intros Ha He Hs Hm. unfold exec, loadEntries.
  rewrite bind_run. cbn [get fst snd]. rewrite Ha. cbn [negb].
  rewrite bind_run, showLoading_run. cbn [fst snd].
  rewrite bind_run.
  change (backend w) with (backend (with_document (paintLoading true) w)) at 1.
  cbn [backend with_document]. rewrite He, fetchJSON_ok. cbn [fst snd].
  rewrite bind_run. cbv beta iota.
  rewrite !bind_run. cbn [alloc modify fst snd].
  rewrite Hs, (fetchJSON_rejected answer message) by done. cbn [fst snd].
  rewrite showToast_run, showLoading_run. reflexivity.
Qed.

(** X14.  When the entries arrive but the summary request is rejected, the
    state is already switched to the fetched entries and they are cached,
    while nothing is repainted: the table, the insights and
    [state.summary] stay as they were, and the rejection message is shown
    as an error toast. *)
Theorem rejected_summary_leaves_table_stale (w : World)
    (body : option (list Entry.t)) (answer : Response Summary)
    (message : string) :
  JSString.truthy (activeCashbook (state w)) = true ->
  get_entries (backend w) (activeCashbook (state w)) = Ok body ->
  get_summary (backend w) (activeCashbook (state w)) = answer ->
  rejection answer = Some message ->
  let w' := exec loadEntries w in
  contents w' (allEntries (state w')) = default [] body /\
  localStorage w' !! ("transactions_" +:+ activeCashbook (state w))
  = Some (default [] body) /\
  transaction_body (document w') = transaction_body (document w) /\
  insights_list (document w') = insights_list (document w) /\
  summary (state w') = summary (state w) /\
  (forall toasts, toast_container (document w) = Some toasts ->
   toast_container (document w')
   = Some (toasts ++ [{| toastText := message; toastType := "error" |}])).
Proof.
  intros Ha He Hs Hm w'. subst w'.
  rewrite (loadEntries_half w body answer message) by done.
  split.
  { destruct answer; try discriminate; unfold contents; cbn;
      by rewrite lookup_insert_eq. }
  split.
  { destruct answer; try discriminate; cbn; apply lookup_insert_eq. }
  destruct w as [st a d dl ls h u c ld b].
  destruct d as [tc lo ? ? ? ? ? ? ? ? ? ? ?].
  destruct answer; try discriminate;
    destruct lo, tc; cbn; repeat split; try done;
    intros ? [= <-]; done.
Qed.

Lemma rejected_summary_leaves_table_stale_witness :
  contents (exec loadEntries Scenario.halfLoaded)
    (allEntries (state (exec loadEntries Scenario.halfLoaded)))
  = [Sample.salary] /\
  transaction_body (document (exec loadEntries Scenario.halfLoaded)) = Some [].
Proof.
  destruct (rejected_summary_leaves_table_stale Scenario.halfLoaded
              (Some [Sample.salary]) (Failed "") "Request failed")
    as (Hc & _ & Hb & _); try reflexivity.
  split; [exact Hc|exact Hb].
Defined.







(** ** The elements of the page stay *)

Lemma sameElements_refl (w : World) : sameElements w w.
Proof. reflexivity. Qed.

Lemma sameElements_trans (w1 w2 w3 : World) :
  sameElements w1 w2 -> sameElements w2 w3 -> sameElements w1 w3.
Proof. unfold sameElements. congruence. Qed.

Lemma pres_ret {A : Type} (a : A) : preserves sameElements (ret a).
Proof. intros w. reflexivity. Qed.

Lemma pres_get : preserves sameElements get.
Proof. intros w. reflexivity. Qed.

Lemma pres_bind {A B : Type} (m : M A) (k : A -> M B) :
  preserves sameElements m -> (forall a, preserves sameElements (k a)) ->
  preserves sameElements (bind m k).
Proof.
  intros Hm Hk w. unfold exec. rewrite bind_run.
  eapply sameElements_trans; [apply Hm|apply Hk].
Qed.

Lemma pres_modify (f : World -> World) :
  (forall w, document (f w) = document w) ->
  preserves sameElements (modify f).
Proof. intros H w. unfold sameElements, exec. simpl. by rewrite H. Qed.

Lemma pres_alloc (l : list Entry.t) : preserves sameElements (alloc l).
Proof. intros w. reflexivity. Qed.

Lemma pres_fetchJSON {A : Type} (answer : Response A) :
  preserves sameElements (fetchJSON answer).
Proof. intros w. by destruct answer. Qed.

Lemma pres_showToast (message type : string) :
  preserves sameElements (showToast message type).
Proof.
  intros w. unfold sameElements, exec. rewrite showToast_run. simpl.
  unfold paintToast. destruct (document w) as [tc ? ? ? ? ? ? ? ? ? ? ? ?].
  by destruct tc.
Qed.

Lemma pres_showLoading (active : bool) :
  preserves sameElements (showLoading active).
Proof.
  intros w. unfold sameElements, exec. rewrite showLoading_run. simpl.
  unfold paintLoading. destruct (document w) as [? lo ? ? ? ? ? ? ? ? ? ? ?].
  by destruct lo.
Qed.

Lemma elements_paintEntries (now : Z) (bal : money) (l : list Entry.t) (p : Page) :
  is_Some (transaction_body p) ->
  elements (paintEntries now bal l p) = elements p.
Proof.
  intros [rows Hb]. unfold paintEntries, paintInsights, paintCount.
  destruct p as [? ? ? ? ? ? ? ? ? ? tb c i]; simpl in *; subst.
  by destruct c, i.
Qed.

Lemma pres_renderEntries (entries : ref) :
  preserves sameElements (renderEntries entries).
Proof.
  intros w. unfold sameElements, exec. rewrite renderEntries_run. simpl.
  destruct (transaction_body (document w)) eqn:E; [|done].
  simpl. apply elements_paintEntries. rewrite E. eauto.
Qed.

Lemma pres_updateInsights (entries : ref) :
  preserves sameElements (updateInsights entries).
Proof.
  intros w. unfold sameElements, exec. rewrite updateInsights_run. simpl.
  unfold paintInsights. destruct (document w) as [? ? ? ? ? ? ? ? ? ? ? ? i].
  by destruct i.
Qed.

Lemma pres_updateSummaryCards (s : Summary) :
  preserves sameElements (updateSummaryCards s).
Proof.
  intros w. unfold sameElements, exec. rewrite updateSummaryCards_run.
  unfold cardsPresent, paintCards.
  destruct w as [st a d]; destruct d as [? ? ? ? ? i o b ? ? ? ? ?]; simpl.
  by destruct i, o, b.
Qed.

Lemma pres_updateCashbookIndicator : preserves sameElements updateCashbookIndicator.
Proof.
  intros w. unfold sameElements, exec, updateCashbookIndicator.
  unfold bind, get, modify, ret.
  destruct w as [st a d]; destruct d as [? ? ci an ? ? ? ? ? ? ? ? ?]; simpl.
  destruct ci, an; simpl; try done.
  by destruct (JSString.truthy (activeCashbook st)).
Qed.

(** The greeting block of [loadCashbooks]. *)
Lemma pres_welcome (u : string) :
  preserves sameElements
    (modify (with_state (set_username u)) ;;
     w' <- get ;;
     match welcome_user (document w') with
     | None => ret tt
     | Some _ =>
         modify (with_document (set_welcome_user
           (Some ("Hi, " +:+ username (state w') +:+ "!"))))
     end).
Proof.
  intros w. unfold sameElements, exec, bind, get, modify, ret.
  destruct w as [st a d]; destruct d as [? ? ? ? wu ? ? ? ? ? ? ? ?]; simpl.
  by destruct wu.
Qed.

Lemma pres_filteredEntries : preserves sameElements filteredEntries.
Proof.
  intros w. unfold sameElements, exec.
  destruct (filteredEntries_run w) as (r & w' & -> & [E _] & _).
  simpl. by rewrite E.
Qed.

Create HintDb elems.
#[local] Hint Resolve pres_ret pres_get pres_alloc pres_fetchJSON pres_showToast
  pres_showLoading pres_renderEntries pres_updateInsights
  pres_updateSummaryCards pres_updateCashbookIndicator pres_welcome
  pres_filteredEntries : elems.

(** Splits an action into its steps and closes the ones known to keep the
    elements. *)
Ltac elems :=
  repeat first
    [ solve [auto with elems]
    | apply pres_bind; [|intros ?]
    | apply pres_modify; intros ?; reflexivity
    | match goal with
      | |- preserves sameElements (if ?c then _ else _) => destruct c
      | |- preserves sameElements (match ?x with _ => _ end) => destruct x
      end ].

Lemma pres_loadEntries : preserves sameElements loadEntries.
Proof. unfold loadEntries. elems. Qed.

#[local] Hint Resolve pres_loadEntries : elems.

Lemma pres_loadCashbooks : preserves sameElements loadCashbooks.
Proof. unfold loadCashbooks. elems. Qed.

Lemma pres_applyFilters : preserves sameElements applyFilters.
Proof. unfold applyFilters. elems. Qed.

(** ** The loading overlay is always released *)

Lemma overlay_kept (w w' : World) :
  sameElements w w' ->
  is_Some (loading_overlay (document w)) ->
  is_Some (loading_overlay (document w')).
Proof.
  unfold sameElements, elements. intros H Hw.
  apply (f_equal (fun l => nth 1 l false)) in H. cbn [nth] in H.
  rewrite (bool_decide_true _ Hw) in H.
  by apply bool_decide_eq_true in H.
Qed.

Lemma released_showLoading : released (showLoading false).
Proof.
  intros w [b Hb]. unfold exec. rewrite showLoading_run. simpl.
  unfold paintLoading. rewrite Hb. by destruct (document w).
Qed.

Lemma released_bind {A B : Type} (m : M A) (k : A -> M B) :
  preserves sameElements m -> (forall a, released (k a)) ->
  released (bind m k).
Proof.
  intros Hm Hk w Hw. unfold exec. rewrite bind_run. apply Hk.
  apply (overlay_kept w); [apply Hm|exact Hw].
Qed.

(** X16.  [loadCashbooks], and [loadEntries] when a cashbook is active,
    switch the loading overlay on and always end with it switched off,
    whatever the backend answers: success, rejection or 401. *)
Theorem loading_overlay_is_released (w : World) :
  is_Some (loading_overlay (document w)) ->
  loading_overlay (document (exec loadCashbooks w)) = Some false /\
  (JSString.truthy (activeCashbook (state w)) = true ->
   loading_overlay (document (exec loadEntries w)) = Some false).
Proof.
  intros Hw. split.
  - revert w Hw. change (released loadCashbooks). unfold loadCashbooks.
    apply released_bind; [elems|intros _].
    apply released_bind; [elems|intros w0].
    apply released_bind; [elems|intros response].
    apply released_bind; [destruct response; elems|intros _].
    apply released_showLoading.
  - intros Ha. unfold exec, loadEntries.
    rewrite bind_run. cbn [get fst snd]. rewrite Ha. cbn [negb]. clear Ha.
    generalize (backend w) (activeCashbook (state w)). intros b c.
    revert w Hw.
    match goal with
    | |- forall w, _ -> loading_overlay (document (?m w).2) = _ =>
        change (released m)
    end.
    apply released_bind; [elems|intros _].
    apply released_bind; [elems|intros response].
    apply released_bind; [destruct response; elems|intros _].
    apply released_showLoading.
Qed.

Lemma loading_overlay_is_released_witness :
  loading_overlay (document (exec loadCashbooks
    (Scenario.failing (Failed "boom")))) = Some false.
Proof.
  refine (proj1 (loading_overlay_is_released _ _)). vm_compute. eauto.
Defined.

(** ** Loading the cashbooks *)

(** The world after a [loadCashbooks] whose list request is rejected. *)
Lemma loadCashbooks_rejected (w : World) (answer : Response CashbooksBody)
    (message : string) :
  get_cashbooks (backend w) = answer ->
  rejection answer = Some message ->
  exec loadCashbooks w
  = with_document (paintLoading false)
      (with_document (paintToast message "error")
         (redirected answer (with_document (paintLoading true) w))).
Proof.
  intros He Hm. unfold exec, loadCashbooks.
  rewrite bind_run, showLoading_run. cbn [fst snd].
  rewrite bind_run. cbn [get fst snd].
  rewrite bind_run. cbn [backend with_document]. rewrite He.
  rewrite (fetchJSON_rejected answer message) by done. cbn [fst snd].
  rewrite bind_run, showToast_run. cbn [fst snd].
  rewrite showLoading_run. reflexivity.
Qed.

(** X17.  When the list request is rejected, [loadCashbooks] resolves
    nothing and loads nothing: the state (active cashbook included), the
    stored arrays, the cache and the table are as before, whatever the URL
    names; the rejection message is shown as an error toast, and only a 401
    answer changes the location. *)
Theorem rejected_list_keeps_state (w : World)
    (answer : Response CashbooksBody) (message : string) :
  get_cashbooks (backend w) = answer ->
  rejection answer = Some message ->
  let w' := exec loadCashbooks w in
  state w' = state w /\ arrays w' = arrays w /\
  localStorage w' = localStorage w /\
  transaction_body (document w') = transaction_body (document w) /\
  cashbook_indicator (document w') = cashbook_indicator (document w) /\
  (forall toasts, toast_container (document w) = Some toasts ->
   toast_container (document w')
   = Some (toasts ++ [{| toastText := message; toastType := "error" |}])) /\
  location_href w'
  = match answer with Unauthorized => Some "/login" | _ => location_href w end.
Proof.
  intros He Hm w'. subst w'.
  rewrite (loadCashbooks_rejected w answer message) by done.
  destruct w as [st a d dl ls h u c ld b].
  destruct d as [tc lo ? ? ? ? ? ? ? ? ? ? ?].
  destruct answer; try discriminate;
    destruct lo, tc; cbn; repeat split; try done;
    intros ? [= <-]; done.
Qed.

Lemma rejected_list_keeps_state_witness :
  activeCashbook (state (exec loadCashbooks (Scenario.failing Unauthorized)))
  = "Personal" /\
  location_href (exec loadCashbooks (Scenario.failing Unauthorized))
  = location_href (Scenario.failing Unauthorized).
Proof.
  destruct (rejected_list_keeps_state (Scenario.failing Unauthorized)
              (Failed "down") "down") as (Hs & _ & _ & _ & _ & _ & Hh);
    try reflexivity.
  split; [|exact Hh]. rewrite Hs. reflexivity.
Defined.

Lemma updateCashbookIndicator_run (w : World) :
  updateCashbookIndicator w
  = (tt, with_document (paintIndicator (activeCashbook (state w))) w).
Proof.
  unfold updateCashbookIndicator, paintIndicator, bind, get, modify, ret.
  destruct w as [st a d]; destruct d as [? ? ci an ? ? ? ? ? ? ? ? ?]; simpl.
  destruct ci, an; try done. by destruct (JSString.truthy (activeCashbook st)).
Qed.

Lemma with_state_same (w : World) :
  with_state (set_activeCashbook (activeCashbook (state w))) w = w.
Proof. destruct w as [st]; by destruct st. Qed.

(** The world after a [loadCashbooks] whose list request is answered. *)
Lemma loadCashbooks_ok (w : World) (data : CashbooksBody) :
  get_cashbooks (backend w) = Ok data ->
  exec loadCashbooks w
  = with_document (paintLoading false)
      (exec loadEntries
         (exec updateCashbookIndicator
            (choose (default [] (body_cashbooks data))
               (greet data (with_document (paintLoading true) w))))).
Proof.
  intros He. unfold exec, loadCashbooks.
  rewrite bind_run, showLoading_run. cbn [fst snd].
  rewrite bind_run. cbn [get fst snd].
  rewrite bind_run. cbn [backend with_document]. rewrite He, fetchJSON_ok.
  cbn [fst snd].
  set (w1 := with_document (paintLoading true) w).
  rewrite bind_run. cbv beta iota.
  rewrite bind_run.
  match goal with
  | |- context [((if ?c then ?m else ret tt) w1).2] =>
      assert (Hg : ((if c then m else ret tt) w1).2 = greet data w1)
  end.
  { unfold greet. destruct (JSString.truthy _); [|done].
    rewrite !bind_run. cbn [modify get fst snd].
    by destruct (welcome_user _). }
  rewrite Hg. set (w2 := greet data w1).
  rewrite bind_run, getCashbookFromURL_run. cbn [fst snd].
  rewrite bind_run. cbn [get fst snd].
  rewrite bind_run.
  match goal with
  | |- context [(?m w2).2] =>
      match m with
      | (if _ then _ else _) =>
          assert (Hc : (m w2).2 = choose (default [] (body_cashbooks data)) w2)
      end
  end.
  { unfold choose, resolveCashbook.
    repeat match goal with
           | |- context [if ?c then _ else _] => destruct c
           end; try reflexivity.
    cbn [ret snd]. by rewrite with_state_same. }
  rewrite Hc. rewrite bind_run. rewrite showLoading_run. reflexivity.
Qed.





(** ** Event handlers *)

Lemma onClearFilters_run (w : World) :
  onClearFilters w = applyFilters (with_document clearInputs w).
Proof.
  unfold onClearFilters. rewrite bind_run. cbn [get fst snd].
  rewrite !bind_run. f_equal.
  unfold clearInputs.
  destruct w as [st a d dl ls h u c ld b].
  destruct d as [tc lo ci an wu ti to_ be si df tb ec il].
  by destruct si, df.
Qed.

Lemma filterList_no_filter (l : list Entry.t) : filterList "" "" l = l.
Proof. reflexivity. Qed.

(** X19.  The clear-filters button empties the two inputs the page has and
    repaints the table from every entry of [state.allEntries], whatever the
    inputs held before; the state is not touched. *)
Theorem clear_filters_shows_all_entries (w : World) :
  let w' := exec onClearFilters w in
  (is_Some (search_input (document w)) ->
   search_input (document w') = Some "") /\
  (is_Some (date_filter (document w)) ->
   date_filter (document w') = Some "") /\
  (is_Some (transaction_body (document w)) ->
   transaction_body (document w')
   = Some (tableRows (contents w (allEntries (state w))))) /\
  (is_Some (insights_list (document w)) ->
   is_Some (transaction_body (document w)) ->
   insights_list (document w')
   = Some (shownInsights (clock w) (balance (summary (state w)))
             (contents w (allEntries (state w))))) /\
  state w' = state w.
Proof.
  intros w'. subst w'. unfold exec. rewrite onClearFilters_run.
  set (wc := with_document clearInputs w).
  pose proof (applyFilters_document wc) as Hdoc. unfold exec in Hdoc.
  destruct (applyFilters_frames wc) as [Hst _]. unfold exec in Hst.
  rewrite Hdoc, Hst. clear Hdoc Hst.
  assert (Hl : filteredList wc = contents w (allEntries (state w))).
  { rewrite filteredList_spec.
    replace (pageKeyword (document wc)) with "".
    2:{ unfold pageKeyword, wc, clearInputs. simpl.
        destruct (document w) as [tc lo ci an wu ti to_ be si df tb ec il].
        simpl. by destruct si, df. }
    replace (pageDate (document wc)) with "".
    2:{ unfold pageDate, wc, clearInputs. simpl.
        destruct (document w) as [tc lo ci an wu ti to_ be si df tb ec il].
        simpl. by destruct si, df. }
    apply filterList_no_filter. }
  rewrite Hl. clear Hl.
  generalize (contents w (allEntries (state w))) as l. intros l.
  subst wc. unfold clearInputs, paintEntries, paintInsights, paintCount.
  destruct w as [st a d dl ls h u c ld b].
  destruct d as [tc lo ci an wu ti to_ be si df tb ec il].
  cbn [document with_document state clock search_input date_filter
       transaction_body].
  destruct si, df, tb, ec, il; cbn; repeat split; try done;
    by intros [? ?].
Qed.

Lemma clear_filters_shows_all_entries_witness :
  transaction_body (document (exec onClearFilters Sample.unmatchedDate))
  = Some (tableRows [Sample.lunch; Sample.salary]).
Proof.
  refine (proj1 (proj2 (proj2
    (clear_filters_shows_all_entries Sample.unmatchedDate))) _).
  vm_compute. eauto.
Defined.

Lemma contents_with_location (h : option string) (w : World) (r : ref) :
  contents (with_location_href h w) r = contents w r.
Proof. reflexivity. Qed.

(** X20.  Without an active cashbook the handlers that need one stop at
    their guard: submitting shows a notice and goes to the cashbook page,
    a delete click and the two export buttons show a notice only.  No
    request is consumed, no file is written and the state is not touched,
    even when entries are still loaded. *)
Theorem handlers_need_a_cashbook (w : World) :
  JSString.truthy (activeCashbook (state w)) = false ->
  (forall answer,
     exec (onEntrySubmit answer) w
     = with_location_href (Some "/cashbooks")
         (with_document
            (paintToast "Please select a cashbook from the Cashbooks page first"
               "info") w)) /\
  (forall entryId answer,
     exec (onTableClick (Some entryId) answer) w
     = with_document (paintToast "No cashbook selected" "info") w) /\
  exec onExportPDF w
  = with_document (paintToast "Select a cashbook to export." "info") w /\
  exec onExportExcel w
  = with_document (paintToast "Select a cashbook to export." "info") w.
Proof.
  intros Ha. unfold exec, onEntrySubmit, onTableClick, onExportPDF, onExportExcel.
  repeat split; intros; rewrite bind_run; cbn [get fst snd]; rewrite Ha;
    cbn [negb]; rewrite ?bind_run, showToast_run; reflexivity.
Qed.

Lemma handlers_need_a_cashbook_witness :
  downloads (exec onExportPDF Scenario.noCashbook) = [] /\
  location_href (exec (onEntrySubmit (Ok tt)) Scenario.noCashbook)
  = Some "/cashbooks".
Proof.
  destruct (handlers_need_a_cashbook Scenario.noCashbook eq_refl)
    as (Hsubmit & _ & Hpdf & _).
  rewrite Hpdf, Hsubmit. split; reflexivity.
Defined.

Lemma toasts_paintLoading (b : bool) (p : Page) :
  toast_container (paintLoading b p) = toast_container p.
Proof. unfold paintLoading. by destruct (loading_overlay p). Qed.

Lemma toasts_renderEntries (entries : ref) (w : World) :
  toast_container (document (exec (renderEntries entries) w))
  = toast_container (document w).
Proof.
  unfold exec. rewrite renderEntries_run. cbn [snd].
  destruct (transaction_body (document w)); [|done].
  cbn [document with_document with_arrays].
  unfold paintEntries, paintInsights, paintCount.
  destruct (document w) as [tc lo ci an wu ti to_ be si df tb ec il].
  by destruct ec, il.
Qed.

Lemma toasts_updateSummaryCards (s : Summary) (w : World) :
  toast_container (document (exec (updateSummaryCards s) w))
  = toast_container (document w).
Proof.
  unfold exec. rewrite updateSummaryCards_run. cbn [snd].
  by destruct (cardsPresent (document w)).
Qed.

(** A successful [loadEntries] shows no toast. *)
Lemma loadEntries_ok_toasts (w : World) (body : option (list Entry.t))
    (s : Summary) :
  JSString.truthy (activeCashbook (state w)) = true ->
  get_entries (backend w) (activeCashbook (state w)) = Ok body ->
  get_summary (backend w) (activeCashbook (state w)) = Ok s ->
  toast_container (document (exec loadEntries w)) = toast_container (document w).
Proof.
  intros Ha He Hs. rewrite (loadEntries_ok w body s) by done.
  cbn [document with_document].
  rewrite toasts_paintLoading, toasts_renderEntries, toasts_updateSummaryCards.
  cbn [document with_localStorage with_state with_arrays with_document].
  apply toasts_paintLoading.
Qed.

(** A toast followed by a [loadEntries] whose two requests succeed. *)
Lemma announced_reload (message : string) (w : World)
    (body : option (list Entry.t)) (s : Summary) :
  JSString.truthy (activeCashbook (state w)) = true ->
  get_entries (backend w) (activeCashbook (state w)) = Ok body ->
  get_summary (backend w) (activeCashbook (state w)) = Ok s ->
  let w' := exec (showToast message "success" ;; loadEntries) w in
  contents w' (allEntries (state w')) = default [] body /\
  (is_Some (transaction_body (document w)) ->
   transaction_body (document w') = Some (tableRows (default [] body))) /\
  (forall toasts, toast_container (document w) = Some toasts ->
   toast_container (document w')
   = Some (toasts ++ [{| toastText := message; toastType := "success" |}])).
Proof.
  intros Ha He Hs w'. subst w'. unfold exec.
  rewrite bind_run, showToast_run. cbn [fst snd].
  set (wt := with_document (paintToast message "success") w).
  destruct (loadEntries_loaded wt body s Ha He Hs)
    as (_ & Hc & _ & _ & Hb & _).
  pose proof (loadEntries_ok_toasts wt body s Ha He Hs) as Ht.
  unfold exec in *. split; [exact Hc|]. split.
  - intros Hbody. apply Hb. subst wt. unfold paintToast. cbn.
    by destruct (toast_container (document w)).
  - intros toasts Hto. rewrite Ht. subst wt. unfold paintToast. cbn.
    by rewrite Hto.
Qed.

(** X21.  After an accepted add or delete the view is rebuilt from what
    the backend returns, not edited in place: the handler shows its success
    toast, then [state.allEntries] and the table hold exactly the fetched
    entries. *)
Theorem accepted_change_reloads_entries (w : World) (entryId : Z)
    (body : option (list Entry.t)) (s : Summary) :
  JSString.truthy (activeCashbook (state w)) = true ->
  get_entries (backend w) (activeCashbook (state w)) = Ok body ->
  get_summary (backend w) (activeCashbook (state w)) = Ok s ->
  let added := exec (onEntrySubmit (Ok tt)) w in
  let deleted := exec (onTableClick (Some entryId) (Ok tt)) w in
  contents added (allEntries (state added)) = default [] body /\
  contents deleted (allEntries (state deleted)) = default [] body /\
  (is_Some (transaction_body (document w)) ->
   transaction_body (document added) = Some (tableRows (default [] body)) /\
   transaction_body (document deleted) = Some (tableRows (default [] body))) /\
  (forall toasts, toast_container (document w) = Some toasts ->
   toast_container (document added)
   = Some (toasts ++ [{| toastText := "Entry added"; toastType := "success" |}]) /\
   toast_container (document deleted)
   = Some (toasts ++ [{| toastText := "Entry deleted"; toastType := "success" |}])).
Proof.
  intros Ha He Hs added deleted.
  assert (Hadd : added = exec (showToast "Entry added" "success" ;; loadEntries) w).
  { subst added. unfold exec, onEntrySubmit.
    rewrite bind_run. cbn [get fst snd]. rewrite Ha. cbn [negb].
    rewrite bind_run, fetchJSON_ok. reflexivity. }
  assert (Hdel : deleted
                 = exec (showToast "Entry deleted" "success" ;; loadEntries) w).
  { subst deleted. unfold exec, onTableClick.
    rewrite bind_run. cbn [get fst snd]. rewrite Ha. cbn [negb].
    rewrite bind_run, fetchJSON_ok. reflexivity. }
  rewrite Hadd, Hdel.
  destruct (announced_reload "Entry added" w body s Ha He Hs) as (A1 & A2 & A3).
  destruct (announced_reload "Entry deleted" w body s Ha He Hs) as (D1 & D2 & D3).
  repeat split; auto.
Qed.

Lemma accepted_change_reloads_entries_witness :
  contents (exec (onEntrySubmit (Ok tt)) Scenario.reloaded)
    (allEntries (state (exec (onEntrySubmit (Ok tt)) Scenario.reloaded)))
  = [Sample.salary; Sample.dinner].
Proof.
  refine (proj1 (accepted_change_reloads_entries Scenario.reloaded 1
    (Some [Sample.salary; Sample.dinner]) noSummary _ _ _)); reflexivity.
Defined.

(** X22.  A rejected add or delete changes nothing the user loaded: the
    handler shows the rejection message as an error toast and does not
    reload; the state, the stored arrays, the cache and the table are as
    before, and only a 401 answer changes the location. *)
Theorem rejected_change_keeps_view (w : World) (entryId : Z)
    (answer : Response unit) (message : string) :
  JSString.truthy (activeCashbook (state w)) = true ->
  rejection answer = Some message ->
  exec (onEntrySubmit answer) w
  = with_document (paintToast message "error") (redirected answer w) /\
  exec (onTableClick (Some entryId) answer) w
  = with_document (paintToast message "error") (redirected answer w) /\
  state (redirected answer w) = state w /\
  arrays (redirected answer w) = arrays w /\
  localStorage (redirected answer w) = localStorage w /\
  document (redirected answer w) = document w.
Proof.
  intros Ha Hm. unfold exec, onEntrySubmit, onTableClick.
  rewrite !bind_run. cbn [get fst snd]. rewrite Ha. cbn [negb].
  rewrite !bind_run, (fetchJSON_rejected answer message) by done.
  cbn [fst snd]. rewrite showToast_run.
  by destruct answer.
Qed.

Lemma rejected_change_keeps_view_witness :
  exec (onEntrySubmit (Failed "Amount must be positive")) Sample.twoEntries
  = with_document (paintToast "Amount must be positive" "error")
      Sample.twoEntries.
Proof.
  refine (proj1 (rejected_change_keeps_view Sample.twoEntries 0
    (Failed "Amount must be positive") _ _ _)); reflexivity.
Defined.

(** X23.  Logging out always ends on the login page, whether the backend
    accepts the request, fails or answers 401, and touches neither the
    state nor the document. *)
Theorem logout_always_leaves (w : World) (answer : Response unit) :
  let w' := exec (onLogout answer) w in
  location_href w' = Some "/login" /\
  state w' = state w /\ document w' = document w /\
  arrays w' = arrays w /\ localStorage w' = localStorage w /\
  downloads w' = downloads w.
Proof. by destruct answer. Qed.

(** A click in the table that is not on a delete button does nothing. *)
Lemma onTableClick_elsewhere (answer : Response unit) (w : World) :
  exec (onTableClick None answer) w = w.
Proof. reflexivity. Qed.

(** ** Theme *)

Section ThemeProperties.
Import Theme.

Lemma contains_app (c : string) (l1 l2 : list string) :
  contains c (l1 ++ l2) = contains c l1 || contains c l2.
Proof. apply existsb_app. Qed.

Lemma contains_remove2 (c : string) (classes : list string) :
  contains c (remove2 "theme-light" "theme-dark" classes)
  = plain c && contains c classes.
Proof.
  unfold contains, remove2.
  induction classes as [|x l IH]; simpl; [by rewrite andb_false_r|].
  destruct (String.eqb_spec c x) as [->|Hne].
  - fold (plain x). destruct (plain x); simpl.
    + by rewrite String.eqb_refl.
    + rewrite IH. fold (plain x). by destruct (plain x).
  - fold (plain x). destruct (plain x); simpl; rewrite ?IH.
    + destruct (String.eqb_spec c x); [done|]. done.
    + done.
Qed.

Lemma bodyClasses_setTheme (theme : string) (e : Env) :
  bodyClasses (setTheme theme e)
  = List.filter plain (bodyClasses e) ++ [classOf theme].
Proof.
  unfold setTheme, add, classOf. cbn [bodyClasses].
  fold (classOf theme).
  replace (contains _ (remove2 _ _ _)) with false; [done|].
  symmetry. rewrite contains_remove2.
  unfold plain, classOf. by destruct (isDark theme).
Qed.

Lemma filter_plain_setTheme (theme : string) (e : Env) :
  List.filter plain (bodyClasses (setTheme theme e))
  = List.filter plain (bodyClasses e).
Proof.
  rewrite bodyClasses_setTheme, List.filter_app.
  replace (List.filter plain [classOf theme]) with (@nil string).
  2:{ unfold classOf. by destruct (isDark theme). }
  rewrite app_nil_r.
  induction (bodyClasses e) as [|x l IH]; simpl; [done|].
  destruct (plain x) eqn:E; simpl; rewrite ?E, IH; done.
Qed.

Lemma contains_filter_plain (c : string) (l : list string) :
  contains c (List.filter plain l) = plain c && contains c l.
Proof. apply contains_remove2. Qed.

Lemma dark_setTheme (theme : string) (e : Env) :
  contains "theme-dark" (bodyClasses (setTheme theme e)) = isDark theme.
Proof.
  rewrite bodyClasses_setTheme, contains_app, contains_filter_plain.
  unfold classOf. by destruct (isDark theme).
Qed.

Lemma setTheme_setTheme (t1 t2 : string) (e : Env) :
  setTheme t2 (setTheme t1 e)
  = {| bodyClasses := List.filter plain (bodyClasses e) ++ [classOf t2];
       theme_toggle := theme_toggle (setTheme t2 e);
       cb_theme := Some t2;
       prefersDark := prefersDark e |}.
Proof.
  pose proof (bodyClasses_setTheme t2 (setTheme t1 e)) as Hb.
  rewrite filter_plain_setTheme in Hb.
  destruct (setTheme t2 (setTheme t1 e)) as [b t c p] eqn:E.
  cbn [bodyClasses] in Hb. subst b.
  unfold setTheme in E. cbn [theme_toggle cb_theme prefersDark] in E.
  injection E as _ <- <- <-.
  f_equal. cbn [setTheme theme_toggle]. by destruct (theme_toggle e).
Qed.

Lemma setTheme_eq (theme : string) (e : Env) :
  setTheme theme e
  = {| bodyClasses := List.filter plain (bodyClasses e) ++ [classOf theme];
       theme_toggle := theme_toggle (setTheme theme e);
       cb_theme := Some theme;
       prefersDark := prefersDark e |}.
Proof.
  pose proof (bodyClasses_setTheme theme e) as Hb.
  destruct (setTheme theme e) as [b t c p] eqn:E.
  cbn [bodyClasses] in Hb. subst b.
  unfold setTheme in E. injection E as _ <- <- <-. reflexivity.
Qed.

(** A second [setTheme] makes the first one unobservable. *)
Lemma setTheme_absorbs (t1 t2 : string) (e : Env) :
  setTheme t2 (setTheme t1 e) = setTheme t2 e.
Proof. rewrite setTheme_setTheme. symmetry. apply setTheme_eq. Qed.

Lemma count_filter_plain (theme : string) (l : list string) :
  count_occ string_dec (List.filter plain l) (classOf theme) = 0%nat.
Proof.
  apply count_occ_not_In. intros Hin. apply filter_In in Hin as [_ Hp].
  unfold plain, classOf in Hp. by destruct (isDark theme).
Qed.

(** X24.  After [setTheme] the body carries exactly one theme class, the
    dark one exactly for the theme "dark" (any other value counts as
    light); the other classes are kept in their order, and the value is
    stored under [cb_theme] as given. *)
Theorem setTheme_sets_one_theme_class (theme : string) (e : Env) :
  let e' := setTheme theme e in
  contains "theme-dark" (bodyClasses e') = isDark theme /\
  contains "theme-light" (bodyClasses e') = negb (isDark theme) /\
  count_occ string_dec (bodyClasses e') (classOf theme) = 1%nat /\
  List.filter plain (bodyClasses e') = List.filter plain (bodyClasses e) /\
  cb_theme e' = Some theme.
Proof.
  intros e'. subst e'. split; [apply dark_setTheme|]. split.
  { rewrite bodyClasses_setTheme, contains_app, contains_filter_plain.
    unfold classOf. by destruct (isDark theme). }
  split.
  { rewrite bodyClasses_setTheme, count_occ_app, count_filter_plain.
    simpl. by destruct (string_dec _ _). }
  split; [apply filter_plain_setTheme|reflexivity].
Qed.

Lemma onToggle_eq (e : Env) :
  onToggle e
  = setTheme (if contains "theme-dark" (bodyClasses e) then "light" else "dark") e.
Proof. reflexivity. Qed.

Lemma dark_onToggle (e : Env) :
  contains "theme-dark" (bodyClasses (onToggle e))
  = negb (contains "theme-dark" (bodyClasses e)).
Proof.
  rewrite onToggle_eq, dark_setTheme.
  by destruct (contains "theme-dark" (bodyClasses e)).
Qed.

(** X25.  The toggle button flips the theme: the body is dark after a
    click exactly when it was not before, the new theme is what is stored,
    and from the first click on two clicks bring back the same body
    classes, button text and stored value. *)
Theorem toggle_flips_theme (e : Env) :
  contains "theme-dark" (bodyClasses (onToggle e))
  = negb (contains "theme-dark" (bodyClasses e)) /\
  cb_theme (onToggle e)
  = Some (if contains "theme-dark" (bodyClasses e) then "light" else "dark") /\
  onToggle (onToggle (onToggle e)) = onToggle e.
Proof.
  split; [apply dark_onToggle|]. split; [reflexivity|].
  rewrite (onToggle_eq (onToggle (onToggle e))), dark_onToggle, dark_onToggle.
  rewrite negb_involutive.
  rewrite (onToggle_eq (onToggle e)), (onToggle_eq e).
  by rewrite !setTheme_absorbs.
Qed.

Lemma initialTheme_stored (theme : string) (e : Env) :
  cb_theme e = Some theme -> JSString.truthy theme = true ->
  initialTheme e = theme.
Proof.
  intros Hc Ht. unfold initialTheme. rewrite Hc. simpl.
  unfold JSString.or. by rewrite Ht.
Qed.

(** X26.  The theme survives a reload: whatever page comes up next, if its
    storage holds what the toggle stored, [handleThemeInitialization] gives
    the body the theme the toggle left, whatever the system prefers, and
    keeps the stored value. *)
Theorem stored_theme_survives_reload (e next : Env) :
  cb_theme next = cb_theme (onToggle e) ->
  contains "theme-dark" (bodyClasses (handleThemeInitialization next))
  = contains "theme-dark" (bodyClasses (onToggle e)) /\
  cb_theme (handleThemeInitialization next) = cb_theme next.
Proof.
  intros Hc. unfold handleThemeInitialization.
  rewrite dark_setTheme, dark_onToggle.
  rewrite onToggle_eq in Hc. cbn [setTheme cb_theme] in Hc.
  rewrite (initialTheme_stored _ next Hc)
    by by destruct (contains "theme-dark" (bodyClasses e)).
  split; [by destruct (contains "theme-dark" (bodyClasses e))|].
  by rewrite Hc.
Qed.

Lemma stored_theme_survives_reload_witness :
  contains "theme-dark"
    (bodyClasses (handleThemeInitialization Scenario.lightSystem)) = true.
Proof.
  refine (eq_trans (proj1 (stored_theme_survives_reload
    Scenario.lightStored Scenario.lightSystem _)) _); reflexivity.
Defined.

(** X27.  With nothing stored (no item, or an empty one) the first theme
    follows the system preference and is stored as "dark" or "light";
    and initializing twice is the same as initializing once. *)
Theorem initial_theme_follows_system (e : Env) :
  (default "" (cb_theme e) = "" ->
   contains "theme-dark" (bodyClasses (handleThemeInitialization e))
   = prefersDark e /\
   cb_theme (handleThemeInitialization e)
   = Some (if prefersDark e then "dark" else "light")) /\
  handleThemeInitialization (handleThemeInitialization e)
  = handleThemeInitialization e.
Proof.
  split.
  - intros Hc. unfold handleThemeInitialization.
    rewrite dark_setTheme. unfold initialTheme. rewrite Hc.
    by destruct (prefersDark e).
  - unfold handleThemeInitialization.
    assert (Hi : initialTheme (setTheme (initialTheme e) e) = initialTheme e).
    { apply initialTheme_stored; [reflexivity|].
      unfold initialTheme, JSString.or.
      destruct (JSString.truthy (default "" (cb_theme e))) eqn:E; [done|].
      by destruct (prefersDark e). }
    by rewrite Hi, setTheme_absorbs.
Qed.

End ThemeProperties.

(** ** The header of the page *)

Lemma sameHeader_refl (w : World) : sameHeader w w.
Proof. by repeat split. Qed.

Lemma sameHeader_trans (w1 w2 w3 : World) :
  sameHeader w1 w2 -> sameHeader w2 w3 -> sameHeader w1 w3.
Proof.
  intros (A1 & B1 & C1 & D1 & E1) (A2 & B2 & C2 & D2 & E2).
  repeat split; congruence.
Qed.

Lemma head_ret {A : Type} (a : A) : preserves sameHeader (ret a).
Proof. intros w. apply sameHeader_refl. Qed.

Lemma head_get : preserves sameHeader get.
Proof. intros w. apply sameHeader_refl. Qed.

Lemma head_bind {A B : Type} (m : M A) (k : A -> M B) :
  preserves sameHeader m -> (forall a, preserves sameHeader (k a)) ->
  preserves sameHeader (bind m k).
Proof.
  intros Hm Hk w. unfold exec. rewrite bind_run.
  eapply sameHeader_trans; [apply Hm|apply Hk].
Qed.

Lemma head_modify (f : World -> World) :
  (forall w, sameHeader w (f w)) -> preserves sameHeader (modify f).
Proof. intros H w. apply H. Qed.

Lemma head_alloc (l : list Entry.t) : preserves sameHeader (alloc l).
Proof. intros w. by repeat split. Qed.

Lemma head_fetchJSON {A : Type} (answer : Response A) :
  preserves sameHeader (fetchJSON answer).
Proof. intros w. destruct answer; by repeat split. Qed.

Lemma head_showToast (message type : string) :
  preserves sameHeader (showToast message type).
Proof.
  intros w. unfold exec. rewrite showToast_run. unfold paintToast.
  destruct w as [st a d]; destruct d as [tc ? ? ? ? ? ? ? ? ? ? ? ?]; simpl.
  destruct tc; by repeat split.
Qed.

Lemma head_showLoading (active : bool) : preserves sameHeader (showLoading active).
Proof.
  intros w. unfold exec. rewrite showLoading_run. unfold paintLoading.
  destruct w as [st a d]; destruct d as [? lo ? ? ? ? ? ? ? ? ? ? ?]; simpl.
  destruct lo; by repeat split.
Qed.

Lemma head_renderEntries (entries : ref) :
  preserves sameHeader (renderEntries entries).
Proof.
  intros w. unfold exec. rewrite renderEntries_run. cbn [snd].
  destruct (transaction_body (document w)); [|by repeat split].
  unfold paintEntries, paintInsights, paintCount.
  destruct w as [st a d]; destruct d as [? ? ? ? ? ? ? ? ? ? ? ec il]; simpl.
  destruct ec, il; by repeat split.
Qed.

Lemma head_updateSummaryCards (s : Summary) :
  preserves sameHeader (updateSummaryCards s).
Proof.
  intros w. unfold exec. rewrite updateSummaryCards_run. cbn [snd].
  destruct (cardsPresent (document w)); by repeat split.
Qed.

Create HintDb heads.
#[local] Hint Resolve head_ret head_get head_alloc head_fetchJSON head_showToast
  head_showLoading head_renderEntries head_updateSummaryCards : heads.

(** Splits an action into its steps and closes the ones known to keep the
    header. *)
Ltac heads :=
  repeat first
    [ solve [auto with heads]
    | apply head_bind; [|intros ?]
    | apply head_modify; intros ?; by repeat split
    | match goal with
      | |- preserves sameHeader (if ?c then _ else _) => destruct c
      | |- preserves sameHeader (match ?x with _ => _ end) => destruct x
      end ].

Lemma head_loadEntries : preserves sameHeader loadEntries.
Proof. unfold loadEntries. heads. Qed.

(** The header before [loadEntries] runs, when the list request is
    answered. *)
Lemma resolved_header (cashbooks : list string) (data : CashbooksBody) (w : World) :
  let w' := exec updateCashbookIndicator
              (choose cashbooks (greet data (with_document (paintLoading true) w))) in
  let active := resolveCashbook cashbooks (default "" (url_cashbook w))
                  (activeCashbook (state w)) in
  let name := default "" (body_username data) in
  activeCashbook (state w') = active /\
  username (state w') = (if JSString.truthy name then name else username (state w)) /\
  welcome_user (document w')
  = match welcome_user (document w) with
    | Some text => Some (if JSString.truthy name then "Hi, " +:+ name +:+ "!" else text)
    | None => None
    end /\
  cashbook_indicator (document w')
  = match cashbook_indicator (document w), active_cashbook_name (document w) with
    | Some _, Some _ => Some (if JSString.truthy active then "flex" else "none")
    | shown, _ => shown
    end /\
  active_cashbook_name (document w')
  = match cashbook_indicator (document w), active_cashbook_name (document w) with
    | Some _, Some text => Some (if JSString.truthy active then active else text)
    | _, shown => shown
    end.
Proof.
  intros w' active name. subst w' active name.
  unfold exec. rewrite updateCashbookIndicator_run.
  cbn [snd]. unfold choose, greet.
  destruct w as [st a d dl ls h u c ld b].
  destruct d as [tc lo ci an wu ti to_ be si df tb ec il].
  destruct st as [un ac ae sm].
  unfold paintIndicator, paintLoading.
  destruct (JSString.truthy (default "" (body_username data)));
    destruct lo, wu; cbn -[resolveCashbook];
    generalize (resolveCashbook cashbooks (default "" u) ac) as r; intros r;
    destruct ci, an, (JSString.truthy r); cbn; repeat split; done.
Qed.

(** X28.  When the list request is answered, the header agrees with the
    state once [loadCashbooks] is done, whatever the entry and summary
    requests answer: a user name in the answer is stored and greeted with
    "Hi, <name>!" (an answer without one changes neither), and the cashbook
    indicator is shown with the name of the active cashbook when there is
    one and hidden when there is none. *)
Theorem header_follows_state (w : World) (data : CashbooksBody) :
  get_cashbooks (backend w) = Ok data ->
  let w' := exec loadCashbooks w in
  let name := default "" (body_username data) in
  username (state w') = (if JSString.truthy name then name else username (state w)) /\
  (is_Some (welcome_user (document w)) ->
   welcome_user (document w')
   = if JSString.truthy name
     then Some ("Hi, " +:+ username (state w') +:+ "!")
     else welcome_user (document w)) /\
  (is_Some (cashbook_indicator (document w)) ->
   is_Some (active_cashbook_name (document w)) ->
   if JSString.truthy (activeCashbook (state w'))
   then cashbook_indicator (document w') = Some "flex" /\
        active_cashbook_name (document w') = Some (activeCashbook (state w'))
   else cashbook_indicator (document w') = Some "none" /\
        active_cashbook_name (document w') = active_cashbook_name (document w)).
Proof.
  intros He w' name. subst w' name. rewrite (loadCashbooks_ok w data He).
  destruct (resolved_header (default [] (body_cashbooks data)) data w)
    as (Hac & Hun & Hwu & Hci & Han).
  set (w3 := exec updateCashbookIndicator _) in *.
  destruct (head_loadEntries w3) as (Lun & Lac & Lwu & Lci & Lan).
  set (w4 := exec loadEntries w3) in *.
  assert (Hdoc : forall f : Page -> option string,
            (forall p b, f (paintLoading b p) = f p) ->
            f (document (with_document (paintLoading false) w4))
            = f (document w4)).
  { intros f Hf. cbn [document with_document]. apply Hf. }
  assert (Hpl : forall (g : Page -> option string),
            (forall p v, g (set_loading_overlay v p) = g p) ->
            forall p b, g (paintLoading b p) = g p).
  { intros g Hg p b. unfold paintLoading. destruct (loading_overlay p); [apply Hg|done]. }
  rewrite (Hdoc welcome_user), (Hdoc cashbook_indicator),
    (Hdoc active_cashbook_name) by (apply Hpl; by intros []).
  cbn [state with_document].
  rewrite Lun, Lac, Lwu, Lci, Lan, Hun, Hac, Hwu, Hci, Han.
  split; [done|]. split.
  - intros [text Ht]. rewrite Ht.
    by destruct (JSString.truthy (default "" (body_username data))).
  - intros [i Hi] [n Hn]. rewrite Hi, Hn.
    by destruct (JSString.truthy (resolveCashbook _ _ _)).
Qed.

Lemma header_follows_state_witness :
  cashbook_indicator (document (exec loadCashbooks Sample.urlWork)) = Some "flex" /\
  active_cashbook_name (document (exec loadCashbooks Sample.urlWork)) = Some "Work".
Proof.
  pose proof (proj2 (proj2 (header_follows_state Sample.urlWork
    {| body_username := Some "ann";
       body_cashbooks := Some ["Personal"; "Work"] |} eq_refl))) as H.
  cbv zeta in H. apply H; vm_compute; eauto.
Defined.
